(** * SeoAnalyzer: page analysis, aggregation and CSV export

    A shallow embedding of [src/utils/SeoAnalyzer.ts] (classes [SeoAnalyzer]
    and [SeoDataExtractor]) together with the few platform operations the
    code calls: string methods, [Math.round], and the DOM queries
    [querySelector], [querySelectorAll], [getAttribute] and [textContent].

    The two platform services whose algorithms are not part of the
    repository, [DOMParser.parseFromString] and [new URL(..).pathname], are
    Section variables: every general theorem holds for any parser and any
    URL implementation.  Module [Ref] gives small executable stand-ins for
    both, used to run the code on concrete markup. *)

From Stdlib Require Import ZArith List Bool Ascii String Lia.
From Stdlib Require Import QArith Qround Qabs Qpower.
From Stdlib Require Import DecimalString Permutation Sorted.
From Stdlib Require Import Floats.SpecFloat.
Import ListNotations.

Set Warnings "-register-all".

Local Open Scope string_scope.
Local Open Scope Z_scope.

(** ** JavaScript values and string methods *)

Module JS.

(** A string is a sequence of code units; the model keeps code units below
    256, which covers every literal of the source. *)

Definition chr (n : nat) : ascii := ascii_of_nat n.
Definition str1 (c : ascii) : string := String c EmptyString.

Definition dquote : string := str1 (chr 34).
Definition newline : string := str1 (chr 10).

(** [s.length] *)
Definition length (s : string) : Z := Z.of_nat (String.length s).

(** Truthiness of a string: the empty string is the only falsy one. *)
Definition truthy (s : string) : bool :=
  match s with EmptyString => false | String _ _ => true end.

(** [a || b] on strings, and on nullable strings. *)
Definition or_else (a b : string) : string := if truthy a then a else b.

Definition opt_or_else (a : option string) (b : string) : string :=
  match a with Some s => or_else s b | None => b end.

(** [a || null] *)
Definition or_null (a : option string) : option string :=
  match a with
  | Some s => if truthy s then Some s else None
  | None => None
  end.

(** White space and line terminators removed by [trim], among the code
    units below 256: TAB, LF, VT, FF, CR, SPACE and NBSP. *)
Definition isWhiteSpace (c : ascii) : bool :=
  let n := nat_of_ascii c in
  ((9 <=? n) && (n <=? 13) || (n =? 32) || (n =? 160))%nat.

Fixpoint trimStart (s : string) : string :=
  match s with
  | EmptyString => EmptyString
  | String c r => if isWhiteSpace c then trimStart r else s
  end.

Fixpoint trimEnd (s : string) : string :=
  match s with
  | EmptyString => EmptyString
  | String c r =>
      match trimEnd r with
      | EmptyString => if isWhiteSpace c then EmptyString else str1 c
      | String _ _ as r' => String c r'
      end
  end.

Definition trim (s : string) : string := trimEnd (trimStart s).

(** [n.toString()] and the interpolation of an integer in a template. *)
Definition toString (n : Z) : string := NilZero.string_of_int (Z.to_int n).

(** [s.split(sep)] for a one-character separator. *)
Fixpoint split (sep : ascii) (s : string) : list string :=
  match s with
  | EmptyString => [EmptyString]
  | String c r =>
      if Ascii.eqb c sep then EmptyString :: split sep r
      else match split sep r with
           | [] => [str1 c]
           | w :: ws => String c w :: ws
           end
  end.

(** [xs.join(sep)] *)
Definition join (sep : string) (xs : list string) : string :=
  String.concat sep xs.

(** [s.replace(/c/g, d)] for single characters [c] and [d]. *)
Fixpoint replaceAll (c d : ascii) (s : string) : string :=
  match s with
  | EmptyString => EmptyString
  | String x r => String (if Ascii.eqb x c then d else x) (replaceAll c d r)
  end.

(** [toUpperCase] of one code unit.  It is applied by the source only to
    characters of a URL path name, which is ASCII. *)
Definition toUpperCase (c : ascii) : ascii :=
  let n := nat_of_ascii c in
  if ((97 <=? n) && (n <=? 122))%nat then chr (n - 32) else c.

(** [word.charAt(0).toUpperCase() + word.slice(1)] *)
Definition capitalize (word : string) : string :=
  match word with
  | EmptyString => EmptyString
  | String c r => String (toUpperCase c) r
  end.

(** Numbers.  Every number the code computes is an integer except the
    quotients handed to [Math.round].  A finite number is a rational,
    with the IEEE special values a division by zero gives.  [div] and
    [mul] give the exact quotient and product; [div64] and [mul64] below
    round them to a double as the machine does.  The mean of a batch
    goes through [div]: rounding the quotient to a double first gives the
    same integer (lemma [mean_rounds_alike]).  A percentage is a quotient
    multiplied by 100, where the two roundings show in the result, and
    goes through [div64] and [mul64]. *)
Inductive number : Type :=
| Fin (q : Q)
| PosInf
| NegInf
| NaN.

Definition of_Z (z : Z) : number := Fin (inject_Z z).

Definition Qis_zero (q : Q) : bool := (Qnum q =? 0).
Definition Qis_neg (q : Q) : bool := (Qnum q <? 0).

Definition neg (x : number) : number :=
  match x with
  | Fin q => Fin (- q)
  | PosInf => NegInf
  | NegInf => PosInf
  | NaN => NaN
  end.

(** [x / y] *)
Definition div (x y : number) : number :=
  match x, y with
  | NaN, _ | _, NaN => NaN
  | Fin a, Fin b =>
      if Qis_zero b then
        if Qis_zero a then NaN else if Qis_neg a then NegInf else PosInf
      else Fin (a / b)
  | Fin _, (PosInf | NegInf) => Fin 0
  | (PosInf | NegInf), (PosInf | NegInf) => NaN
  | PosInf, Fin b => if Qis_neg b then NegInf else PosInf
  | NegInf, Fin b => if Qis_neg b then PosInf else NegInf
  end.

(** [x * y] *)
Definition mul (x y : number) : number :=
  match x, y with
  | NaN, _ | _, NaN => NaN
  | Fin a, Fin b => Fin (a * b)
  | Fin a, ((PosInf | NegInf) as i) | ((PosInf | NegInf) as i), Fin a =>
      if Qis_zero a then NaN else if Qis_neg a then neg i else i
  | PosInf, PosInf | NegInf, NegInf => PosInf
  | PosInf, NegInf | NegInf, PosInf => NegInf
  end.

(** [Math.round(x)]: the integer nearest to [x], the larger one on a tie. *)
Definition Math_round (x : number) : number :=
  match x with
  | Fin q => Fin (inject_Z (Qfloor (q + (1 # 2))))
  | other => other
  end.

(** [x >= y]; a comparison with NaN is false. *)
Definition geb (x y : number) : bool :=
  match x, y with
  | NaN, _ | _, NaN => false
  | Fin a, Fin b => Qle_bool b a
  | PosInf, _ => true
  | _, NegInf => true
  | Fin _, PosInf => false
  | NegInf, _ => false
  end.

(** [s.toLowerCase()], for code units below 128; the source applies it
    only before comparing with ASCII literals. *)
Definition lowerChar (c : ascii) : ascii :=
  let n := nat_of_ascii c in
  if ((65 <=? n) && (n <=? 90))%nat then chr (n + 32) else c.

Fixpoint toLowerCase (s : string) : string :=
  match s with
  | EmptyString => EmptyString
  | String c r => String (lowerChar c) (toLowerCase r)
  end.

(** [s.startsWith(prefix)] *)
Fixpoint startsWith (prefix s : string) : bool :=
  match prefix, s with
  | EmptyString, _ => true
  | String a p, String b r => Ascii.eqb a b && startsWith p r
  | String _ _, EmptyString => false
  end.

(** [s.includes(needle)] *)
Fixpoint includes (needle s : string) : bool :=
  startsWith needle s ||
  match s with
  | EmptyString => false
  | String _ r => includes needle r
  end.

(** [s.slice(-n)]: the last [n] code units, all of [s] when it is
    shorter. *)
Fixpoint drop (k : nat) (s : string) : string :=
  match k, s with
  | O, _ => s
  | S k', String _ r => drop k' r
  | S _, EmptyString => EmptyString
  end.

Definition sliceLast (n : nat) (s : string) : string :=
  drop (String.length s - n) s.

(** [s.endsWith(suffix)] *)
Definition endsWith (suffix s : string) : bool :=
  (String.length suffix <=? String.length s)%nat &&
  String.eqb (sliceLast (String.length suffix) s) suffix.

(** Doubles.  A double is a multiple [m * 2^e] of a power of two with
    [m < 2^53] and [e >= -1074]; [round64 q] is the double nearest to the
    rational [q], the one with the even [m] on a tie, and an infinity
    from [2^1024] on.  The sign of a zero is not kept. *)
Definition pow2 (e : Z) : Q := Qpower (2 # 1) e.

(** The exponent [e] with [2^e <= q < 2^(e+1)], for [q > 0]. *)
Definition ilog2 (q : Q) : Z :=
  let e := Z.log2 (Qnum q) - Z.log2 (Zpos (Qden q)) in
  if Qle_bool (pow2 e) q then e else e - 1.

Definition roundHalfEven (q : Q) : Z :=
  let f := Qfloor q in
  match Qcompare (q - inject_Z f) (1 # 2) with
  | Lt => f
  | Gt => f + 1
  | Eq => if Z.even f then f else f + 1
  end.

Definition round64 (q : Q) : number :=
  if Qis_zero q then Fin 0
  else
    let a := Qabs q in
    let e := Z.max (ilog2 a - 52) (-1074) in
    let m := (inject_Z (roundHalfEven (a / pow2 e)) * pow2 e)%Q in
    if Qle_bool (pow2 1024) m then (if Qis_neg q then NegInf else PosInf)
    else Fin (if Qis_neg q then - m else m)%Q.

Definition double (x : number) : number :=
  match x with
  | Fin q => round64 q
  | other => other
  end.

(** [x / y] and [x * y] on doubles. *)
Definition div64 (x y : number) : number := double (div x y).

Definition mul64 (x y : number) : number := double (mul x y).

End JS.

(** ** The DOM operations used by the analyzer *)

Module DOM.

Inductive Node : Type :=
| Text (data : string)
| Comment (data : string)
| Element (localName : string) (attributes : list (string * string))
          (childNodes : list Node).

(** A document is the list of children of its root. *)
Definition Document : Type := list Node.

(** [el.textContent]: the text of all [Text] descendants, in tree order. *)
Fixpoint textContent (n : Node) : string :=
  match n with
  | Text d => d
  | Comment _ => EmptyString
  | Element _ _ cs => String.concat EmptyString (map textContent cs)
  end.

(** [el.getAttribute(name)]; [None] is [null]. *)
Fixpoint lookup (name : string) (attrs : list (string * string))
  : option string :=
  match attrs with
  | [] => None
  | (k, v) :: rest => if String.eqb k name then Some v else lookup name rest
  end.

Definition getAttribute (n : Node) (name : string) : option string :=
  match n with
  | Element _ attrs _ => lookup name attrs
  | _ => None
  end.

(** The elements below a node, the node included, in tree order. *)
Fixpoint elements (n : Node) : list Node :=
  match n with
  | Element _ _ cs => n :: flat_map elements cs
  | _ => []
  end.

(** The two shapes of selector the source uses: [tag] and
    [tag[attr="value"]]. *)
Inductive Selector : Type :=
| ByTag (tag : string)
| ByTagAttr (tag attr value : string).

Definition hasTag (tag : string) (n : Node) : bool :=
  match n with
  | Element t _ _ => String.eqb t tag
  | _ => false
  end.

Definition matches (sel : Selector) (n : Node) : bool :=
  match sel with
  | ByTag tag => hasTag tag n
  | ByTagAttr tag attr value =>
      hasTag tag n &&
      match getAttribute n attr with
      | Some v => String.eqb v value
      | None => false
      end
  end.

Definition querySelectorAll (doc : Document) (sel : Selector) : list Node :=
  filter (matches sel) (flat_map elements doc).

Definition querySelector (doc : Document) (sel : Selector) : option Node :=
  hd_error (querySelectorAll doc sel).

End DOM.

Import DOM.

(** ** Data model of [SeoAnalyzer.ts] *)

(** [SeoIssue.type] and [SeoIssue.category]; the constructors are the
    source's string literals, capitalised. *)
Inductive IssueType : Type := Error | Warning | Info.

Inductive Category : Type := Title | MetaDescription | H1 | Images.

Definition IssueType_eqb (a b : IssueType) : bool :=
  match a, b with
  | Error, Error | Warning, Warning | Info, Info => true
  | _, _ => false
  end.

Definition Category_eqb (a b : Category) : bool :=
  match a, b with
  | Title, Title | MetaDescription, MetaDescription
  | H1, H1 | Images, Images => true
  | _, _ => false
  end.

Record SeoIssue : Type := mkIssue {
  type : IssueType;
  category : Category;
  message : string;
  details : option string
}.

Record ImageRef : Type := mkImageRef {
  src : string;
  alt : option string
}.

Record H1Tag : Type := mkH1Tag {
  text : string;
  count : Z
}.

Record SeoDetails : Type := mkSeoDetails {
  titleText : option string;
  metaDescription : option string;
  h1Tags : list H1Tag;
  imagesWithoutAlt : list ImageRef
}.

Record PageAnalysis : Type := mkPageAnalysis {
  url : string;
  title : string;
  issues : list SeoIssue;
  score : Z;
  crawled : bool;
  seoDetails : SeoDetails
}.

(** ** [SeoAnalyzer.analyzePage] *)

(** The two locals the checks mutate: [issues] (by [push]) and [score]
    (by [-=]). *)
Record Acc : Type := mkAcc {
  acc_issues : list SeoIssue;
  acc_score : Z
}.

Definition acc0 : Acc := mkAcc [] 100.

(** [issues.push(i); score -= penalty;] *)
Definition report (i : SeoIssue) (penalty : Z) (a : Acc) : Acc :=
  mkAcc (acc_issues a ++ [i]) (acc_score a - penalty).

(** [!el || !el.textContent?.trim()] *)
Definition lacksText (el : option Node) : bool :=
  match el with
  | None => true
  | Some e => negb (JS.truthy (JS.trim (textContent e)))
  end.

(** [!el || !el.getAttribute('content')?.trim()] *)
Definition lacksContent (el : option Node) : bool :=
  match el with
  | None => true
  | Some e =>
      match getAttribute e "content" with
      | None => true
      | Some c => negb (JS.truthy (JS.trim c))
      end
  end.

(** Lines 32-57: the title check. *)
Definition checkTitle (titleElement : option Node) (a : Acc) : Acc :=
  if lacksText titleElement then
    report (mkIssue Error Title "Missing title tag"
              (Some "Every page should have a unique title tag for SEO"))
           20 a
  else
    match titleElement with
    | None => a
    | Some e =>
        let len := JS.length (textContent e) in
        if len >? 60 then
          report (mkIssue Warning Title "Title tag too long"
                    (Some ("Title is " ++ JS.toString len ++
                           " characters. Recommended: 50-60 characters")))
                 10 a
        else if len <? 30 then
          report (mkIssue Warning Title "Title tag too short"
                    (Some ("Title is " ++ JS.toString len ++
                           " characters. Recommended: 30-60 characters")))
                 5 a
        else a
    end.

(** Lines 59-88: the meta description check. *)
Definition checkMeta (metaElement : option Node) (a : Acc) : Acc :=
  if lacksContent metaElement then
    report (mkIssue Error MetaDescription "Missing meta description"
              (Some "Meta descriptions help search engines understand your page content"))
           20 a
  else
    match metaElement with
    | None => a
    | Some e =>
        let content := JS.opt_or_else (getAttribute e "content") EmptyString in
        let len := JS.length content in
        if len >? 160 then
          report (mkIssue Warning MetaDescription "Meta description too long"
                    (Some ("Description is " ++ JS.toString len ++
                           " characters. Recommended: 120-160 characters")))
                 10 a
        else if len <? 120 then
          report (mkIssue Warning MetaDescription "Meta description too short"
                    (Some ("Description is " ++ JS.toString len ++
                           " characters. Recommended: 120-160 characters")))
                 5 a
        else a
    end.

(** [list.length] *)
Definition len {A : Type} (l : list A) : Z := Z.of_nat (List.length l).

(** Lines 90-108: the H1 check. *)
Definition checkH1 (h1Elements : list Node) (a : Acc) : Acc :=
  if len h1Elements =? 0 then
    report (mkIssue Error H1 "Missing H1 tag"
              (Some "Every page should have exactly one H1 tag for SEO hierarchy"))
           15 a
  else if len h1Elements >? 1 then
    report (mkIssue Warning H1 "Multiple H1 tags found"
              (Some ("Found " ++ JS.toString (len h1Elements) ++
                     " H1 tags. Recommended: exactly 1 H1 per page")))
           10 a
  else a.

(** [!alt || alt.trim() === ''] *)
Definition lacksAlt (alt : option string) : bool :=
  match alt with
  | None => true
  | Some s => negb (JS.truthy s) || String.eqb (JS.trim s) EmptyString
  end.

(** Lines 111-119: the [forEach] over the images, pushing to
    [imagesWithoutAlt]. *)
Definition collectImage (acc : list ImageRef) (img : Node) : list ImageRef :=
  let alt := getAttribute img "alt" in
  let src := JS.opt_or_else (getAttribute img "src") EmptyString in
  if lacksAlt alt then acc ++ [mkImageRef src alt] else acc.

Definition collectImages (images : list Node) : list ImageRef :=
  fold_left collectImage images [].

(** Lines 121-129: the image issue. *)
Definition checkImages (missing : list ImageRef) (a : Acc) : Acc :=
  if len missing >? 0 then
    report (mkIssue Warning Images
              (JS.toString (len missing) ++ " images without alt attributes")
              (Some "Alt attributes improve accessibility and help search engines understand image content"))
           (Z.min (len missing * 2) 15) a
  else a.

(** Lines 151-156: the title made from the last path part. *)
Definition titleFromPart (part : string) : string :=
  JS.or_else
    (JS.join " "
       (map JS.capitalize
          (JS.split " " (JS.replaceAll "_" " " (JS.replaceAll "-" " " part)))))
    "No title".

Definition nonEmpty (part : string) : bool := JS.length part >? 0.

Section Platform.

(** [new DOMParser().parseFromString(html, 'text/html')] *)
Variable parseFromString : string -> Document.

(** [new URL(url).pathname]; [None] when the constructor throws. *)
Variable URL_pathname : string -> option string.

(** Lines 146-160: the [try] block. *)
Definition titleFromUrl (url : string) : string :=
  match URL_pathname url with
  | Some urlPath =>
      let pathParts := filter nonEmpty (JS.split "/" urlPath) in
      if len pathParts >? 0 then titleFromPart (last pathParts EmptyString)
      else "No title"
  | None => "No title"
  end.

(** Lines 134-162: the displayed title. *)
Definition pageTitle (url : string) (titleElement : option Node)
    (h1Elements : list Node) : string :=
  let fallback :=
    let firstH1 :=
      if len h1Elements >? 0
      then JS.trim (textContent (hd (Text EmptyString) h1Elements))
      else EmptyString in
    if JS.truthy firstH1 && (JS.length firstH1 >? 3) then firstH1
    else titleFromUrl url in
  match option_map (fun e => JS.trim (textContent e)) titleElement with
  | Some titleText =>
      if JS.truthy titleText && (JS.length titleText >? 0) then titleText
      else fallback
  | None => fallback
  end.

Definition analyzePage (url html : string) : PageAnalysis :=
  let doc := parseFromString html in
  let titleElement := querySelector doc (ByTag "title") in
  let metaElement := querySelector doc (ByTagAttr "meta" "name" "description") in
  let h1Elements := querySelectorAll doc (ByTag "h1") in
  let images := querySelectorAll doc (ByTag "img") in
  let missing := collectImages images in
  let a := checkImages missing
             (checkH1 h1Elements
                (checkMeta metaElement (checkTitle titleElement acc0))) in
  let h1TagDetails :=
    map (fun h1 => JS.or_else (JS.trim (textContent h1)) EmptyString)
        h1Elements in
  {| url := url;
     title := pageTitle url titleElement h1Elements;
     issues := acc_issues a;
     score := Z.max 0 (acc_score a);
     crawled := true;
     seoDetails :=
       {| titleText :=
            JS.or_null
              (option_map (fun e => JS.trim (textContent e)) titleElement);
          metaDescription :=
            JS.or_null
              (match metaElement with
               | Some e => option_map JS.trim (getAttribute e "content")
               | None => None
               end);
          h1Tags := [mkH1Tag (JS.join ", " h1TagDetails) (len h1Elements)];
          imagesWithoutAlt := missing |} |}.

End Platform.

(** ** [SeoAnalyzer.generateSummary] *)

(** The counter objects [issuesByType] and [issuesByCategory]: keys in
    insertion order, which is the order [Object.entries] lists them in. *)
Definition Counters (K : Type) : Type := list (K * Z).

Definition issuesByType0 : Counters IssueType :=
  [(Error, 0); (Warning, 0); (Info, 0)].

Definition issuesByCategory0 : Counters Category :=
  [(Title, 0); (MetaDescription, 0); (H1, 0); (Images, 0)].

(** [obj[k]++] *)
Definition incr {K : Type} (eqb : K -> K -> bool) (k : K) (m : Counters K)
  : Counters K :=
  map (fun e => if eqb (fst e) k then (fst e, snd e + 1) else e) m.

(** [obj[k]] *)
Fixpoint get {K : Type} (eqb : K -> K -> bool) (k : K) (m : Counters K) : Z :=
  match m with
  | [] => 0
  | (k', v) :: rest => if eqb k' k then v else get eqb k rest
  end.

(** Lines 197-202: the two nested [forEach]. *)
Definition countIssue (c : Counters IssueType * Counters Category)
    (issue : SeoIssue) : Counters IssueType * Counters Category :=
  (incr IssueType_eqb (type issue) (fst c),
   incr Category_eqb (category issue) (snd c)).

Definition countPage (c : Counters IssueType * Counters Category)
    (page : PageAnalysis) : Counters IssueType * Counters Category :=
  fold_left countIssue (issues page) c.

(** The comparator of line 211, [b - a] on the counts of two entries. *)
Definition compareFn (x y : Category * Z) : Z := snd y - snd x.

(** [Array.prototype.sort] is stable; for a comparator that is a
    consistent ordering its result is the one stable arrangement, which
    insertion from the right computes. *)
Fixpoint insert (x : Category * Z) (l : list (Category * Z))
  : list (Category * Z) :=
  match l with
  | [] => [x]
  | y :: r => if compareFn x y <=? 0 then x :: y :: r else y :: insert x r
  end.

Definition sort (l : list (Category * Z)) : list (Category * Z) :=
  fold_right insert [] l.

Record Summary : Type := mkSummary {
  totalPages : Z;
  totalIssues : Z;
  averageScore : JS.number;
  issuesByType : Counters IssueType;
  issuesByCategory : Counters Category;
  topIssues : list (Category * Z)
}.

Definition generateSummary (analyses : list PageAnalysis) : Summary :=
  let totalPages := len analyses in
  let totalIssues :=
    fold_left (fun sum page => sum + len (issues page)) analyses 0 in
  let averageScore :=
    JS.div (JS.of_Z (fold_left (fun sum page => sum + score page) analyses 0))
           (JS.of_Z totalPages) in
  let counters :=
    fold_left countPage analyses (issuesByType0, issuesByCategory0) in
  {| totalPages := totalPages;
     totalIssues := totalIssues;
     averageScore := JS.Math_round averageScore;
     issuesByType := fst counters;
     issuesByCategory := snd counters;
     topIssues := firstn 3 (sort (snd counters)) |}.

(** ** [SeoDataExtractor] *)

Module SeoDataRow.
Record t : Type := mk {
  url : string;
  titleContent : string;
  titleIssue : string;
  metaDescription : string;
  metaIssue : string;
  h1Count : Z;
  h1Content : string;
  h1Issue : string;
  imagesWithoutAlt : Z;
  totalImages : Z;
  titleSuggestion : string;
  metaSuggestion : string;
  h1Suggestion : string;
  imageSuggestion : string
}.
End SeoDataRow.

(** [!s] for a nullable string. *)
Definition isMissing (s : option string) : bool :=
  match s with Some x => negb (JS.truthy x) | None => true end.

(** [n || 0] *)
Definition num_or_zero (n : Z) : Z := if n =? 0 then 0 else n.

(** Lines 240-313: the body of the [map] callback.  The label and the
    suggestion of a signal, assigned together in the source, are the two
    components of a pair here. *)
Definition extractRow (analysis : PageAnalysis) : SeoDataRow.t :=
  let d := seoDetails analysis in
  (* Title analysis *)
  let titleContent := JS.opt_or_else (titleText d) "MISSING" in
  let titleLength :=
    if String.eqb titleContent "MISSING" then 0 else JS.length titleContent in
  let titleVerdict :=
    if isMissing (titleText d) then
      ("Missing",
       "Add a unique, descriptive title tag (30-60 characters) that includes your main keyword.")
    else if titleLength >? 60 then
      ("Too Long",
       "Shorten your title to 50-60 characters (currently " ++
       JS.toString titleLength ++
       "). Focus on your main keyword and value proposition.")
    else if titleLength <? 30 then
      ("Too Short",
       "Expand your title to 30-60 characters (currently " ++
       JS.toString titleLength ++ "). Add more descriptive keywords.")
    else ("Good", "Your title tag is well optimized.") in
  let titleIssue := fst titleVerdict in
  let titleSuggestion := snd titleVerdict in
  (* Meta description analysis *)
  let metaDescription' := JS.opt_or_else (metaDescription d) "MISSING" in
  let metaLength :=
    if String.eqb metaDescription' "MISSING" then 0
    else JS.length metaDescription' in
  let metaVerdict :=
    if isMissing (metaDescription d) then
      ("Missing",
       "Add a compelling meta description (120-160 characters) that summarizes your page and includes relevant keywords.")
    else if metaLength >? 160 then
      ("Too Long",
       "Shorten your meta description to 120-160 characters (currently " ++
       JS.toString metaLength ++ "). Focus on the most important benefits.")
    else if metaLength <? 120 then
      ("Too Short",
       "Expand your meta description to 120-160 characters (currently " ++
       JS.toString metaLength ++ "). Add more compelling details.")
    else ("Good", "Your meta description is well optimized.") in
  let metaIssue := fst metaVerdict in
  let metaSuggestion := snd metaVerdict in
  (* H1 analysis *)
  let h1Count :=
    match h1Tags d with
    | [] => 0
    | t :: _ => num_or_zero (count t)
    end in
  let h1Content :=
    match h1Tags d with
    | [] => "MISSING"
    | t :: _ => JS.or_else (text t) "MISSING"
    end in
  let h1Verdict :=
    if h1Count =? 0 then
      ("Missing",
       "Add exactly one H1 tag that clearly describes your page content and includes your main keyword.")
    else if h1Count >? 1 then
      ("Multiple H1s",
       "Use only one H1 tag per page (you have " ++ JS.toString h1Count ++
       "). Convert extra H1s to H2 or H3 tags for proper hierarchy.")
    else ("Good", "Your H1 tag structure is optimized.") in
  let h1Issue := fst h1Verdict in
  let h1Suggestion := snd h1Verdict in
  (* Images analysis *)
  let imagesWithoutAlt := len (imagesWithoutAlt d) in
  let imageSuggestion :=
    if imagesWithoutAlt >? 0 then
      "Add descriptive alt text to " ++ JS.toString imagesWithoutAlt ++
      " image(s). Alt text helps screen readers and search engines understand your images."
    else "All images have alt text - great for accessibility!" in
  {| SeoDataRow.url := url analysis;
     SeoDataRow.titleContent := titleContent;
     SeoDataRow.titleIssue := titleIssue;
     SeoDataRow.metaDescription := metaDescription';
     SeoDataRow.metaIssue := metaIssue;
     SeoDataRow.h1Count := h1Count;
     SeoDataRow.h1Content := h1Content;
     SeoDataRow.h1Issue := h1Issue;
     SeoDataRow.imagesWithoutAlt := imagesWithoutAlt;
     SeoDataRow.totalImages := 0;
     SeoDataRow.titleSuggestion := titleSuggestion;
     SeoDataRow.metaSuggestion := metaSuggestion;
     SeoDataRow.h1Suggestion := h1Suggestion;
     SeoDataRow.imageSuggestion := imageSuggestion |}.

Definition extractSeoData (analyses : list PageAnalysis)
  : list SeoDataRow.t :=
  map extractRow analyses.

(** [generateSummaryReport] *)

Record CountShare : Type := mkCountShare {
  share_count : Z;
  percentage : JS.number
}.

Record ImageTotals : Type := mkImageTotals {
  total : Z;
  averagePerPage : JS.number
}.

Record ReportIssues : Type := mkReportIssues {
  missingTitles : CountShare;
  missingMetaDescriptions : CountShare;
  noH1Tags : CountShare;
  multipleH1Tags : CountShare;
  imagesWithoutAltTotals : ImageTotals
}.

Record SummaryReport : Type := mkSummaryReport {
  report_totalPages : Z;
  report_issues : ReportIssues
}.

(** [Math.round((count / totalPages) * 100)]: the quotient is rounded to
    a double, and so is its product by 100, before [Math.round].  The
    two operands are array lengths, which a double holds exactly. *)
Definition percent (count totalPages : Z) : JS.number :=
  JS.Math_round
    (JS.mul64 (JS.div64 (JS.of_Z count) (JS.of_Z totalPages)) (JS.of_Z 100)).

Definition generateSummaryReport (seoData : list SeoDataRow.t)
  : SummaryReport :=
  let totalPages := len seoData in
  let pagesWithMissingTitles :=
    len (filter (fun row => String.eqb (SeoDataRow.titleIssue row) "Missing")
                seoData) in
  let pagesWithMissingMetaDesc :=
    len (filter (fun row => String.eqb (SeoDataRow.metaIssue row) "Missing")
                seoData) in
  let pagesWithNoH1 :=
    len (filter (fun row => SeoDataRow.h1Count row =? 0) seoData) in
  let pagesWithMultipleH1 :=
    len (filter (fun row => SeoDataRow.h1Count row >? 1) seoData) in
  let totalImagesWithoutAlt :=
    fold_left (fun sum row => sum + SeoDataRow.imagesWithoutAlt row)
              seoData 0 in
  {| report_totalPages := totalPages;
     report_issues :=
       {| missingTitles :=
            mkCountShare pagesWithMissingTitles
              (percent pagesWithMissingTitles totalPages);
          missingMetaDescriptions :=
            mkCountShare pagesWithMissingMetaDesc
              (percent pagesWithMissingMetaDesc totalPages);
          noH1Tags :=
            mkCountShare pagesWithNoH1 (percent pagesWithNoH1 totalPages);
          multipleH1Tags :=
            mkCountShare pagesWithMultipleH1
              (percent pagesWithMultipleH1 totalPages);
          imagesWithoutAltTotals :=
            mkImageTotals totalImagesWithoutAlt
              (JS.Math_round
                 (JS.div (JS.of_Z totalImagesWithoutAlt)
                         (JS.of_Z totalPages))) |} |}.

(** [convertToCSV] *)

Definition headers : list string :=
  [ "Page URL";
    "Current Title Tag";
    "Title Issue";
    "Title Recommendation";
    "Current Meta Description";
    "Meta Issue";
    "Meta Recommendation";
    "H1 Count";
    "H1 Content";
    "H1 Issue";
    "H1 Recommendation";
    "Images Missing Alt Text";
    "Image Recommendation" ].

(** The template that puts a value between two double quotes. *)
Definition quoted (s : string) : string := JS.dquote ++ s ++ JS.dquote.

Definition csvCells (row : SeoDataRow.t) : list string :=
  [ quoted (SeoDataRow.url row);
    quoted (SeoDataRow.titleContent row);
    quoted (SeoDataRow.titleIssue row);
    quoted (SeoDataRow.titleSuggestion row);
    quoted (SeoDataRow.metaDescription row);
    quoted (SeoDataRow.metaIssue row);
    quoted (SeoDataRow.metaSuggestion row);
    JS.toString (SeoDataRow.h1Count row);
    quoted (SeoDataRow.h1Content row);
    quoted (SeoDataRow.h1Issue row);
    quoted (SeoDataRow.h1Suggestion row);
    JS.toString (SeoDataRow.imagesWithoutAlt row);
    quoted (SeoDataRow.imageSuggestion row) ].

Definition convertToCSV (seoData : list SeoDataRow.t) : string :=
  let csvRows :=
    JS.join "," headers ::
    map (fun row => JS.join "," (csvCells row)) seoData in
  JS.join JS.newline csvRows.

(** ** Executable stand-ins for the two platform services

    [Ref.parseFromString] reads plain markup: tags with double-quoted,
    bare or missing attribute values, void elements, comments and
    doctype skipped, and no [<] or [>] inside attribute values or text.
    [Ref.URL_pathname] reads [scheme://authority/path?query#fragment].
    They serve to run the analyzer on concrete pages; no general theorem
    depends on them. *)

Module Ref.

Definition isOneOf (cs : string) (c : ascii) : bool :=
  existsb (Ascii.eqb c) (list_ascii_of_string cs).

(** The prefix before the first character satisfying [p], and the rest
    from that character on. *)
Fixpoint takeUntil (p : ascii -> bool) (s : string) : string :=
  match s with
  | EmptyString => EmptyString
  | String c r => if p c then EmptyString else String c (takeUntil p r)
  end.

Fixpoint dropUntil (p : ascii -> bool) (s : string) : string :=
  match s with
  | EmptyString => EmptyString
  | String c r => if p c then s else dropUntil p r
  end.

Definition tail (s : string) : string :=
  match s with EmptyString => EmptyString | String _ r => r end.

Inductive AttrMode : Type :=
| Skip
| InName (name : string)
| AfterEq (name : string)
| InQuoted (name value : string)
| InBare (name value : string).

Fixpoint scanAttrs (m : AttrMode) (s : string) (acc : list (string * string))
  : list (string * string) :=
  match s with
  | EmptyString =>
      match m with
      | Skip => acc
      | InName n | AfterEq n => acc ++ [(n, EmptyString)]
      | InQuoted n v | InBare n v => acc ++ [(n, v)]
      end
  | String c r =>
      match m with
      | Skip =>
          if JS.isWhiteSpace c || Ascii.eqb c "/" then scanAttrs Skip r acc
          else scanAttrs (InName (JS.str1 c)) r acc
      | InName n =>
          if Ascii.eqb c "=" then scanAttrs (AfterEq n) r acc
          else if JS.isWhiteSpace c
               then scanAttrs Skip r (acc ++ [(n, EmptyString)])
               else scanAttrs (InName (n ++ JS.str1 c)) r acc
      | AfterEq n =>
          if Ascii.eqb c (JS.chr 34) then scanAttrs (InQuoted n EmptyString) r acc
          else scanAttrs (InBare n (JS.str1 c)) r acc
      | InQuoted n v =>
          if Ascii.eqb c (JS.chr 34) then scanAttrs Skip r (acc ++ [(n, v)])
          else scanAttrs (InQuoted n (v ++ JS.str1 c)) r acc
      | InBare n v =>
          if JS.isWhiteSpace c then scanAttrs Skip r (acc ++ [(n, v)])
          else scanAttrs (InBare n (v ++ JS.str1 c)) r acc
      end
  end.

Inductive Token : Type :=
| TText (data : string)
| TOpen (name : string) (attrs : list (string * string))
| TClose (name : string).

Definition endsName (c : ascii) : bool :=
  JS.isWhiteSpace c || Ascii.eqb c "/".

(** The tokens of one piece [body>text] that followed a [<]. *)
Definition tokensOfPiece (piece : string) : list Token :=
  let body := takeUntil (Ascii.eqb ">") piece in
  let after := tail (dropUntil (Ascii.eqb ">") piece) in
  let tag :=
    match body with
    | EmptyString => []
    | String c r =>
        if Ascii.eqb c "/" then [TClose (takeUntil endsName r)]
        else if isOneOf "!?" c then []
        else [TOpen (takeUntil endsName body)
                    (scanAttrs Skip (dropUntil endsName body) [])]
    end in
  (tag ++ [TText after])%list.

Definition tokenize (html : string) : list Token :=
  match JS.split "<" html with
  | [] => []
  | first :: pieces => TText first :: flat_map tokensOfPiece pieces
  end.

Definition voidElements : list string :=
  ["area"; "base"; "br"; "col"; "embed"; "hr"; "img"; "input"; "link";
   "meta"; "source"; "track"; "wbr"].

Definition isVoid (name : string) : bool :=
  existsb (String.eqb name) voidElements.

(** An element still open: its name, attributes and the children read
    so far. *)
Definition Frame : Type := (string * list (string * string) * list Node)%type.

Definition Builder : Type := (list Frame * list Node)%type.

Definition addNode (n : Node) (b : Builder) : Builder :=
  match fst b with
  | [] => ([], (snd b ++ [n])%list)
  | (name, attrs, cs) :: open =>
      ((name, attrs, (cs ++ [n])%list) :: open, snd b)
  end.

Definition closeTop (b : Builder) : Builder :=
  match fst b with
  | [] => b
  | (name, attrs, cs) :: open => addNode (Element name attrs cs) (open, snd b)
  end.

Definition build (b : Builder) (t : Token) : Builder :=
  match t with
  | TText EmptyString => b
  | TText d => addNode (Text d) b
  | TOpen name attrs =>
      if isVoid name then addNode (Element name attrs []) b
      else ((name, attrs, []) :: fst b, snd b)
  | TClose name =>
      match fst b with
      | (top, _, _) :: _ => if String.eqb top name then closeTop b else b
      | [] => b
      end
  end.

Definition parseFromString (html : string) : Document :=
  let b := fold_left build (tokenize html) ([], []) in
  snd (fold_left (fun b _ => closeTop b) (fst b) b).

Fixpoint startsWith (prefix s : string) : bool :=
  match prefix, s with
  | EmptyString, _ => true
  | String a p, String b r => Ascii.eqb a b && startsWith p r
  | String _ _, EmptyString => false
  end.

Definition URL_pathname (url : string) : option string :=
  let scheme := takeUntil (Ascii.eqb ":") url in
  let rest := dropUntil (Ascii.eqb ":") url in
  if JS.truthy scheme && startsWith "://" rest then
    let afterAuthority := dropUntil (isOneOf "/?#") (tail (tail (tail rest))) in
    Some (JS.or_else (takeUntil (isOneOf "?#") afterAuthority) "/")
  else None.

End Ref.

(** ** The crawl result: [FirecrawlService.extractPageUrls] and the
    analysis loop of the index page

    A crawled page is an object of which the code reads [metadata]
    (with [sourceURL] and [contentType]), [url], [markdown] and [html];
    each may be absent. *)

Record PageMetadata : Type := mkPageMetadata {
  sourceURL : option string;
  contentType : option string
}.

Module CrawlPage.
Record t : Type := mk {
  metadata : option PageMetadata;
  url : option string;
  markdown : option string;
  html : option string
}.
End CrawlPage.

(** The object [{ data: ... }]; [None] stands for a [data] that is
    missing or is not an array. *)
Module CrawlData.
Record t : Type := mk {
  data : option (list CrawlPage.t)
}.
End CrawlData.

(** [page.metadata?.sourceURL] *)
Definition sourceOf (page : CrawlPage.t) : option string :=
  match CrawlPage.metadata page with
  | Some m => sourceURL m
  | None => None
  end.

(** [page.metadata?.sourceURL || page.url || ''] *)
Definition addressOf (page : CrawlPage.t) : string :=
  JS.opt_or_else (sourceOf page)
    (JS.opt_or_else (CrawlPage.url page) EmptyString).

(** [FirecrawlService.extractPageUrls] *)
Definition extractPageUrls (crawlData : option CrawlData.t) : list string :=
  match crawlData with
  | None => []
  | Some cd =>
      match CrawlData.data cd with
      | None => []
      | Some pages => filter (fun url => JS.length url >? 0) (map addressOf pages)
      end
  end.

(** [x && y] used as a condition, for two nullable strings. *)
Definition bothTruthy (x y : option string) : bool :=
  match x, y with
  | Some a, Some b => JS.truthy a && JS.truthy b
  | _, _ => false
  end.

Section IndexPage.

Variable parseFromString : string -> Document.
Variable URL_pathname : string -> option string.

(** One turn of the loop of [handleAuditSubmit] that fills
    [pageAnalyses]. *)
Definition analyzeStep (pageAnalyses : list PageAnalysis)
    (page : CrawlPage.t) : list PageAnalysis :=
  if bothTruthy (CrawlPage.html page) (sourceOf page) then
    pageAnalyses ++
    [analyzePage parseFromString URL_pathname
       (JS.opt_or_else (sourceOf page) EmptyString)
       (JS.opt_or_else (CrawlPage.html page) EmptyString)]
  else pageAnalyses.

(** The analyses [handleAuditSubmit] collects from a crawl result. *)
Definition analyzePages (crawlData : option CrawlData.t) : list PageAnalysis :=
  match crawlData with
  | None => []
  | Some cd =>
      match CrawlData.data cd with
      | None => []
      | Some pages => fold_left analyzeStep pages []
      end
  end.

(** The summary handed to the results view, and whether the view is
    rendered ([analyses.length > 0 && summary]; the summary object is
    always truthy). *)
Definition summaryOf (crawlData : option CrawlData.t) : Summary :=
  generateSummary (analyzePages crawlData).

Definition resultsShown (crawlData : option CrawlData.t) : bool :=
  len (analyzePages crawlData) >? 0.

End IndexPage.

(** ** Helpers of [SeoResultsDisplay.tsx] *)

Module Display.

Definition getScoreColor (score : JS.number) : string :=
  if JS.geb score (JS.of_Z 90) then "text-audit-pass"
  else if JS.geb score (JS.of_Z 70) then "text-audit-warning"
  else "text-audit-error".

Definition getScoreBadgeVariant (score : JS.number) : string :=
  if JS.geb score (JS.of_Z 90) then "default"
  else if JS.geb score (JS.of_Z 70) then "secondary"
  else "destructive".

(** The state update of [toggleDetails]. *)
Definition toggleDetails (index : Z) (prev : list Z) : list Z :=
  if existsb (Z.eqb index) prev
  then filter (fun i => negb (i =? index)) prev
  else (prev ++ [index])%list.

(** The address shown for an image without alt:
    [img.src.length > 50 ? `...${img.src.slice(-50)}` : img.src]. *)
Definition shownSrc (src : string) : string :=
  if JS.length src >? 50 then "..." ++ JS.sliceLast 50 src else src.

(** The issue badges of a page header: [issues.slice(0, 3)] and
    [length - 3] when [length > 3]. *)
Definition issueBadges (l : list SeoIssue) : list SeoIssue := firstn 3 l.

Definition moreIssues (l : list SeoIssue) : option Z :=
  if len l >? 3 then Some (len l - 3) else None.

End Display.

(** ** The edge function [crawl-website/index.ts] *)

Module Edge.

(** *** Rate limiting

    [rateLimitStore] is a [Map] from client address to a record
    [{ count, lastReset }]; it is threaded through as a list of entries
    in insertion order.  [Date.now()] is the argument [now]. *)

Record ClientData : Type := mkClientData {
  count : Z;
  lastReset : Z
}.

Definition Store : Type := list (string * ClientData).

(** [store.get(key)] *)
Fixpoint Map_get (key : string) (store : Store) : option ClientData :=
  match store with
  | [] => None
  | (k, v) :: rest => if String.eqb k key then Some v else Map_get key rest
  end.

(** [store.set(key, value)]: an existing entry keeps its place. *)
Fixpoint Map_set (key : string) (value : ClientData) (store : Store) : Store :=
  match store with
  | [] => [(key, value)]
  | (k, v) :: rest =>
      if String.eqb k key then (k, value) :: rest
      else (k, v) :: Map_set key value rest
  end.

Definition RATE_LIMIT_WINDOW : Z := 60000.
Definition RATE_LIMIT_MAX_REQUESTS : Z := 10.

(** The result [{ allowed, error? }]. *)
Record RateVerdict : Type := mkRateVerdict {
  allowed : bool;
  rateError : option string
}.

(** [checkRateLimit]; the increment of [clientData.count] changes the
    record held by the store. *)
Definition checkRateLimit (now : Z) (clientIp : string) (store : Store)
  : RateVerdict * Store :=
  let reset := (mkRateVerdict true None,
                Map_set clientIp (mkClientData 1 now) store) in
  match Map_get clientIp store with
  | None => reset
  | Some clientData =>
      if now - lastReset clientData >? RATE_LIMIT_WINDOW then reset
      else if count clientData >=? RATE_LIMIT_MAX_REQUESTS then
        (mkRateVerdict false
           (Some "Rate limit exceeded. Please try again later."), store)
      else
        (mkRateVerdict true None,
         Map_set clientIp
           (mkClientData (count clientData + 1) (lastReset clientData)) store)
  end.

(** *** URL validation *)

(** What the code reads of [new URL(url)]. *)
Record ParsedUrl : Type := mkParsedUrl {
  protocol : string;
  hostname : string
}.

Definition BLOCKED_DOMAINS : list string :=
  ["localhost"; "127.0.0.1"; "0.0.0.0"; "::1"].

Definition BLOCKED_PROTOCOLS : list string := ["file:"; "ftp:"; "ssh:"].

Definition charIn (lo hi : ascii) (c : ascii) : bool :=
  ((nat_of_ascii lo <=? nat_of_ascii c) &&
   (nat_of_ascii c <=? nat_of_ascii hi))%nat.

(** [(1[6-9]|2[0-9]|3[01])\.] at the start of a text. *)
Definition secondOctetPrivate (s : string) : bool :=
  match s with
  | String a (String b (String c _)) =>
      ((Ascii.eqb a "1" && charIn "6" "9" b) ||
       (Ascii.eqb a "2" && charIn "0" "9" b) ||
       (Ascii.eqb a "3" && charIn "0" "1" b)) && Ascii.eqb c "."
  | _ => false
  end.

(** The test of line 39: the host name matches
    [^(10\.|172\.(1[6-9]|2[0-9]|3[01])\.|192\.168\.|127\.)]. *)
Definition privateRange (hostname : string) : bool :=
  JS.startsWith "10." hostname ||
  (JS.startsWith "172." hostname && secondOctetPrivate (JS.drop 4 hostname)) ||
  JS.startsWith "192.168." hostname ||
  JS.startsWith "127." hostname.

(** The result [{ valid, error? }]. *)
Record Validation : Type := mkValidation {
  valid : bool;
  validationError : option string
}.

Section ValidateUrl.

(** [new URL(url)]; [None] when the constructor throws. *)
Variable parseUrl : string -> option ParsedUrl.

Definition validateUrl (url : string) : Validation :=
  match parseUrl url with
  | None => mkValidation false (Some "Invalid URL format")
  | Some parsedUrl =>
      if negb (existsb (String.eqb (protocol parsedUrl)) ["http:"; "https:"])
      then mkValidation false (Some "Only HTTP and HTTPS URLs are allowed")
      else if existsb (fun p => JS.startsWith p (JS.toLowerCase url))
                      BLOCKED_PROTOCOLS
      then mkValidation false (Some "Blocked protocol detected")
      else if existsb (String.eqb (hostname parsedUrl)) BLOCKED_DOMAINS
      then mkValidation false (Some "Local or private URLs are not allowed")
      else if privateRange (hostname parsedUrl)
      then mkValidation false (Some "Private IP addresses are not allowed")
      else mkValidation true None
  end.

End ValidateUrl.

(** *** Polling the crawl job *)

(** What a turn of the loop can throw: an [Error] with its message, or
    some other value. *)
Inductive Thrown : Type :=
| ErrorObject (message : string)
| OtherValue.

(** [sanitizeError] *)
Definition sanitizeError (error : Thrown) : string :=
  match error with
  | ErrorObject message =>
      if JS.includes "API key" message || JS.includes "Authorization" message
      then "Authentication failed"
      else if JS.includes "fetch" message || JS.includes "network" message
      then "Network error occurred"
      else "An error occurred while processing your request"
  | OtherValue => "Unknown error occurred"
  end.

(** The outcome of one status request: a response that is not ok; the
    [status] and [data] of its body ([None] for a [data] that is null or
    undefined); or an exception, when the fetch is rejected, the body is
    not JSON, or a value the turn reads has not the type the code
    expects (a [data] that is no array, a page address that is no string
    in the filter of lines 210-219).  An exception leaves the loop for
    the [catch] of line 252. *)
Inductive PollReply : Type :=
| NotOk
| Status (status : string) (data : option (list CrawlPage.t))
| Throws (error : Thrown).

(** The status code and the body of the response sent back. *)
Record Response : Type := mkResponse {
  code : Z;
  success : bool;
  error : option string;
  pages : option (list CrawlPage.t)
}.

Definition NON_HTML_EXTENSIONS : list string :=
  ["pdf"; "jpg"; "jpeg"; "png"; "gif"; "css"; "js"; "xml"; "json"; "zip";
   "doc"; "docx"].

(** [url.match(/\.(pdf|jpg|...|docx)$/i)] *)
Definition hasNonHtmlExtension (url : string) : bool :=
  existsb (fun ext => JS.endsWith ("." ++ ext) (JS.toLowerCase url))
          NON_HTML_EXTENSIONS.

(** The callback of the filter of lines 210-219. *)
Definition isHtmlPage (page : CrawlPage.t) : bool :=
  let url := addressOf page in
  let contentType :=
    JS.opt_or_else
      (match CrawlPage.metadata page with
       | Some m => contentType m
       | None => None
       end) EmptyString in
  let isHtmlUrl := negb (hasNonHtmlExtension url) in
  let isHtmlContent :=
    JS.includes "text/html" contentType || String.eqb contentType EmptyString in
  isHtmlUrl && isHtmlContent &&
  match CrawlPage.markdown page with
  | Some m => JS.truthy m
  | None => false
  end.

Definition completed (data : option (list CrawlPage.t)) : Response :=
  mkResponse 200 true None
    (Some (match data with
           | Some pages => filter isHtmlPage pages
           | None => []
           end)).

Definition failed : Response :=
  mkResponse 400 false (Some "Crawl job failed") None.

Definition timedOut : Response :=
  mkResponse 408 false (Some "Crawl job timed out") None.

(** The response of the [catch] of lines 252-261. *)
Definition serverError (error : Thrown) : Response :=
  mkResponse 500 false (Some (sanitizeError error)) None.

Definition maxAttempts : nat := 30.

Section Polling.

(** The answer the provider gives to the status request number [n]. *)
Variable replyAt : nat -> PollReply.

(** The loop [while (attempts < maxAttempts)], with [remaining] the
    difference [maxAttempts - attempts]. *)
Fixpoint poll (attempts remaining : nat) : Response :=
  match remaining with
  | O => timedOut
  | S remaining' =>
      let attempts' := S attempts in
      match replyAt attempts' with
      | NotOk => poll attempts' remaining'
      | Status status data =>
          if String.eqb status "completed" then completed data
          else if String.eqb status "failed" then failed
          else poll attempts' remaining'
      | Throws error => serverError error
      end
  end.

Definition pollCrawl : Response := poll 0 maxAttempts.

End Polling.

End Edge.

(** ** Notions used to state the properties *)

(** What one check records and deducts when run from the initial state. *)
Definition recordedBy (check : Acc -> Acc) : list SeoIssue :=
  acc_issues (check acc0).

Definition penaltyOfCheck (check : Acc -> Acc) : Z :=
  acc_score acc0 - acc_score (check acc0).

(** The elements the analyzer looks up in a document. *)
Definition titleOf (doc : Document) : option Node :=
  querySelector doc (ByTag "title").

Definition metaOf (doc : Document) : option Node :=
  querySelector doc (ByTagAttr "meta" "name" "description").

Definition h1sOf (doc : Document) : list Node :=
  querySelectorAll doc (ByTag "h1").

Definition imgsOf (doc : Document) : list Node :=
  querySelectorAll doc (ByTag "img").

Definition titlePenalty (doc : Document) : Z :=
  penaltyOfCheck (checkTitle (titleOf doc)).

Definition metaPenalty (doc : Document) : Z :=
  penaltyOfCheck (checkMeta (metaOf doc)).

Definition h1Penalty (doc : Document) : Z :=
  penaltyOfCheck (checkH1 (h1sOf doc)).

Definition imagePenalty (doc : Document) : Z :=
  penaltyOfCheck (checkImages (collectImages (imgsOf doc))).

(** The issues of one category in a result. *)
Definition issuesIn (c : Category) (r : PageAnalysis) : list SeoIssue :=
  filter (fun i => Category_eqb (category i) c) (issues r).

(** The penalty table of the specification, by message; the image issue
    costs two points per image up to fifteen. *)
Definition fixedPenalties : list (string * Z) :=
  [ ("Missing title tag", 20);
    ("Title tag too long", 10);
    ("Title tag too short", 5);
    ("Missing meta description", 20);
    ("Meta description too long", 10);
    ("Meta description too short", 5);
    ("Missing H1 tag", 15);
    ("Multiple H1 tags found", 10) ].

Fixpoint tableLookup (m : string) (t : list (string * Z)) : Z :=
  match t with
  | [] => 0
  | (k, v) :: rest => if String.eqb k m then v else tableLookup m rest
  end.

Definition penalty (r : PageAnalysis) (i : SeoIssue) : Z :=
  match category i with
  | Images => Z.min (len (imagesWithoutAlt (seoDetails r)) * 2) 15
  | _ => tableLookup (message i) fixedPenalties
  end.

Definition sumPenalties (r : PageAnalysis) : Z :=
  fold_right (fun i s => penalty r i + s) 0 (issues r).

(** The record kept for an image: its [src], or the empty string when it
    has none, and its [alt] as found. *)
Definition imageRefOf (img : Node) : ImageRef :=
  {| src := match getAttribute img "src" with
            | Some s => s
            | None => EmptyString
            end;
     alt := getAttribute img "alt" |}.

(** Boundary texts: a title of 60 and one of 29 characters, a description
    of 160 and one of 119 characters, and pages carrying them with one
    space before the text. *)
Definition title60 : string :=
  "Handmade Oak Furniture and Custom Cabinets in Portland, Ore.".

Definition title29 : string :=
  "Oak Furniture - Portland Shop".

Definition description160 : string :=
  "Browse handmade oak tables, chairs and custom cabinets built to order in our Portland workshop, with free local delivery and a ten-year guarantee on each piece.".

Definition description119 : string :=
  "Browse handmade oak tables, chairs and cabinets built to order in our Portland workshop with free delivery in the city.".

Definition titlePage (t : string) : string :=
  "<html><head><title>" ++ t ++ "</title></head><body></body></html>".

Definition descriptionPage (c : string) : string :=
  "<html><head><meta name=" ++ JS.dquote ++ "description" ++ JS.dquote ++
  " content=" ++ JS.dquote ++ c ++ JS.dquote ++ "></head><body></body></html>".

(** Path segments.  [seg] is the last non-empty segment of the path name
    [p] when [p] is some prefix that is empty or ends in a slash, then
    [seg], which has no slash, then slashes only. *)
Fixpoint allChars (f : ascii -> bool) (s : string) : bool :=
  match s with
  | EmptyString => true
  | String c r => f c && allChars f r
  end.

Definition isSlash (c : ascii) : bool := Ascii.eqb c "/".

Definition onlySlashes (s : string) : bool := allChars isSlash s.

Definition noSlash (s : string) : bool :=
  allChars (fun c => negb (isSlash c)) s.

Definition IsLastSegment (p seg : string) : Prop :=
  seg <> EmptyString /\ noSlash seg = true /\
  exists before after,
    p = before ++ seg ++ after /\ onlySlashes after = true /\
    (before = EmptyString \/ exists b, before = b ++ "/").

(** A segment turned into a title, as the specification words it: hyphens
    and underscores become spaces, and the character that starts a word
    (the first one, and each one after a space) is put in upper case. *)
Definition isSeparator (c : ascii) : bool :=
  Ascii.eqb c "-" || Ascii.eqb c "_" || Ascii.eqb c " ".

Fixpoint titleCase (wordStart : bool) (s : string) : string :=
  match s with
  | EmptyString => EmptyString
  | String c r =>
      if isSeparator c then String " " (titleCase true r)
      else String (if wordStart then JS.toUpperCase c else c)
                  (titleCase false r)
  end.

(** Sums and counts over a batch of analyses. *)
Definition sumZ (l : list Z) : Z := fold_right Z.add 0 l.

Definition countOf {A : Type} (f : A -> bool) (l : list A) : Z :=
  len (filter f l).

Definition allIssues (analyses : list PageAnalysis) : list SeoIssue :=
  flat_map issues analyses.

(** The place of a category in the enumeration title, meta_description,
    h1, images, and the ranking order: larger count first, and among
    equal counts the category enumerated first. *)
Definition catIndex (c : Category) : Z :=
  match c with Title => 0 | MetaDescription => 1 | H1 => 2 | Images => 3 end.

Definition ranksBefore (x y : Category * Z) : Prop :=
  snd x > snd y \/ (snd x = snd y /\ catIndex (fst x) < catIndex (fst y)).

Definition enumeratedBefore (x y : Category * Z) : Prop :=
  catIndex (fst x) < catIndex (fst y).

(** The counters keep their keys, in order. *)
Definition keysKept (c : Counters IssueType * Counters Category) : Prop :=
  map fst (fst c) = [Error; Warning; Info]%list /\
  map fst (snd c) = [Title; MetaDescription; H1; Images]%list.

(** A page with nothing in its body. *)
Definition emptyPage : string := "<html><head></head><body></body></html>".

(** The page of the end-to-end example, its address, and the tree an HTML
    parser builds for it. *)
Definition exampleHtml : string :=
  "<html><head></head><body><img src=" ++ JS.dquote ++ "a.png" ++ JS.dquote
  ++ "></body></html>".

Definition exampleUrl : string := "https://example.com/about-us".

Definition exampleDoc : Document :=
  [Element "html" []
     [Element "head" [] [];
      Element "body" [] [Element "img" [("src", "a.png")] []]]].

(** A number that is an integer. *)
Definition isInteger (x : JS.number) : Prop := exists z, x = JS.of_Z z.

(** The five computed numbers of a summary report. *)
Definition reportNumbers (rep : SummaryReport) : list JS.number :=
  let i := report_issues rep in
  [ percentage (missingTitles i);
    percentage (missingMetaDescriptions i);
    percentage (noH1Tags i);
    percentage (multipleH1Tags i);
    averagePerPage (imagesWithoutAltTotals i) ]%list.

(** The CSV header, and the line of a row as the specification words it:
    the thirteen values separated by commas, each text value put between
    double quotes as it is, the two counts bare. *)
Definition headerLine : string :=
  "Page URL,Current Title Tag,Title Issue,Title Recommendation,Current Meta Description,Meta Issue,Meta Recommendation,H1 Count,H1 Content,H1 Issue,H1 Recommendation,Images Missing Alt Text,Image Recommendation".

Definition rowLine (row : SeoDataRow.t) : string :=
  quoted (SeoDataRow.url row) ++ "," ++
  quoted (SeoDataRow.titleContent row) ++ "," ++
  quoted (SeoDataRow.titleIssue row) ++ "," ++
  quoted (SeoDataRow.titleSuggestion row) ++ "," ++
  quoted (SeoDataRow.metaDescription row) ++ "," ++
  quoted (SeoDataRow.metaIssue row) ++ "," ++
  quoted (SeoDataRow.metaSuggestion row) ++ "," ++
  JS.toString (SeoDataRow.h1Count row) ++ "," ++
  quoted (SeoDataRow.h1Content row) ++ "," ++
  quoted (SeoDataRow.h1Issue row) ++ "," ++
  quoted (SeoDataRow.h1Suggestion row) ++ "," ++
  JS.toString (SeoDataRow.imagesWithoutAlt row) ++ "," ++
  quoted (SeoDataRow.imageSuggestion row).

(** The lines of a text, and texts and rows free of line breaks. *)
Definition lines (s : string) : list string := JS.split (JS.chr 10) s.

Definition notNewline (c : ascii) : bool := negb (Ascii.eqb c (JS.chr 10)).

Definition oneLine (s : string) : bool := allChars notNewline s.

Definition textFields (row : SeoDataRow.t) : list string :=
  [ SeoDataRow.url row; SeoDataRow.titleContent row;
    SeoDataRow.titleIssue row; SeoDataRow.titleSuggestion row;
    SeoDataRow.metaDescription row; SeoDataRow.metaIssue row;
    SeoDataRow.metaSuggestion row; SeoDataRow.h1Content row;
    SeoDataRow.h1Issue row; SeoDataRow.h1Suggestion row;
    SeoDataRow.imageSuggestion row ]%list.

Definition oneLineRow (row : SeoDataRow.t) : Prop :=
  Forall (fun s => oneLine s = true) (textFields row).

(** A page whose heading runs over two lines, and the rows of the batch
    made of that page alone. *)
Definition twoLineHeadingPage : string :=
  "<html><head></head><body><h1>Oak tables" ++ JS.newline ++
  "and chairs</h1></body></html>".

Definition twoLineHeadingRows : list SeoDataRow.t :=
  extractSeoData
    [ analyzePage Ref.parseFromString Ref.URL_pathname
        "https://example.com/shop" twoLineHeadingPage ]%list.

(** Two analysed pages, used as a sample batch. *)
Definition sampleBatch : list PageAnalysis :=
  [ analyzePage Ref.parseFromString Ref.URL_pathname exampleUrl exampleHtml;
    analyzePage Ref.parseFromString Ref.URL_pathname
      "https://example.com/shop" (titlePage title60) ]%list.

(** An analysis that [analyzePage] made. *)
Definition Analyzed (parseFromString : string -> Document)
    (URL_pathname : string -> option string) (a : PageAnalysis) : Prop :=
  exists url html, a = analyzePage parseFromString URL_pathname url html.

(** A crawl result with one page that has markup and an address, one
    without markup and one without address. *)
Definition sampleCrawl : option CrawlData.t :=
  Some (CrawlData.mk (Some
    [ CrawlPage.mk (Some (mkPageMetadata (Some exampleUrl) (Some "text/html")))
        None (Some "# About") (Some exampleHtml);
      CrawlPage.mk (Some (mkPageMetadata (Some "https://example.com/a.pdf") None))
        None (Some "pdf") None;
      CrawlPage.mk None (Some "https://example.com/contact")
        (Some "# Contact") (Some emptyPage) ]%list)).

(** The label of a text signal as a function of the stored text and the
    band of accepted lengths. *)
Definition labelOf (lo hi : Z) (t : option string) : string :=
  match t with
  | None => "Missing"
  | Some s =>
      if negb (JS.truthy s) then "Missing"
      else if JS.length s >? hi then "Too Long"
      else if JS.length s <? lo then "Too Short"
      else "Good"
  end.

(** The label of the h1 signal as a function of the number of h1
    elements. *)
Definition h1LabelOf (k : Z) : string :=
  if k =? 0 then "Missing" else if k >? 1 then "Multiple H1s" else "Good".

(** A page that passes the four checks. *)
Definition cleanPage : string :=
  "<html><head><title>" ++ title60 ++ "</title><meta name=" ++ JS.dquote ++
  "description" ++ JS.dquote ++ " content=" ++ JS.dquote ++ description160 ++
  JS.dquote ++ "></head><body><h1>Oak furniture</h1><img src=a.png alt=" ++
  JS.dquote ++ "An oak table" ++ JS.dquote ++ "></body></html>".

(** How often a character occurs in a text, and in the text values of a
    row. *)
Fixpoint occurrences (c : ascii) (s : string) : nat :=
  match s with
  | EmptyString => O
  | String x r => ((if Ascii.eqb x c then 1 else 0) + occurrences c r)%nat
  end.

(** A reader of one CSV record in the usual convention: cells are
    separated by commas outside double quotes, a cell between double
    quotes may hold commas and line breaks, and two double quotes inside
    it stand for one. *)
Fixpoint readCsvRecord (inQuotes : bool) (cell : string) (s : string)
  : list string :=
  match s with
  | EmptyString => [cell]
  | String c r =>
      if Ascii.eqb c (JS.chr 34) then
        if inQuotes then
          match r with
          | String c' r' =>
              if Ascii.eqb c' (JS.chr 34)
              then readCsvRecord true (cell ++ JS.dquote) r'
              else readCsvRecord false cell r
          | EmptyString => readCsvRecord false cell r
          end
        else readCsvRecord true cell r
      else if Ascii.eqb c "," && negb inQuotes
           then cell :: readCsvRecord false EmptyString r
           else readCsvRecord inQuotes (cell ++ JS.str1 c) r
  end.

(** The thirteen values of a row, in column order. *)
Definition rowValues (row : SeoDataRow.t) : list string :=
  [ SeoDataRow.url row;
    SeoDataRow.titleContent row;
    SeoDataRow.titleIssue row;
    SeoDataRow.titleSuggestion row;
    SeoDataRow.metaDescription row;
    SeoDataRow.metaIssue row;
    SeoDataRow.metaSuggestion row;
    JS.toString (SeoDataRow.h1Count row);
    SeoDataRow.h1Content row;
    SeoDataRow.h1Issue row;
    SeoDataRow.h1Suggestion row;
    JS.toString (SeoDataRow.imagesWithoutAlt row);
    SeoDataRow.imageSuggestion row ]%list.

Definition quoteFree (s : string) : Prop := occurrences (JS.chr 34) s = O.

(** A row whose h1 text holds a double quote. *)
Definition quotedHeadingRow : SeoDataRow.t :=
  extractRow
    (analyzePage Ref.parseFromString Ref.URL_pathname
       "https://example.com/shop"
       ("<html><head></head><body><h1>The " ++ JS.dquote ++ "Oak" ++ JS.dquote
        ++ " range</h1></body></html>")).

(** The verdicts a client gets for requests made at the given times, one
    after the other, and the store left behind. *)
Fixpoint verdicts (clientIp : string) (times : list Z) (store : Edge.Store)
  : list bool * Edge.Store :=
  match times with
  | [] => ([], store)
  | now :: later =>
      let r := Edge.checkRateLimit now clientIp store in
      let rest := verdicts clientIp later (snd r) in
      (Edge.allowed (fst r) :: fst rest, snd rest)
  end.

(** No entry of the store counts more than the limit. *)
Definition withinLimit (store : Edge.Store) : Prop :=
  forall key data,
    Edge.Map_get key store = Some data ->
    1 <= Edge.count data <= Edge.RATE_LIMIT_MAX_REQUESTS.

(** A status reply that ends the polling, and the response it leads to. *)
Definition terminal (reply : Edge.PollReply) : bool :=
  match reply with
  | Edge.NotOk => false
  | Edge.Status status _ =>
      String.eqb status "completed" || String.eqb status "failed"
  | Edge.Throws _ => true
  end.

Definition responseTo (reply : Edge.PollReply) : Edge.Response :=
  match reply with
  | Edge.NotOk => Edge.timedOut
  | Edge.Status status data =>
      if String.eqb status "completed" then Edge.completed data
      else Edge.failed
  | Edge.Throws error => Edge.serverError error
  end.

(** The texts [sanitizeError] can give. *)
Definition sanitizedTexts : list string :=
  ["Authentication failed"; "Network error occurred";
   "An error occurred while processing your request";
   "Unknown error occurred"].

(** A reading of the protocol and the host of an address of the form
    [scheme://host/...], used to run [validateUrl]. *)
Definition sampleParseUrl (url : string) : option Edge.ParsedUrl :=
  let scheme := Ref.takeUntil (Ascii.eqb ":") url in
  let rest := Ref.dropUntil (Ascii.eqb ":") url in
  if JS.truthy scheme && Ref.startsWith "://" rest then
    Some (Edge.mkParsedUrl
            (JS.toLowerCase scheme ++ ":")
            (JS.toLowerCase
               (Ref.takeUntil (Ref.isOneOf "/?#:")
                  (Ref.tail (Ref.tail (Ref.tail rest))))))
  else None.

(** Status replies: the job is still running for three requests, one
    request fails, and the fifth reports completion with three pages. *)
Definition sampleReplies (n : nat) : Edge.PollReply :=
  match n with
  | 4%nat => Edge.NotOk
  | 5%nat =>
      Edge.Status "completed"
        (match sampleCrawl with
         | Some cd => CrawlData.data cd
         | None => None
         end)
  | _ => Edge.Status "scraping" None
  end.

(** Status replies: the job is running, then the second request is
    rejected; a later reply reports completion. *)
Definition interruptedReplies (n : nat) : Edge.PollReply :=
  match n with
  | 2%nat => Edge.Throws (Edge.ErrorObject "error sending request: network unreachable")
  | 3%nat => Edge.Status "completed" (Some [])
  | _ => Edge.Status "scraping" None
  end.

(** The four checks in the words of the specification, to compare the
    score with: the title and the description are measured after
    trimming, an image lacks its alt when the attribute is absent or
    trims to nothing. *)
Definition bandPenalty (lo hi : Z) (t : string) : Z :=
  if JS.length t =? 0 then 20
  else if JS.length t >? hi then 10
  else if JS.length t <? lo then 5
  else 0.

Definition specTitlePenalty (doc : Document) : Z :=
  match titleOf doc with
  | None => 20
  | Some e => bandPenalty 30 60 (JS.trim (textContent e))
  end.

Definition specMetaPenalty (doc : Document) : Z :=
  match metaOf doc with
  | None => 20
  | Some e =>
      match getAttribute e "content" with
      | None => 20
      | Some c => bandPenalty 120 160 (JS.trim c)
      end
  end.

Definition specH1Penalty (doc : Document) : Z :=
  let k := len (h1sOf doc) in
  if k =? 0 then 15 else if k >? 1 then 10 else 0.

Definition specLacksAlt (img : Node) : bool :=
  match getAttribute img "alt" with
  | None => true
  | Some s => JS.length (JS.trim s) =? 0
  end.

Definition specImagePenalty (doc : Document) : Z :=
  let N := len (filter specLacksAlt (imgsOf doc)) in
  if N >? 0 then Z.min (N * 2) 15 else 0.

Definition specScore (doc : Document) : Z :=
  Z.max 0 (100 - (specTitlePenalty doc + specMetaPenalty doc +
                  specH1Penalty doc + specImagePenalty doc)).

(** The title text, and the description, of a page carry no white space
    at either end. *)
Definition unpaddedTitle (doc : Document) : Prop :=
  forall e, titleOf doc = Some e -> JS.trim (textContent e) = textContent e.

Definition unpaddedMeta (doc : Document) : Prop :=
  forall e c, metaOf doc = Some e -> getAttribute e "content" = Some c ->
              JS.trim c = c.

(** The tree of a page whose title is [title60] after one space. *)
Definition paddedTitleDoc : Document :=
  [Element "html" []
     [Element "head" [] [Element "title" [] [Text (" " ++ title60)]];
      Element "body" [] []]].

(** Texts with white space around: [blank s] when [s] is white space
    only, [solid t] when [t] is not empty and neither begins nor ends
    with white space. *)
Definition blank (s : string) : bool := allChars JS.isWhiteSpace s.

Fixpoint lastChar (s : string) : option ascii :=
  match s with
  | EmptyString => None
  | String c r =>
      match lastChar r with
      | None => Some c
      | Some d => Some d
      end
  end.

Definition solid (t : string) : bool :=
  match t, lastChar t with
  | String a _, Some b => negb (JS.isWhiteSpace a) && negb (JS.isWhiteSpace b)
  | _, _ => false
  end.

(** Pages for the display title: a padded title next to an h1; a title of
    white space only with an h1 whose text is spread over two elements;
    the same with an h1 of three characters. *)
Definition titledPage : string :=
  "<html><head><title>  Oak Furniture Shop  </title></head><body><h1>Our Workshop</h1></body></html>".

Definition headedPage : string :=
  "<html><head><title>  </title></head><body><h1> Our <em>Oak</em> Workshop </h1><h1>Second</h1></body></html>".

Definition shortHeadedPage : string :=
  "<html><head><title>  </title></head><body><h1> Oak </h1></body></html>".

(** Doubles of the Standard Library ([SpecFloat]), to compare [round64]
    with: the double of an integer, whether a number of the model and a
    double are the same value, and the comparison for the quotient [c/k]
    and its product by 100, and for the rounding of [m * 2^e]. *)
Definition binary64 (z : Z) : spec_float := binary_normalize 53 1024 z 0 false.

Definition sameValue (x : JS.number) (y : spec_float) : bool :=
  match x, y with
  | JS.Fin a, S754_zero _ => Qeq_bool a 0
  | JS.Fin a, S754_finite s m e =>
      Qeq_bool a ((if s then -1 else 1) * inject_Z (Zpos m) * JS.pow2 e)
  | JS.PosInf, S754_infinity false => true
  | JS.NegInf, S754_infinity true => true
  | JS.NaN, S754_nan => true
  | _, _ => false
  end.

Definition sameShare (c k : Z) : bool :=
  let x := JS.div64 (JS.of_Z c) (JS.of_Z k) in
  let d := SFdiv 53 1024 (binary64 c) (binary64 k) in
  sameValue x d &&
  sameValue (JS.mul64 x (JS.of_Z 100)) (SFmul 53 1024 d (binary64 100)).

Definition upTo (n : nat) : list Z := map Z.of_nat (seq 0 (S n)).

Definition sameRounding (m e : Z) : bool :=
  sameValue (JS.round64 (inject_Z m * JS.pow2 e))
            (binary_normalize 53 1024 m e false).

Definition mantissas : list Z :=
  [1; 3; 7; 2 ^ 52 + 1; 2 ^ 53 - 1; 2 ^ 53 + 1; 2 ^ 53 + 2; 2 ^ 53 + 3;
   2 ^ 54 + 2; 2 ^ 54 + 6; 2 ^ 60 + 1; -3; - (2 ^ 53 + 1); - (2 ^ 53 + 3)].

Definition exponents : list Z :=
  [-1130; -1128; -1127; -1077; -1076; -1075; -1074; -1073; -1022;
   -1; 0; 1; 963; 964; 969; 970; 971; 1023].

(** * Properties *)

Local Open Scope list_scope.

(** ** The accumulator *)

(** Every check either leaves the accumulator alone or calls [report]
    once; both cases are closed by the same steps. *)
Ltac reported :=
  unfold report; cbn [acc_issues acc_score acc0 app]; f_equal; lia.

Ltac untouched :=
  cbn [acc_issues acc_score acc0]; rewrite app_nil_r; f_equal; lia.

Lemma checkTitle_acc (el : option Node) (a : Acc) :
  checkTitle el a =
  mkAcc (acc_issues a ++ recordedBy (checkTitle el))
        (acc_score a - penaltyOfCheck (checkTitle el)).
Proof.
  destruct a as [l s]. unfold recordedBy, penaltyOfCheck, checkTitle.
  destruct (lacksText el); [reported|].
  destruct el as [e|]; [|untouched].
  cbv zeta. destruct (_ >? 60); [reported|].
  destruct (_ <? 30); [reported|untouched].
Qed.

Lemma checkMeta_acc (el : option Node) (a : Acc) :
  checkMeta el a =
  mkAcc (acc_issues a ++ recordedBy (checkMeta el))
        (acc_score a - penaltyOfCheck (checkMeta el)).
Proof.
  destruct a as [l s]. unfold recordedBy, penaltyOfCheck, checkMeta.
  destruct (lacksContent el); [reported|].
  destruct el as [e|]; [|untouched].
  cbv zeta. destruct (_ >? 160); [reported|].
  destruct (_ <? 120); [reported|untouched].
Qed.

Lemma checkH1_acc (h1s : list Node) (a : Acc) :
  checkH1 h1s a =
  mkAcc (acc_issues a ++ recordedBy (checkH1 h1s))
        (acc_score a - penaltyOfCheck (checkH1 h1s)).
Proof.
  destruct a as [l s]. unfold recordedBy, penaltyOfCheck, checkH1.
  destruct (_ =? 0); [reported|].
  destruct (_ >? 1); [reported|untouched].
Qed.

Lemma checkImages_acc (missing : list ImageRef) (a : Acc) :
  checkImages missing a =
  mkAcc (acc_issues a ++ recordedBy (checkImages missing))
        (acc_score a - penaltyOfCheck (checkImages missing)).
Proof.
  destruct a as [l s]. unfold recordedBy, penaltyOfCheck, checkImages.
  destruct (_ >? 0); [reported|untouched].
Qed.

(** What each check can record, with the points it takes. *)

Lemma checkTitle_cases (el : option Node) :
  let rec := recordedBy (checkTitle el) in
  let p := penaltyOfCheck (checkTitle el) in
  (rec = [] /\ p = 0) \/
  (exists i, rec = [i] /\ category i = Title /\
             p = tableLookup (message i) fixedPenalties /\ 5 <= p <= 20).
Proof.
  unfold recordedBy, penaltyOfCheck, checkTitle.
  destruct (lacksText el).
  { right. eexists. cbn. repeat split; lia. }
  destruct el as [e|]; [|left; split; reflexivity].
  cbv zeta. destruct (_ >? 60).
  { right. eexists. cbn. repeat split; lia. }
  destruct (_ <? 30).
  { right. eexists. cbn. repeat split; lia. }
  left; split; reflexivity.
Qed.

Lemma checkMeta_cases (el : option Node) :
  let rec := recordedBy (checkMeta el) in
  let p := penaltyOfCheck (checkMeta el) in
  (rec = [] /\ p = 0) \/
  (exists i, rec = [i] /\ category i = MetaDescription /\
             p = tableLookup (message i) fixedPenalties /\ 5 <= p <= 20).
Proof.
  unfold recordedBy, penaltyOfCheck, checkMeta.
  destruct (lacksContent el).
  { right. eexists. cbn. repeat split; lia. }
  destruct el as [e|]; [|left; split; reflexivity].
  cbv zeta. destruct (_ >? 160).
  { right. eexists. cbn. repeat split; lia. }
  destruct (_ <? 120).
  { right. eexists. cbn. repeat split; lia. }
  left; split; reflexivity.
Qed.

Lemma checkH1_cases (h1s : list Node) :
  let rec := recordedBy (checkH1 h1s) in
  let p := penaltyOfCheck (checkH1 h1s) in
  (rec = [] /\ p = 0) \/
  (exists i, rec = [i] /\ category i = H1 /\
             p = tableLookup (message i) fixedPenalties /\ 10 <= p <= 15).
Proof.
  unfold recordedBy, penaltyOfCheck, checkH1.
  destruct (_ =? 0).
  { right. eexists. cbn. repeat split; lia. }
  destruct (_ >? 1).
  { right. eexists. cbn. repeat split; lia. }
  left; split; reflexivity.
Qed.

Lemma checkImages_cases (missing : list ImageRef) :
  let rec := recordedBy (checkImages missing) in
  let p := penaltyOfCheck (checkImages missing) in
  (rec = [] /\ p = 0) \/
  (exists i, rec = [i] /\ category i = Images /\
             p = Z.min (len missing * 2) 15 /\ 2 <= p <= 15).
Proof.
  unfold recordedBy, penaltyOfCheck, checkImages.
  destruct (len missing >? 0) eqn:E.
  { right. eexists. cbn [report acc_issues acc_score acc0 app category].
    repeat split; lia. }
  left; split; reflexivity.
Qed.

Section Results.

Variable parseFromString : string -> Document.
Variable URL_pathname : string -> option string.

(** The issues of a result are what the four checks record, in the
    order title, meta description, h1, images. *)
Lemma issues_by_check (url html : string) :
  let doc := parseFromString html in
  issues (analyzePage parseFromString URL_pathname url html) =
  recordedBy (checkTitle (titleOf doc)) ++
  recordedBy (checkMeta (metaOf doc)) ++
  recordedBy (checkH1 (h1sOf doc)) ++
  recordedBy (checkImages (collectImages (imgsOf doc))).
Proof.
  intro doc. unfold analyzePage. cbv zeta. cbn [issues].
  fold doc. fold (titleOf doc) (metaOf doc) (h1sOf doc) (imgsOf doc).
  rewrite checkImages_acc, checkH1_acc, checkMeta_acc, checkTitle_acc.
  cbn [acc_issues acc_score acc0 app]. now rewrite <- !app_assoc.
Qed.

(** The score of a result is 100 less the four deductions, floored. *)
Lemma score_by_check (url html : string) :
  let doc := parseFromString html in
  score (analyzePage parseFromString URL_pathname url html) =
  Z.max 0 (100 - (titlePenalty doc + metaPenalty doc +
                  h1Penalty doc + imagePenalty doc)).
Proof.
  intro doc. unfold analyzePage. cbv zeta. cbn [score].
  fold doc. fold (titleOf doc) (metaOf doc) (h1sOf doc) (imgsOf doc).
  rewrite checkImages_acc, checkH1_acc, checkMeta_acc, checkTitle_acc.
  cbn [acc_issues acc_score acc0].
  unfold titlePenalty, metaPenalty, h1Penalty, imagePenalty. f_equal. lia.
Qed.

Lemma fold_penalty_app (r : PageAnalysis) (l1 l2 : list SeoIssue) :
  fold_right (fun i s => penalty r i + s) 0 (l1 ++ l2) =
  fold_right (fun i s => penalty r i + s) 0 l1 +
  fold_right (fun i s => penalty r i + s) 0 l2.
Proof. induction l1 as [|i l1 IH]; cbn; [reflexivity | rewrite IH; lia]. Qed.

(** Summing the table over the recorded issues gives the deductions. *)
Lemma sumPenalties_by_check (url html : string) :
  let doc := parseFromString html in
  sumPenalties (analyzePage parseFromString URL_pathname url html) =
  titlePenalty doc + metaPenalty doc + h1Penalty doc + imagePenalty doc.
Proof.
  intro doc. unfold sumPenalties. rewrite issues_by_check. fold doc.
  rewrite !fold_penalty_app.
  unfold titlePenalty, metaPenalty, h1Penalty, imagePenalty.
  assert (Himg : imagesWithoutAlt (seoDetails (analyzePage parseFromString URL_pathname url html)) =
                 collectImages (imgsOf doc)) by reflexivity.
  generalize dependent (analyzePage parseFromString URL_pathname url html). intros r Himg.
  destruct (checkTitle_cases (titleOf doc)) as [[-> ->]|(i1 & -> & C1 & -> & _)];
  destruct (checkMeta_cases (metaOf doc)) as [[-> ->]|(i2 & -> & C2 & -> & _)];
  destruct (checkH1_cases (h1sOf doc)) as [[-> ->]|(i3 & -> & C3 & -> & _)];
  destruct (checkImages_cases (collectImages (imgsOf doc)))
    as [[-> ->]|(i4 & -> & C4 & -> & _)];
  cbn [fold_right]; unfold penalty;
  rewrite ?C1, ?C2, ?C3, ?C4, ?Himg; lia.
Qed.

Lemma penalties_bounded (doc : Document) :
  0 <= titlePenalty doc <= 20 /\ 0 <= metaPenalty doc <= 20 /\
  0 <= h1Penalty doc <= 15 /\ 0 <= imagePenalty doc <= 15.
Proof.
  unfold titlePenalty, metaPenalty, h1Penalty, imagePenalty.
  destruct (checkTitle_cases (titleOf doc)) as [[_ ->]|(? & _ & _ & _ & ?)];
  destruct (checkMeta_cases (metaOf doc)) as [[_ ->]|(? & _ & _ & _ & ?)];
  destruct (checkH1_cases (h1sOf doc)) as [[_ ->]|(? & _ & _ & _ & ?)];
  destruct (checkImages_cases (collectImages (imgsOf doc)))
    as [[_ ->]|(? & _ & _ & _ & ?)];
  lia.
Qed.

(** Each category's issues come from its own check alone. *)
Lemma issuesIn_by_check (url html : string) :
  let doc := parseFromString html in
  let r := analyzePage parseFromString URL_pathname url html in
  issuesIn Title r = recordedBy (checkTitle (titleOf doc)) /\
  issuesIn MetaDescription r = recordedBy (checkMeta (metaOf doc)) /\
  issuesIn H1 r = recordedBy (checkH1 (h1sOf doc)) /\
  issuesIn Images r =
    recordedBy (checkImages (collectImages (imgsOf doc))).
Proof.
  intros doc r. unfold issuesIn. subst r. rewrite issues_by_check. fold doc.
  rewrite !filter_app.
  destruct (checkTitle_cases (titleOf doc)) as [[-> _]|(i1 & -> & C1 & _)];
  destruct (checkMeta_cases (metaOf doc)) as [[-> _]|(i2 & -> & C2 & _)];
  destruct (checkH1_cases (h1sOf doc)) as [[-> _]|(i3 & -> & C3 & _)];
  destruct (checkImages_cases (collectImages (imgsOf doc)))
    as [[-> _]|(i4 & -> & C4 & _)];
  cbn [filter]; rewrite ?C1, ?C2, ?C3, ?C4; cbn; repeat split; reflexivity.
Qed.

End Results.

(** ** The score *)

(** The images kept are those lacking an alt, in page order. *)
Lemma src_or_empty (a : option string) :
  JS.opt_or_else a EmptyString =
  match a with Some s => s | None => EmptyString end.
Proof. destruct a as [[|c s]|]; reflexivity. Qed.

Lemma collectImage_fold (images : list Node) (acc : list ImageRef) :
  fold_left collectImage images acc =
  acc ++ map imageRefOf
           (filter (fun img => lacksAlt (getAttribute img "alt")) images).
Proof.
  revert acc. induction images as [|img images IH]; intro acc; cbn [fold_left].
  - cbn. now rewrite app_nil_r.
  - rewrite IH. unfold collectImage. cbn [filter].
    destruct (lacksAlt (getAttribute img "alt")); [|reflexivity].
    cbn [map]. rewrite <- app_assoc. cbn [app]. unfold imageRefOf.
    now rewrite src_or_empty.
Qed.

Lemma length_zero (s : string) : (JS.length s =? 0) = negb (JS.truthy s).
Proof. destruct s; [reflexivity|]. unfold JS.length. cbn. reflexivity. Qed.

Lemma titlePenalty_as_specified (doc : Document) :
  unpaddedTitle doc -> titlePenalty doc = specTitlePenalty doc.
Proof.
  intros Hpad. unfold titlePenalty, specTitlePenalty, penaltyOfCheck, checkTitle.
  destruct (titleOf doc) as [e|] eqn:He; [|reflexivity].
  specialize (Hpad e He). cbn [lacksText]. rewrite Hpad.
  destruct (JS.truthy (textContent e)) eqn:Et; cbn [negb].
  - unfold bandPenalty. rewrite length_zero, Et. cbv zeta. cbn [negb].
    destruct (_ >? 60); [reflexivity|]. destruct (_ <? 30); reflexivity.
  - unfold bandPenalty. now rewrite length_zero, Et.
Qed.

Lemma metaPenalty_as_specified (doc : Document) :
  unpaddedMeta doc -> metaPenalty doc = specMetaPenalty doc.
Proof.
  intros Hpad. unfold metaPenalty, specMetaPenalty, penaltyOfCheck, checkMeta.
  destruct (metaOf doc) as [e|] eqn:He; [|reflexivity].
  cbn [lacksContent].
  destruct (getAttribute e "content") as [c|] eqn:Hc; [|reflexivity].
  specialize (Hpad e c He Hc). rewrite Hpad. cbn [JS.opt_or_else].
  destruct (JS.truthy c) eqn:Et; cbn [negb].
  - unfold JS.or_else, bandPenalty. rewrite length_zero, Et.
    cbv zeta. cbn [negb].
    destruct (_ >? 160); [reflexivity|]. destruct (_ <? 120); reflexivity.
  - unfold bandPenalty. now rewrite length_zero, Et.
Qed.

Lemma h1Penalty_as_specified (doc : Document) :
  h1Penalty doc = specH1Penalty doc.
Proof.
  unfold h1Penalty, specH1Penalty, penaltyOfCheck, checkH1. cbv zeta.
  destruct (_ =? 0); [reflexivity|]. destruct (_ >? 1); reflexivity.
Qed.

Lemma specLacksAlt_lacksAlt (img : Node) :
  specLacksAlt img = lacksAlt (getAttribute img "alt").
Proof.
  unfold specLacksAlt, lacksAlt. destruct (getAttribute img "alt") as [s|];
    [|reflexivity].
  rewrite length_zero. destruct s as [|c s]; [reflexivity|].
  cbn [JS.truthy negb orb]. now destruct (JS.trim (String c s)).
Qed.

Lemma imagePenalty_as_specified (doc : Document) :
  imagePenalty doc = specImagePenalty doc.
Proof.
  unfold imagePenalty, specImagePenalty, penaltyOfCheck, checkImages,
    collectImages. cbv zeta.
  rewrite collectImage_fold. cbn [app].
  rewrite (filter_ext _ _ specLacksAlt_lacksAlt).
  unfold len at 1 2 3. rewrite !length_map. fold (len (filter
    (fun img => lacksAlt (getAttribute img "alt")) (imgsOf doc))).
  destruct (_ >? 0); cbn [report acc_score acc0]; lia.
Qed.

(** C1. For every url and html, the score of [analyzePage] is
    [max(0, 100 - sum of the penalties of the recorded issues)], the sum
    being that of the four checks' deductions, and lies between 0 and 100.
    The h1 and the image deductions are those the specification names.
    The title and the description deductions are those the specification
    names when the text carries no white space at its ends, and then the
    score is the specified one; they are taken on the untrimmed length
    otherwise, and the score departs from the specified one: a page whose
    title is 60 characters after one space, with no description and no
    h1, scores 55 where the four checks of the specification give 65.
    For the example page (whose markup parses to a tree with an empty head
    and one image without alt) the four issues are the three "missing"
    errors and the image warning, and the score is 43, as specified. *)
Theorem C1_score_formula_and_bounds :
  forall (parseFromString : string -> Document)
         (URL_pathname : string -> option string),
    (forall url html,
        let r := analyzePage parseFromString URL_pathname url html in
        let doc := parseFromString html in
        score r = Z.max 0 (100 - sumPenalties r) /\
        sumPenalties r =
          titlePenalty doc + metaPenalty doc + h1Penalty doc + imagePenalty doc /\
        0 <= score r <= 100 /\
        h1Penalty doc = specH1Penalty doc /\
        imagePenalty doc = specImagePenalty doc /\
        (unpaddedTitle doc -> titlePenalty doc = specTitlePenalty doc) /\
        (unpaddedMeta doc -> metaPenalty doc = specMetaPenalty doc) /\
        (unpaddedTitle doc -> unpaddedMeta doc -> score r = specScore doc)) /\
    (parseFromString exampleHtml = exampleDoc ->
     let r := analyzePage parseFromString URL_pathname exampleUrl exampleHtml in
     map message (issues r) =
       ["Missing title tag"; "Missing meta description"; "Missing H1 tag";
        "1 images without alt attributes"]%string /\
     map (penalty r) (issues r) = [20; 20; 15; 2] /\
     score r = 43 /\
     specScore exampleDoc = 43) /\
    (forall url,
        let html := titlePage (" " ++ title60)%string in
        parseFromString html = paddedTitleDoc ->
        let r := analyzePage parseFromString URL_pathname url html in
        map message (issues r) =
          ["Title tag too long"; "Missing meta description";
           "Missing H1 tag"]%string /\
        map (penalty r) (issues r) = [10; 20; 15] /\
        score r = 55 /\
        specTitlePenalty paddedTitleDoc = 0 /\
        specScore paddedTitleDoc = 65).
Proof.
  intros parse path. split; [|split].
  - intros url html r doc. subst r.
    rewrite sumPenalties_by_check, score_by_check. fold doc.
    pose proof (penalties_bounded doc).
    pose proof (h1Penalty_as_specified doc) as Hh.
    pose proof (imagePenalty_as_specified doc) as Hi.
    pose proof (titlePenalty_as_specified doc) as Ht.
    pose proof (metaPenalty_as_specified doc) as Hm.
    repeat split; try assumption; try lia.
    intros Hpt Hpm. unfold specScore.
    rewrite <- (Ht Hpt), <- (Hm Hpm), <- Hh, <- Hi. reflexivity.
  - intros Hdoc r. subst r. unfold analyzePage. rewrite Hdoc.
    repeat split; reflexivity.
  - intros url html Hdoc r. subst r html. unfold analyzePage. rewrite Hdoc.
    repeat split; reflexivity.
Qed.

Lemma C1_example_witness :
  (let r := analyzePage Ref.parseFromString Ref.URL_pathname
              exampleUrl exampleHtml in
   map message (issues r) =
     ["Missing title tag"; "Missing meta description"; "Missing H1 tag";
      "1 images without alt attributes"]%string /\
   map (penalty r) (issues r) = [20; 20; 15; 2] /\
   score r = 43 /\
   specScore exampleDoc = 43) /\
  (let r := analyzePage Ref.parseFromString Ref.URL_pathname
              "https://example.com/" (titlePage (" " ++ title60)%string) in
   score r = 55 /\ specScore paddedTitleDoc = 65).
Proof.
  pose proof (C1_score_formula_and_bounds Ref.parseFromString
                Ref.URL_pathname) as (_ & Hexample & Hpadded).
  split.
  - apply Hexample. reflexivity.
  - destruct (Hpadded "https://example.com/"%string) as (_ & _ & H55 & _ & H65);
      [reflexivity|].
    split; assumption.
Defined.

(** ** The H1 check *)

(** C4. With [k] the number of [h1] elements of the parsed page: for
    [k = 0] the one h1 issue is the error "Missing H1 tag" and 15 points
    are deducted; for [k > 1] it is the warning "Multiple H1 tags found"
    whose details carry [k] in decimal, and 10 points are deducted; for
    [k = 1] there is no h1 issue and nothing is deducted.  The deduction
    is the h1 term of the score. *)
Theorem C4_h1_check :
  forall (parseFromString : string -> Document)
         (URL_pathname : string -> option string) (url html : string),
    let doc := parseFromString html in
    let k := len (h1sOf doc) in
    let r := analyzePage parseFromString URL_pathname url html in
    (k = 0 ->
     issuesIn H1 r =
       [mkIssue Error H1 "Missing H1 tag"
          (Some "Every page should have exactly one H1 tag for SEO hierarchy")]
     /\ h1Penalty doc = 15) /\
    (k > 1 ->
     issuesIn H1 r =
       [mkIssue Warning H1 "Multiple H1 tags found"
          (Some ("Found " ++ JS.toString k ++
                 " H1 tags. Recommended: exactly 1 H1 per page")%string)]
     /\ h1Penalty doc = 10) /\
    (k = 1 -> issuesIn H1 r = [] /\ h1Penalty doc = 0) /\
    score r =
      Z.max 0 (100 - (titlePenalty doc + metaPenalty doc +
                      h1Penalty doc + imagePenalty doc)).
Proof.
  intros parse path url html doc k r.
  destruct (issuesIn_by_check parse path url html) as (_ & _ & Hrec & _).
  fold doc r in Hrec. rewrite Hrec.
  unfold h1Penalty, recordedBy, penaltyOfCheck, checkH1. fold k.
  split; [|split; [|split]].
  - intros ->. split; reflexivity.
  - intros Hk. destruct (k =? 0) eqn:E0; [lia|].
    destruct (k >? 1) eqn:E1; [split; reflexivity|lia].
  - intros ->. split; reflexivity.
  - apply score_by_check.
Qed.

Lemma C4_two_h1_witness :
  let html := "<body><h1>First</h1><p>text</p><h1>Second</h1></body>"%string in
  let r := analyzePage Ref.parseFromString Ref.URL_pathname
             "https://example.com/" html in
  issuesIn H1 r =
    [mkIssue Warning H1 "Multiple H1 tags found"
       (Some "Found 2 H1 tags. Recommended: exactly 1 H1 per page"%string)]
  /\ h1Penalty (Ref.parseFromString html) = 10.
Proof.
  intros html r.
  apply (proj1 (proj2 (C4_h1_check Ref.parseFromString Ref.URL_pathname
                         "https://example.com/" html))).
  reflexivity.
Defined.

(** ** The image check *)

Lemma trim_empty_of_falsy (s : string) :
  JS.truthy s = false -> JS.trim s = EmptyString.
Proof. destruct s; [reflexivity | discriminate]. Qed.

Lemma lacksAlt_iff (a : option string) :
  lacksAlt a = true <->
  a = None \/ exists s, a = Some s /\ JS.trim s = EmptyString.
Proof.
  destruct a as [s|]; cbn [lacksAlt].
  - rewrite orb_true_iff, negb_true_iff, String.eqb_eq. split.
    + intros [F|T]; right; exists s; split; auto using trim_empty_of_falsy.
    + intros [N|(s' & E & T)]; [discriminate|]. injection E as <-. now right.
  - split; [now left | reflexivity].
Qed.

(** C5. An image lacks usable alt exactly when its [alt] is absent or
    trims to the empty string, so an empty [alt] counts and [alt] equal to
    x does not.  The images kept are those lacking alt, in page order,
    each as its [src] (empty when absent) and its [alt].  With [N] their
    number: when [N > 0] the one image issue is the warning
    "N images without alt attributes" and [min(2N, 15)] points, at most
    15, are deducted; when [N = 0] there is no image issue and nothing is
    deducted.  The deduction is the image term of the score. *)
Theorem C5_image_alt_check :
  forall (parseFromString : string -> Document)
         (URL_pathname : string -> option string) (url html : string),
    let doc := parseFromString html in
    let r := analyzePage parseFromString URL_pathname url html in
    let missing := imagesWithoutAlt (seoDetails r) in
    let N := len missing in
    (forall a, lacksAlt a = true <->
               a = None \/ exists s, a = Some s /\ JS.trim s = EmptyString) /\
    lacksAlt (Some EmptyString) = true /\
    lacksAlt (Some "x"%string) = false /\
    missing =
      map imageRefOf
          (filter (fun img => lacksAlt (getAttribute img "alt")) (imgsOf doc)) /\
    (N > 0 ->
     issuesIn Images r =
       [mkIssue Warning Images
          (JS.toString N ++ " images without alt attributes")%string
          (Some "Alt attributes improve accessibility and help search engines understand image content"%string)]
     /\ imagePenalty doc = Z.min (N * 2) 15 /\ imagePenalty doc <= 15) /\
    (N = 0 -> issuesIn Images r = [] /\ imagePenalty doc = 0) /\
    score r =
      Z.max 0 (100 - (titlePenalty doc + metaPenalty doc +
                      h1Penalty doc + imagePenalty doc)).
Proof.
  intros parse path url html doc r missing N.
  destruct (issuesIn_by_check parse path url html) as (_ & _ & _ & Hrec).
  fold doc r in Hrec. rewrite Hrec.
  assert (Hm : missing = collectImages (imgsOf doc)) by reflexivity.
  unfold imagePenalty, recordedBy, penaltyOfCheck, checkImages.
  rewrite <- Hm. fold N.
  split; [exact lacksAlt_iff|]. split; [reflexivity|]. split; [reflexivity|].
  split; [rewrite Hm; apply (collectImage_fold _ [])|].
  split; [|split].
  - intros HN. destruct (N >? 0) eqn:E; [|lia].
    cbn [report acc_issues acc_score acc0 app]. repeat split; lia.
  - intros HN. rewrite HN. split; reflexivity.
  - apply score_by_check.
Qed.

Lemma C5_nine_images_witness :
  let html :=
    ("<body><img src=a.png><img><img alt><img alt=x src=b.png>" ++
     "<img alt=" ++ JS.dquote ++ "  " ++ JS.dquote ++ " src=c.png>" ++
     "<img><img><img><img><img></body>")%string in
  let r := analyzePage Ref.parseFromString Ref.URL_pathname
             "https://example.com/" html in
  issuesIn Images r =
    [mkIssue Warning Images "9 images without alt attributes"
       (Some "Alt attributes improve accessibility and help search engines understand image content"%string)]
  /\ imagePenalty (Ref.parseFromString html) = 15
  /\ imagePenalty (Ref.parseFromString html) <= 15.
Proof.
  intros html r.
  pose proof (C5_image_alt_check Ref.parseFromString Ref.URL_pathname
                "https://example.com/" html) as H.
  destruct H as (_ & _ & _ & _ & H & _).
  apply H. reflexivity.
Defined.

(** ** The title check *)

Lemma lacksText_false (e : Node) :
  JS.trim (textContent e) <> EmptyString -> lacksText (Some e) = false.
Proof.
  cbn [lacksText]. destruct (JS.trim (textContent e)); [congruence|reflexivity].
Qed.

(** C2. The title check of [analyzePage] measures the text content of the
    first [title] element as it stands, not trimmed: when the trimmed
    text is not empty, the untrimmed length [n] decides between "too long"
    ([n > 60], 10 points), "too short" ([n < 30], 5 points) and no issue;
    an absent element or one whose text trims to nothing gives the error
    "Missing title tag" and 20 points.  A title of 60 characters after one
    space is therefore reported as too long, with 61 in the details, while
    the text kept in [seoDetails] has 60 characters and the row made by
    [extractRow] for the same page says Good; a title of 29 characters
    after one space raises no issue. *)
Theorem C2_title_check_measures_untrimmed_text :
  forall (parseFromString : string -> Document)
         (URL_pathname : string -> option string) (url html : string),
    let doc := parseFromString html in
    let r := analyzePage parseFromString URL_pathname url html in
    let tooLong n :=
      mkIssue Warning Title "Title tag too long"
        (Some ("Title is " ++ JS.toString n ++
               " characters. Recommended: 50-60 characters")%string) in
    let tooShort n :=
      mkIssue Warning Title "Title tag too short"
        (Some ("Title is " ++ JS.toString n ++
               " characters. Recommended: 30-60 characters")%string) in
    (forall e,
        titleOf doc = Some e -> JS.trim (textContent e) <> EmptyString ->
        let n := JS.length (textContent e) in
        (n > 60 -> issuesIn Title r = [tooLong n] /\ titlePenalty doc = 10) /\
        (n < 30 -> issuesIn Title r = [tooShort n] /\ titlePenalty doc = 5) /\
        (30 <= n <= 60 -> issuesIn Title r = [] /\ titlePenalty doc = 0)) /\
    ((titleOf doc = None \/
      exists e, titleOf doc = Some e /\ JS.trim (textContent e) = EmptyString) ->
     issuesIn Title r =
       [mkIssue Error Title "Missing title tag"
          (Some "Every page should have a unique title tag for SEO"%string)]
     /\ titlePenalty doc = 20) /\
    (forall e,
        titleOf doc = Some e -> textContent e = (" " ++ title60)%string ->
        JS.length (JS.trim (textContent e)) = 60 /\
        issuesIn Title r = [tooLong 61] /\ titlePenalty doc = 10 /\
        titleText (seoDetails r) = Some title60 /\
        SeoDataRow.titleIssue (extractRow r) = "Good"%string) /\
    (forall e,
        titleOf doc = Some e -> textContent e = (" " ++ title29)%string ->
        JS.length (JS.trim (textContent e)) = 29 /\
        issuesIn Title r = [] /\ titlePenalty doc = 0).
Proof.
  intros parse path url html doc r tooLong tooShort.
  destruct (issuesIn_by_check parse path url html) as (Hrec & _).
  fold doc r in Hrec. rewrite Hrec.
  unfold titlePenalty, recordedBy, penaltyOfCheck.
  split; [|split; [|split]].
  - intros e -> Ht. unfold checkTitle. rewrite (lacksText_false e Ht).
    cbv zeta. set (n := JS.length (textContent e)).
    split; [|split]; intros Hn.
    + destruct (n >? 60) eqn:E; [split; reflexivity|lia].
    + destruct (n >? 60) eqn:E; [lia|].
      destruct (n <? 30) eqn:E'; [split; reflexivity|lia].
    + destruct (n >? 60) eqn:E; [lia|].
      destruct (n <? 30) eqn:E'; [lia|split; reflexivity].
  - intros [->|(e & -> & Ht)]; unfold checkTitle, lacksText;
      rewrite ?Ht; split; reflexivity.
  - intros e He Ht.
    assert (Hd : titleText (seoDetails r) = Some title60).
    { subst r. unfold analyzePage. cbn [seoDetails titleText].
      fold doc. fold (titleOf doc). rewrite He. cbn [option_map].
      rewrite Ht. reflexivity. }
    rewrite He. unfold checkTitle, lacksText. rewrite Ht.
    repeat split; try reflexivity; try exact Hd.
    unfold extractRow. rewrite Hd. reflexivity.
  - intros e He Ht. rewrite He. unfold checkTitle, lacksText. rewrite Ht.
    repeat split; reflexivity.
Qed.

Lemma C2_padded_title_witness :
  let html := titlePage (" " ++ title60)%string in
  let r := analyzePage Ref.parseFromString Ref.URL_pathname
             "https://example.com/" html in
  issuesIn Title r =
    [mkIssue Warning Title "Title tag too long"
       (Some "Title is 61 characters. Recommended: 50-60 characters"%string)]
  /\ titleText (seoDetails r) = Some title60
  /\ SeoDataRow.titleIssue (extractRow r) = "Good"%string.
Proof.
  intros html r.
  pose proof (C2_title_check_measures_untrimmed_text Ref.parseFromString
                Ref.URL_pathname "https://example.com/" html) as H.
  destruct H as (_ & _ & H & _).
  destruct (H (Element "title" [] [Text (" " ++ title60)%string]))
    as (_ & H1 & _ & H2 & H3); [reflexivity | reflexivity |].
  repeat split; assumption.
Defined.

(** ** The meta description check *)

Lemma lacksContent_false (e : Node) (c : string) :
  getAttribute e "content" = Some c -> JS.trim c <> EmptyString ->
  lacksContent (Some e) = false /\
  JS.opt_or_else (getAttribute e "content") EmptyString = c.
Proof.
  intros Hc Ht. cbn [lacksContent]. rewrite Hc.
  destruct c as [|x c]; [now elim Ht|].
  destruct (JS.trim (String x c)); [congruence|]. split; reflexivity.
Qed.

(** C3. The meta description check of [analyzePage] measures the
    [content] attribute of the first [meta] element named description as
    it stands, not trimmed: when the trimmed content is not empty, the
    untrimmed length [n] decides between "too long" ([n > 160], 10
    points), "too short" ([n < 120], 5 points) and no issue; an absent
    element, an absent attribute or a content that trims to nothing gives
    the error "Missing meta description" and 20 points.  A description of
    160 characters after one space is therefore reported as too long, with
    161 in the details, while the text kept in [seoDetails] has 160
    characters and the row made by [extractRow] for the same page says
    Good; a description of 119 characters after one space raises no
    issue. *)
Theorem C3_meta_check_measures_untrimmed_content :
  forall (parseFromString : string -> Document)
         (URL_pathname : string -> option string) (url html : string),
    let doc := parseFromString html in
    let r := analyzePage parseFromString URL_pathname url html in
    let tooLong n :=
      mkIssue Warning MetaDescription "Meta description too long"
        (Some ("Description is " ++ JS.toString n ++
               " characters. Recommended: 120-160 characters")%string) in
    let tooShort n :=
      mkIssue Warning MetaDescription "Meta description too short"
        (Some ("Description is " ++ JS.toString n ++
               " characters. Recommended: 120-160 characters")%string) in
    (forall e c,
        metaOf doc = Some e -> getAttribute e "content" = Some c ->
        JS.trim c <> EmptyString ->
        let n := JS.length c in
        (n > 160 ->
         issuesIn MetaDescription r = [tooLong n] /\ metaPenalty doc = 10) /\
        (n < 120 ->
         issuesIn MetaDescription r = [tooShort n] /\ metaPenalty doc = 5) /\
        (120 <= n <= 160 ->
         issuesIn MetaDescription r = [] /\ metaPenalty doc = 0)) /\
    ((metaOf doc = None \/
      exists e, metaOf doc = Some e /\
                (getAttribute e "content" = None \/
                 exists c, getAttribute e "content" = Some c /\
                           JS.trim c = EmptyString)) ->
     issuesIn MetaDescription r =
       [mkIssue Error MetaDescription "Missing meta description"
          (Some "Meta descriptions help search engines understand your page content"%string)]
     /\ metaPenalty doc = 20) /\
    (forall e,
        metaOf doc = Some e ->
        getAttribute e "content" = Some (" " ++ description160)%string ->
        JS.length (JS.trim (" " ++ description160)) = 160 /\
        issuesIn MetaDescription r = [tooLong 161] /\ metaPenalty doc = 10 /\
        metaDescription (seoDetails r) = Some description160 /\
        SeoDataRow.metaIssue (extractRow r) = "Good"%string) /\
    (forall e,
        metaOf doc = Some e ->
        getAttribute e "content" = Some (" " ++ description119)%string ->
        JS.length (JS.trim (" " ++ description119)) = 119 /\
        issuesIn MetaDescription r = [] /\ metaPenalty doc = 0).
Proof.
  intros parse path url html doc r tooLong tooShort.
  destruct (issuesIn_by_check parse path url html) as (_ & Hrec & _).
  fold doc r in Hrec. rewrite Hrec.
  unfold metaPenalty, recordedBy, penaltyOfCheck.
  split; [|split; [|split]].
  - intros e c -> Hc Ht. unfold checkMeta.
    destruct (lacksContent_false e c Hc Ht) as [-> ->].
    cbv zeta. set (n := JS.length c).
    split; [|split]; intros Hn.
    + destruct (n >? 160) eqn:E; [split; reflexivity|lia].
    + destruct (n >? 160) eqn:E; [lia|].
      destruct (n <? 120) eqn:E'; [split; reflexivity|lia].
    + destruct (n >? 160) eqn:E; [lia|].
      destruct (n <? 120) eqn:E'; [lia|split; reflexivity].
  - intros [->|(e & -> & [Hc|(c & Hc & Ht)])]; unfold checkMeta, lacksContent;
      rewrite ?Hc, ?Ht; split; reflexivity.
  - intros e He Hc.
    assert (Hd : metaDescription (seoDetails r) = Some description160).
    { subst r. unfold analyzePage. cbn [seoDetails metaDescription].
      fold doc. fold (metaOf doc). rewrite He, Hc. reflexivity. }
    rewrite He. unfold checkMeta, lacksContent. rewrite Hc.
    repeat split; try reflexivity; try exact Hd.
    unfold extractRow. rewrite Hd. reflexivity.
  - intros e He Hc. rewrite He. unfold checkMeta, lacksContent. rewrite Hc.
    repeat split; reflexivity.
Qed.

Lemma C3_padded_description_witness :
  let html := descriptionPage (" " ++ description160)%string in
  let r := analyzePage Ref.parseFromString Ref.URL_pathname
             "https://example.com/" html in
  issuesIn MetaDescription r =
    [mkIssue Warning MetaDescription "Meta description too long"
       (Some "Description is 161 characters. Recommended: 120-160 characters"%string)]
  /\ metaDescription (seoDetails r) = Some description160
  /\ SeoDataRow.metaIssue (extractRow r) = "Good"%string.
Proof.
  intros html r.
  pose proof (C3_meta_check_measures_untrimmed_content Ref.parseFromString
                Ref.URL_pathname "https://example.com/" html) as H.
  destruct H as (_ & _ & H & _).
  destruct (H (Element "meta"
                 [("name", "description");
                  ("content", " " ++ description160)]%string []))
    as (_ & H1 & _ & H2 & H3); [reflexivity | reflexivity |].
  repeat split; assumption.
Defined.

(** ** The displayed title *)

Lemma append_nil_r (s : string) : (s ++ EmptyString)%string = s.
Proof. induction s as [|c s IH]; cbn; [reflexivity | now rewrite IH]. Qed.

Lemma append_assoc (a b c : string) :
  ((a ++ b) ++ c)%string = (a ++ (b ++ c))%string.
Proof. induction a as [|x a IH]; cbn; [reflexivity | now rewrite IH]. Qed.

Lemma split_not_nil (sep : ascii) (s : string) : JS.split sep s <> [].
Proof.
  destruct s as [|c s]; cbn; [discriminate|].
  destruct (Ascii.eqb c sep); [discriminate|].
  destruct (JS.split sep s); discriminate.
Qed.

(** Splitting distributes over a separator in the middle. *)
Lemma split_app (sep : ascii) (a b : string) :
  JS.split sep (a ++ String sep b) = JS.split sep a ++ JS.split sep b.
Proof.
  induction a as [|c a IH]; cbn.
  - now rewrite Ascii.eqb_refl.
  - destruct (Ascii.eqb c sep); [now rewrite IH|].
    rewrite IH. pose proof (split_not_nil sep a) as Hne.
    destruct (JS.split sep a); [now elim Hne | reflexivity].
Qed.

Lemma split_noSlash (seg : string) :
  noSlash seg = true -> JS.split "/" seg = [seg].
Proof.
  induction seg as [|c seg IH]; cbn; [reflexivity|].
  intros H. apply andb_prop in H as [Hc Hs]. unfold isSlash in Hc.
  apply negb_true_iff in Hc. rewrite Hc, (IH Hs). reflexivity.
Qed.

Lemma split_onlySlashes (t : string) :
  onlySlashes t = true -> filter nonEmpty (JS.split "/" t) = [].
Proof.
  induction t as [|c t IH]; cbn; [reflexivity|].
  intros H. apply andb_prop in H as [Hc Ht]. unfold isSlash in Hc.
  rewrite Hc. cbn. exact (IH Ht).
Qed.

Lemma nonEmpty_true (s : string) : s <> EmptyString -> nonEmpty s = true.
Proof.
  destruct s as [|c s]; [congruence|]. intros _. unfold nonEmpty, JS.length.
  cbn [String.length]. apply Z.gtb_lt. lia.
Qed.

Lemma parts_of_segment (seg after : string) :
  seg <> EmptyString -> noSlash seg = true -> onlySlashes after = true ->
  filter nonEmpty (JS.split "/" (seg ++ after)) = [seg].
Proof.
  intros Hne Hseg Hafter. destruct after as [|c after].
  - rewrite append_nil_r, (split_noSlash seg Hseg). cbn.
    now rewrite (nonEmpty_true seg Hne).
  - cbn in Hafter. apply andb_prop in Hafter as [Hc Hafter].
    unfold isSlash in Hc. apply Ascii.eqb_eq in Hc. subst c.
    rewrite split_app, filter_app, (split_noSlash seg Hseg).
    rewrite (split_onlySlashes after Hafter). cbn.
    now rewrite (nonEmpty_true seg Hne).
Qed.

(** The path part the code picks is the last non-empty segment. *)
Lemma last_part_is_last_segment (p seg : string) :
  IsLastSegment p seg ->
  exists parts, filter nonEmpty (JS.split "/" p) = parts ++ [seg].
Proof.
  intros (Hne & Hseg & before & after & -> & Hafter & [->|(b & ->)]).
  - exists []. cbn [append app]. now apply parts_of_segment.
  - exists (filter nonEmpty (JS.split "/" b)).
    rewrite append_assoc. cbn [append].
    rewrite split_app, filter_app. f_equal. now apply parts_of_segment.
Qed.

(** Every path name has a last non-empty segment or is made of slashes. *)
Lemma pathname_cases (p : string) :
  onlySlashes p = true \/ exists seg, IsLastSegment p seg.
Proof.
  induction p as [|c p IH]; [now left|].
  destruct (isSlash c) eqn:Hc.
  - destruct IH as [Hs|(seg & Hne & Hseg & before & after & -> & Ha & Hb)].
    + left. unfold onlySlashes in *. cbn [allChars]. now rewrite Hc, Hs.
    + right. exists seg. split; [exact Hne|]. split; [exact Hseg|].
      exists (String c before), after. split; [reflexivity|].
      split; [exact Ha|]. right.
      unfold isSlash in Hc. apply Ascii.eqb_eq in Hc. subst c.
      destruct Hb as [->|(b & ->)]; [now exists EmptyString|].
      now exists (String "/" b).
  - destruct IH as [Hs|(seg & Hne & Hseg & before & after & -> & Ha & Hb)].
    + right. exists (String c EmptyString). split; [discriminate|].
      split; [unfold noSlash; cbn [allChars]; now rewrite Hc|].
      exists EmptyString, p. split; [reflexivity|]. split; [exact Hs|now left].
    + right. destruct Hb as [->|(b & ->)].
      * exists (String c seg). split; [discriminate|].
        split; [unfold noSlash in *; cbn [allChars]; now rewrite Hc, Hseg|].
        exists EmptyString, after. split; [reflexivity|].
        split; [exact Ha|now left].
      * exists seg. split; [exact Hne|]. split; [exact Hseg|].
        exists (String c (b ++ "/")), after. split; [reflexivity|].
        split; [exact Ha|]. right. now exists (String c b).
Qed.

Lemma join_cons_char (x : ascii) (w : string) (rest : list string) :
  JS.join " " (String x w :: rest) = String x (JS.join " " (w :: rest)).
Proof. destruct rest; reflexivity. Qed.

(** Replacing, splitting at spaces, capitalising each word and joining
    with spaces is [titleCase]; [wordStart] tells whether the first word
    is capitalised too. *)
Lemma words_titleCase (s : string) (wordStart : bool) :
  match JS.split " " (JS.replaceAll "_" " " (JS.replaceAll "-" " " s)) with
  | w :: ws =>
      JS.join " "
        ((if wordStart then JS.capitalize w else w) :: map JS.capitalize ws)
  | [] => EmptyString
  end = titleCase wordStart s.
Proof.
  revert wordStart. induction s as [|c s IH]; intro wordStart.
  - destruct wordStart; reflexivity.
  - cbn [JS.replaceAll JS.split titleCase]. unfold isSeparator.
    pose proof (split_not_nil " "
                  (JS.replaceAll "_" " " (JS.replaceAll "-" " " s))) as Hne.
    destruct (Ascii.eqb_spec c "-") as [->|Hh]; cbn [orb].
    { cbn [Ascii.eqb Bool.eqb andb].
      specialize (IH true).
      destruct (JS.split " " (JS.replaceAll "_" " " (JS.replaceAll "-" " " s)))
        as [|w ws]; [now elim Hne|].
      rewrite <- IH. destruct wordStart; reflexivity. }
    destruct (Ascii.eqb_spec c "_") as [->|Hu]; cbn [orb].
    { cbn [Ascii.eqb Bool.eqb andb].
      specialize (IH true).
      destruct (JS.split " " (JS.replaceAll "_" " " (JS.replaceAll "-" " " s)))
        as [|w ws]; [now elim Hne|].
      rewrite <- IH. destruct wordStart; reflexivity. }
    destruct (Ascii.eqb_spec c " ") as [->|Hs].
    { specialize (IH true).
      destruct (JS.split " " (JS.replaceAll "_" " " (JS.replaceAll "-" " " s)))
        as [|w ws]; [now elim Hne|].
      rewrite <- IH. destruct wordStart; reflexivity. }
    specialize (IH false).
    destruct (JS.split " " (JS.replaceAll "_" " " (JS.replaceAll "-" " " s)))
      as [|w ws]; [now elim Hne|].
    rewrite <- IH.
    destruct wordStart; cbn [JS.capitalize]; now rewrite join_cons_char.
Qed.

Lemma titleFromPart_titleCase (part : string) :
  part <> EmptyString ->
  titleFromPart part = titleCase true part /\
  titleCase true part <> EmptyString.
Proof.
  intros Hne. unfold titleFromPart.
  pose proof (words_titleCase part true) as H.
  pose proof (split_not_nil " "
                (JS.replaceAll "_" " " (JS.replaceAll "-" " " part))) as Hnil.
  destruct (JS.split " " (JS.replaceAll "_" " " (JS.replaceAll "-" " " part)))
    as [|w ws]; [now elim Hnil|].
  change (JS.capitalize w :: map JS.capitalize ws)
    with (map JS.capitalize (w :: ws)) in H.
  rewrite H. destruct part as [|c part]; [now elim Hne|].
  cbn [titleCase]. destruct (isSeparator c); split; (reflexivity || discriminate).
Qed.

Section TitleFromUrl.

Variable URL_pathname : string -> option string.

Lemma titleFromUrl_throws (url : string) :
  URL_pathname url = None -> titleFromUrl URL_pathname url = "No title"%string.
Proof. unfold titleFromUrl. now intros ->. Qed.

Lemma titleFromUrl_no_segment (url p : string) :
  URL_pathname url = Some p -> onlySlashes p = true ->
  titleFromUrl URL_pathname url = "No title"%string.
Proof.
  unfold titleFromUrl. intros -> Hp.
  now rewrite (split_onlySlashes p Hp).
Qed.

Lemma titleFromUrl_segment (url p seg : string) :
  URL_pathname url = Some p -> IsLastSegment p seg ->
  titleFromUrl URL_pathname url = titleCase true seg.
Proof.
  unfold titleFromUrl. intros -> Hseg.
  destruct (last_part_is_last_segment p seg Hseg) as [parts ->].
  destruct Hseg as (Hne & _).
  replace (len (parts ++ [seg]) >? 0) with true.
  - rewrite last_last. now apply titleFromPart_titleCase.
  - symmetry. apply Z.gtb_lt. unfold len. rewrite length_app. cbn. lia.
Qed.

End TitleFromUrl.

Section PageTitle.

Variable URL_pathname : string -> option string.
Variable url : string.

Lemma pageTitle_from_title (e : Node) (h1s : list Node) :
  JS.trim (textContent e) <> EmptyString ->
  pageTitle URL_pathname url (Some e) h1s = JS.trim (textContent e).
Proof.
  intros Hne. unfold pageTitle. cbn [option_map].
  pose proof (nonEmpty_true _ Hne) as Hlen. unfold nonEmpty in Hlen.
  rewrite Hlen. destruct (JS.trim (textContent e)); [now elim Hne|reflexivity].
Qed.

Lemma pageTitle_without_title (el : option Node) (h1s : list Node) :
  el = None \/
  (exists e, el = Some e /\ JS.trim (textContent e) = EmptyString) ->
  pageTitle URL_pathname url el h1s = pageTitle URL_pathname url None h1s.
Proof.
  intros [->|(e & -> & He)]; [reflexivity|].
  unfold pageTitle. cbn [option_map]. rewrite He. reflexivity.
Qed.

Lemma pageTitle_from_h1 (h : Node) (rest : list Node) :
  JS.length (JS.trim (textContent h)) > 3 ->
  pageTitle URL_pathname url None (h :: rest) = JS.trim (textContent h).
Proof.
  intros Hlen.
  assert (Hpos : (len (h :: rest) >? 0) = true)
    by (apply Z.gtb_lt; unfold len; cbn [List.length]; lia).
  assert (Hgt : (JS.length (JS.trim (textContent h)) >? 3) = true)
    by (apply Z.gtb_lt; lia).
  unfold pageTitle. cbn [option_map hd]. cbv zeta. rewrite Hpos, Hgt.
  destruct (JS.trim (textContent h)); [|reflexivity].
  unfold JS.length in Hlen. cbn in Hlen. lia.
Qed.

Lemma pageTitle_from_url (h1s : list Node) :
  h1s = [] \/
  (exists h rest, h1s = h :: rest /\
                  JS.length (JS.trim (textContent h)) <= 3) ->
  pageTitle URL_pathname url None h1s = titleFromUrl URL_pathname url.
Proof.
  intros [->|(h & rest & -> & Hlen)]; [reflexivity|].
  assert (Hle : (JS.length (JS.trim (textContent h)) >? 3) = false)
    by (rewrite Z.gtb_ltb; apply Z.ltb_ge; lia).
  unfold pageTitle. cbn [option_map hd]. cbv zeta.
  destruct (len (h :: rest) >? 0); [|reflexivity].
  now rewrite Hle, andb_false_r.
Qed.

End PageTitle.

(** [trim] removes the white space around a text and nothing else. *)
Lemma trimStart_blank (pre s : string) :
  blank pre = true -> JS.trimStart (pre ++ s) = JS.trimStart s.
Proof.
  unfold blank. induction pre as [|c pre IH]; cbn [allChars append JS.trimStart];
    [reflexivity|].
  intros H. apply andb_prop in H as [Hc Hpre]. rewrite Hc. now apply IH.
Qed.

Lemma trimEnd_blank (s post : string) :
  blank post = true -> JS.trimEnd (s ++ post) = JS.trimEnd s.
Proof.
  intros Hpost.
  assert (Hnil : JS.trimEnd post = EmptyString).
  { unfold blank in Hpost. induction post as [|c post IH]; [reflexivity|].
    cbn [allChars] in Hpost. apply andb_prop in Hpost as [Hc Hp].
    cbn [JS.trimEnd]. now rewrite (IH Hp), Hc. }
  induction s as [|c s IH]; cbn [append JS.trimEnd]; [exact Hnil|].
  now rewrite IH.
Qed.

Lemma trimEnd_solid (t : string) (b : ascii) :
  lastChar t = Some b -> JS.isWhiteSpace b = false -> JS.trimEnd t = t.
Proof.
  intros Hlast Hb. induction t as [|c t IH]; [reflexivity|].
  cbn [lastChar] in Hlast. cbn [JS.trimEnd].
  destruct (lastChar t) as [d|] eqn:El.
  - rewrite (IH Hlast). destruct t; [discriminate El|reflexivity].
  - destruct t as [|x t]; [|cbn [lastChar] in El; destruct (lastChar t); discriminate].
    injection Hlast as ->. cbn [JS.trimEnd]. now rewrite Hb.
Qed.

Lemma trim_padded (pre t post : string) :
  blank pre = true -> blank post = true -> solid t = true ->
  JS.trim (pre ++ t ++ post) = t /\ t <> EmptyString.
Proof.
  intros Hpre Hpost Ht. unfold solid in Ht.
  destruct t as [|a t']; [discriminate|].
  destruct (lastChar (String a t')) as [b|] eqn:El; [|discriminate].
  apply andb_prop in Ht as [Ha Hb].
  apply negb_true_iff in Ha. apply negb_true_iff in Hb.
  split; [|discriminate].
  unfold JS.trim. rewrite (trimStart_blank _ _ Hpre).
  cbn [append JS.trimStart]. rewrite Ha.
  change (String a (t' ++ post)) with (String a t' ++ post)%string.
  rewrite (trimEnd_blank _ _ Hpost). now apply (trimEnd_solid _ b).
Qed.

(** C6. The [title] of the result follows the chain: the trimmed text of
    the first [title] element when it is not empty; otherwise the trimmed
    text of the first [h1] when it is longer than 3; otherwise, from the
    path name of the url, the last non-empty segment in title case
    (hyphens and underscores turned into spaces, each word's first letter
    in upper case), which is never empty, and "No title" when the path
    has no such segment or the url does not parse.  A path name always
    falls in one of the two cases.  Trimmed means: a text made of white
    space, then [t], then white space, where [t] neither begins nor ends
    with white space, gives [t].  For a page with no title and no h1 at
    https://example.com/about-us, whose path name is /about-us, the title
    is "About Us". *)
Theorem C6_display_title_chain :
  forall (parseFromString : string -> Document)
         (URL_pathname : string -> option string) (url html : string),
    let doc := parseFromString html in
    let r := analyzePage parseFromString URL_pathname url html in
    let noTitle :=
      titleOf doc = None \/
      exists e, titleOf doc = Some e /\ JS.trim (textContent e) = EmptyString in
    let noH1 :=
      h1sOf doc = [] \/
      exists h rest, h1sOf doc = h :: rest /\
                     JS.length (JS.trim (textContent h)) <= 3 in
    (forall e,
        titleOf doc = Some e -> JS.trim (textContent e) <> EmptyString ->
        title r = JS.trim (textContent e)) /\
    (noTitle ->
     forall h rest,
       h1sOf doc = h :: rest -> JS.length (JS.trim (textContent h)) > 3 ->
       title r = JS.trim (textContent h)) /\
    (noTitle -> noH1 ->
     (forall p seg,
         URL_pathname url = Some p -> IsLastSegment p seg ->
         title r = titleCase true seg /\
         title r = (if String.eqb (titleCase true seg) EmptyString
                    then "No title" else titleCase true seg)%string) /\
     (forall p,
         URL_pathname url = Some p -> onlySlashes p = true ->
         title r = "No title"%string) /\
     (URL_pathname url = None -> title r = "No title"%string)) /\
    (forall p, onlySlashes p = true \/ exists seg, IsLastSegment p seg) /\
    (url = exampleUrl -> URL_pathname url = Some "/about-us"%string ->
     titleOf doc = None -> h1sOf doc = [] ->
     title r = "About Us"%string) /\
    (forall e pre t post,
        titleOf doc = Some e -> textContent e = (pre ++ t ++ post)%string ->
        blank pre = true -> blank post = true -> solid t = true ->
        title r = t) /\
    (forall e h rest pre t post,
        titleOf doc = Some e -> blank (textContent e) = true ->
        h1sOf doc = h :: rest -> textContent h = (pre ++ t ++ post)%string ->
        blank pre = true -> blank post = true -> solid t = true ->
        (JS.length t > 3 -> title r = t) /\
        (JS.length t <= 3 -> URL_pathname url = Some "/about-us"%string ->
         title r = "About Us"%string)).
Proof.
  intros parse path url html doc r noTitle noH1.
  assert (Ht : title r = pageTitle path url (titleOf doc) (h1sOf doc))
    by reflexivity.
  rewrite Ht. clear Ht.
  split; [|split; [|split; [|split; [|split; [|split]]]]].
  - intros e -> Hne. now apply pageTitle_from_title.
  - intros Hno h rest -> Hlen.
    rewrite (pageTitle_without_title path url _ _ Hno).
    now apply pageTitle_from_h1.
  - intros Hno Hh1.
    rewrite (pageTitle_without_title path url _ _ Hno).
    rewrite (pageTitle_from_url path url _ Hh1).
    split; [|split].
    + intros p seg Hp Hseg.
      rewrite (titleFromUrl_segment path url p seg Hp Hseg).
      destruct Hseg as (Hne & _).
      destruct (titleFromPart_titleCase seg Hne) as [_ Hcase].
      split; [reflexivity|].
      destruct (String.eqb_spec (titleCase true seg) EmptyString);
        [contradiction|reflexivity].
    + intros p Hp Hs. now apply (titleFromUrl_no_segment path url p).
    + now apply titleFromUrl_throws.
  - exact pathname_cases.
  - intros -> Hp -> ->. unfold pageTitle, titleFromUrl. cbn [option_map].
    rewrite Hp. reflexivity.
  - intros e pre t post -> Htext Hpre Hpost Hsolid.
    destruct (trim_padded pre t post Hpre Hpost Hsolid) as [Htrim Hne].
    rewrite <- Htext in Htrim.
    rewrite (pageTitle_from_title path url e); rewrite Htrim; trivial.
  - intros e h rest pre t post -> Hblank -> Htext Hpre Hpost Hsolid.
    destruct (trim_padded pre t post Hpre Hpost Hsolid) as [Htrim Hne].
    rewrite <- Htext in Htrim.
    assert (Hempty : JS.trim (textContent e) = EmptyString).
    { unfold JS.trim.
      rewrite <- (append_nil_r (textContent e)).
      rewrite (trimStart_blank _ _ Hblank). reflexivity. }
    assert (Hno : Some e = None \/
                  exists e', Some e = Some e' /\
                             JS.trim (textContent e') = EmptyString)
      by (right; exists e; now split).
    rewrite (pageTitle_without_title path url _ _ Hno).
    split.
    + intros Hlen. rewrite (pageTitle_from_h1 path url h rest); rewrite Htrim;
        trivial.
    + intros Hlen Hp.
      rewrite (pageTitle_from_url path url (h :: rest)).
      * unfold titleFromUrl. rewrite Hp. reflexivity.
      * right. exists h, rest. split; [reflexivity|]. now rewrite Htrim.
Qed.

Lemma C6_about_us_witness :
  title (analyzePage Ref.parseFromString Ref.URL_pathname exampleUrl emptyPage)
  = "About Us"%string /\
  title (analyzePage Ref.parseFromString Ref.URL_pathname exampleUrl titledPage)
  = "Oak Furniture Shop"%string /\
  title (analyzePage Ref.parseFromString Ref.URL_pathname exampleUrl headedPage)
  = "Our Oak Workshop"%string /\
  title (analyzePage Ref.parseFromString Ref.URL_pathname exampleUrl
           shortHeadedPage)
  = "About Us"%string.
Proof.
  split; [|split; [|split]].
  - pose proof (C6_display_title_chain Ref.parseFromString Ref.URL_pathname
                  exampleUrl emptyPage) as H.
    destruct H as (_ & _ & _ & _ & H & _).
    apply H; reflexivity.
  - pose proof (C6_display_title_chain Ref.parseFromString Ref.URL_pathname
                  exampleUrl titledPage) as H.
    destruct H as (_ & _ & _ & _ & _ & H & _).
    apply (H (Element "title" [] [Text "  Oak Furniture Shop  "])
             "  "%string "Oak Furniture Shop"%string "  "%string);
      reflexivity.
  - pose proof (C6_display_title_chain Ref.parseFromString Ref.URL_pathname
                  exampleUrl headedPage) as H.
    destruct H as (_ & _ & _ & _ & _ & _ & H).
    apply (H (Element "title" [] [Text "  "])
             (Element "h1" []
                [Text " Our "; Element "em" [] [Text "Oak"]; Text " Workshop "])
             [Element "h1" [] [Text "Second"]]
             " "%string "Our Oak Workshop"%string " "%string);
      try reflexivity; unfold JS.length; cbn; lia.
  - pose proof (C6_display_title_chain Ref.parseFromString Ref.URL_pathname
                  exampleUrl shortHeadedPage) as H.
    destruct H as (_ & _ & _ & _ & _ & _ & H).
    apply (H (Element "title" [] [Text "  "])
             (Element "h1" [] [Text " Oak "]) []
             " "%string "Oak"%string " "%string);
      try reflexivity; unfold JS.length; cbn; lia.
Defined.

(** ** The summary *)

Lemma fold_add_acc {A : Type} (f : A -> Z) (l : list A) (acc : Z) :
  fold_left (fun sum x => sum + f x) l acc = acc + sumZ (map f l).
Proof.
  revert acc. induction l as [|x l IH]; intro acc; cbn; [lia|].
  rewrite IH. unfold sumZ. lia.
Qed.

(** [Math.round] of a quotient of integers, in integer arithmetic. *)
Lemma round_div (a b : Z) :
  b > 0 ->
  JS.Math_round (JS.div (JS.of_Z a) (JS.of_Z b)) =
  JS.of_Z ((2 * a + b) / (2 * b)).
Proof.
  intros Hb. destruct b as [|b|b]; try lia.
  unfold JS.div, JS.of_Z, JS.Qis_zero, JS.Math_round. cbn [inject_Z Qnum Z.eqb].
  do 2 f_equal. unfold Qfloor, Qplus, Qdiv, Qmult, Qinv.
  cbn [Qnum Qden inject_Z]. rewrite !Pos2Z.inj_mul. f_equal; lia.
Qed.

Lemma round_div_nearest (a b : Z) :
  b > 0 ->
  let n := (2 * a + b) / (2 * b) in
  (2 * n - 1) * b <= 2 * a < (2 * n + 1) * b.
Proof.
  intros Hb n.
  pose proof (Z.div_mod (2 * a + b) (2 * b) ltac:(lia)) as Hdm.
  pose proof (Z.mod_pos_bound (2 * a + b) (2 * b) ltac:(lia)) as Hm.
  fold n in Hdm. nia.
Qed.

(** Counters. *)

Section Counters.

Context {K : Type} (eqb : K -> K -> bool).
Hypothesis eqb_eq : forall a b, eqb a b = true <-> a = b.

Lemma incr_keys (k : K) (m : Counters K) :
  map fst (incr eqb k m) = map fst m.
Proof.
  unfold incr. rewrite map_map. apply map_ext. intros [a v]. cbn.
  now destruct (eqb a k).
Qed.

Lemma get_incr (k k' : K) (m : Counters K) :
  In k (map fst m) ->
  get eqb k (incr eqb k' m) = get eqb k m + (if eqb k k' then 1 else 0).
Proof.
  induction m as [|[a v] m IH]; cbn [map In fst]; [tauto|]. intros Hin.
  cbn [incr map get fst snd]. destruct (eqb a k) eqn:Eak.
  - apply eqb_eq in Eak. subst a.
    destruct (eqb k k'); cbn [get fst]; rewrite (proj2 (eqb_eq k k) eq_refl);
      cbn; lia.
  - assert (Hin' : In k (map fst m)).
    { destruct Hin as [->|Hin]; [|exact Hin].
      rewrite (proj2 (eqb_eq k k) eq_refl) in Eak. discriminate. }
    destruct (eqb a k'); cbn [get fst]; rewrite Eak; now apply IH.
Qed.

End Counters.

Lemma IssueType_eqb_eq (a b : IssueType) : IssueType_eqb a b = true <-> a = b.
Proof. destruct a, b; cbn; split; (reflexivity || discriminate). Qed.

Lemma Category_eqb_eq (a b : Category) : Category_eqb a b = true <-> a = b.
Proof. destruct a, b; cbn; split; (reflexivity || discriminate). Qed.

Lemma IssueType_eqb_sym (a b : IssueType) :
  IssueType_eqb a b = IssueType_eqb b a.
Proof. now destruct a, b. Qed.

Lemma Category_eqb_sym (a b : Category) :
  Category_eqb a b = Category_eqb b a.
Proof. now destruct a, b. Qed.

Lemma countIssues_spec (l : list SeoIssue)
    (c : Counters IssueType * Counters Category) :
  keysKept c ->
  let c' := fold_left countIssue l c in
  keysKept c' /\
  (forall t, get IssueType_eqb t (fst c') =
             get IssueType_eqb t (fst c) +
             countOf (fun i => IssueType_eqb (type i) t) l) /\
  (forall k, get Category_eqb k (snd c') =
             get Category_eqb k (snd c) +
             countOf (fun i => Category_eqb (category i) k) l).
Proof.
  revert c. induction l as [|i l IH]; intros c Hk; cbn [fold_left].
  - split; [exact Hk|]. unfold countOf, len. cbn. split; intros; lia.
  - assert (Hk' : keysKept (countIssue c i)).
    { destruct Hk as [H1 H2]. split; cbn [countIssue fst snd];
        now rewrite incr_keys. }
    destruct (IH _ Hk') as (Hkeys & Ht & Hc). split; [exact Hkeys|].
    destruct Hk as [H1 H2]. split.
    + intros t. rewrite Ht. cbn [countIssue fst].
      rewrite (get_incr _ IssueType_eqb_eq)
        by (rewrite H1; destruct t; cbn; tauto).
      unfold countOf, len. cbn [filter].
      rewrite (IssueType_eqb_sym (type i) t).
      destruct (IssueType_eqb t (type i)); cbn [List.length]; lia.
    + intros k. rewrite Hc. cbn [countIssue snd].
      rewrite (get_incr _ Category_eqb_eq)
        by (rewrite H2; destruct k; cbn; tauto).
      unfold countOf, len. cbn [filter].
      rewrite (Category_eqb_sym (category i) k).
      destruct (Category_eqb k (category i)); cbn [List.length]; lia.
Qed.

Lemma countOf_app {A : Type} (f : A -> bool) (l1 l2 : list A) :
  countOf f (l1 ++ l2) = countOf f l1 + countOf f l2.
Proof. unfold countOf, len. rewrite filter_app, length_app. lia. Qed.

Lemma countPages_spec (analyses : list PageAnalysis)
    (c : Counters IssueType * Counters Category) :
  keysKept c ->
  let c' := fold_left countPage analyses c in
  keysKept c' /\
  (forall t, get IssueType_eqb t (fst c') =
             get IssueType_eqb t (fst c) +
             countOf (fun i => IssueType_eqb (type i) t) (allIssues analyses)) /\
  (forall k, get Category_eqb k (snd c') =
             get Category_eqb k (snd c) +
             countOf (fun i => Category_eqb (category i) k) (allIssues analyses)).
Proof.
  revert c. induction analyses as [|p analyses IH]; intros c Hk; cbn [fold_left].
  - split; [exact Hk|]. unfold countOf, len. cbn. split; intros; lia.
  - destruct (countIssues_spec (issues p) c Hk) as (Hk' & Ht' & Hc').
    destruct (IH _ Hk') as (Hkeys & Ht & Hc). split; [exact Hkeys|].
    unfold allIssues. cbn [flat_map]. fold (allIssues analyses).
    split; intros x; rewrite countOf_app.
    + rewrite Ht. unfold countPage. rewrite Ht'. lia.
    + rewrite Hc. unfold countPage. rewrite Hc'. lia.
Qed.

(** The ranking. *)

Lemma insert_perm (x : Category * Z) (l : list (Category * Z)) :
  Permutation (insert x l) (x :: l).
Proof.
  induction l as [|y l IH]; cbn [insert]; [reflexivity|].
  destruct (compareFn x y <=? 0); [reflexivity|].
  rewrite IH. apply perm_swap.
Qed.

Lemma sort_perm (l : list (Category * Z)) : Permutation (sort l) l.
Proof.
  induction l as [|x l IH]; cbn [sort fold_right]; [reflexivity|].
  fold (sort l). rewrite insert_perm. now constructor.
Qed.

Lemma insert_sorted (x : Category * Z) (l : list (Category * Z)) :
  StronglySorted ranksBefore l -> Forall (enumeratedBefore x) l ->
  StronglySorted ranksBefore (insert x l).
Proof.
  induction l as [|y l IH]; intros Hs Hx; cbn [insert].
  - repeat constructor.
  - apply StronglySorted_inv in Hs as [Hs Hy].
    apply Forall_cons_iff in Hx as [Hxy Hx].
    destruct (compareFn x y <=? 0) eqn:E.
    + apply Z.leb_le in E. unfold compareFn in E.
      constructor; [now constructor|]. constructor.
      * unfold ranksBefore, enumeratedBefore in *. lia.
      * rewrite Forall_forall in *. intros z Hz.
        specialize (Hy z Hz). specialize (Hx z Hz).
        unfold ranksBefore, enumeratedBefore in *. lia.
    + apply Z.leb_gt in E. unfold compareFn in E.
      constructor; [now apply IH|].
      apply (Permutation_Forall (Permutation_sym (insert_perm x l))).
      constructor; [|exact Hy]. unfold ranksBefore. lia.
Qed.

Lemma sort_sorted (l : list (Category * Z)) :
  StronglySorted enumeratedBefore l -> StronglySorted ranksBefore (sort l).
Proof.
  induction l as [|x l IH]; intros Hs; cbn [sort fold_right].
  - constructor.
  - fold (sort l). apply StronglySorted_inv in Hs as [Hs Hx].
    apply insert_sorted; [now apply IH|].
    apply (Permutation_Forall (Permutation_sym (sort_perm l))). exact Hx.
Qed.

Lemma counters_by_key_type (m : Counters IssueType) :
  map fst m = [Error; Warning; Info] ->
  m = [(Error, get IssueType_eqb Error m);
       (Warning, get IssueType_eqb Warning m);
       (Info, get IssueType_eqb Info m)].
Proof.
  destruct m as [|[k1 v1] [|[k2 v2] [|[k3 v3] [|? ?]]]]; try discriminate.
  cbn [map fst]. intros [= -> -> ->]. reflexivity.
Qed.

Lemma counters_by_key_category (m : Counters Category) :
  map fst m = [Title; MetaDescription; H1; Images] ->
  m = [(Title, get Category_eqb Title m);
       (MetaDescription, get Category_eqb MetaDescription m);
       (H1, get Category_eqb H1 m);
       (Images, get Category_eqb Images m)].
Proof.
  destruct m as [|[k1 v1] [|[k2 v2] [|[k3 v3] [|[k4 v4] [|? ?]]]]];
    try discriminate.
  cbn [map fst]. intros [= -> -> -> ->]. reflexivity.
Qed.

(** C7. For a non-empty batch of [K] analyses, [generateSummary] returns
    [totalPages = K]; [totalIssues] the sum of the pages' issue counts;
    [averageScore] the integer [n] nearest to the mean of the scores, the
    larger one on a tie ([n - 1/2 <= mean < n + 1/2], the quotient being
    taken exactly); per type and per category, the number of issues of
    that type or category over all pages; and [topIssues] the first three
    of the four category counts arranged by count, larger first, equal
    counts in the order title, meta_description, h1, images. *)
Theorem C7_summary_of_batch :
  forall analyses : list PageAnalysis,
    analyses <> [] ->
    let s := generateSummary analyses in
    let K := len analyses in
    let all := allIssues analyses in
    let byType t := countOf (fun i => IssueType_eqb (type i) t) all in
    let byCategory c := countOf (fun i => Category_eqb (category i) c) all in
    totalPages s = K /\
    totalIssues s = sumZ (map (fun page => len (issues page)) analyses) /\
    (exists n,
        averageScore s = JS.of_Z n /\
        (2 * n - 1) * K <= 2 * sumZ (map score analyses) < (2 * n + 1) * K) /\
    issuesByType s =
      [(Error, byType Error); (Warning, byType Warning); (Info, byType Info)] /\
    issuesByCategory s =
      [(Title, byCategory Title);
       (MetaDescription, byCategory MetaDescription);
       (H1, byCategory H1); (Images, byCategory Images)] /\
    (exists ranked,
        topIssues s = firstn 3 ranked /\
        Permutation ranked (issuesByCategory s) /\
        StronglySorted ranksBefore ranked).
Proof.
  intros analyses Hne s K all byType byCategory.
  assert (HK : K > 0).
  { unfold K, len. destruct analyses; [now elim Hne|cbn [List.length]; lia]. }
  destruct (countPages_spec analyses (issuesByType0, issuesByCategory0))
    as ((Hkt & Hkc) & Ht & Hc); [split; reflexivity|].
  assert (Hcat : issuesByCategory s =
                 [(Title, byCategory Title);
                  (MetaDescription, byCategory MetaDescription);
                  (H1, byCategory H1); (Images, byCategory Images)]).
  { unfold s, generateSummary. cbn [issuesByCategory].
    rewrite (counters_by_key_category _ Hkc), !Hc. reflexivity. }
  split; [reflexivity|]. split; [|split; [|split; [|split]]].
  - unfold s, generateSummary. cbn [totalIssues]. now rewrite fold_add_acc.
  - exists ((2 * sumZ (map score analyses) + K) / (2 * K)). split.
    + unfold s, generateSummary. cbn [averageScore].
      rewrite fold_add_acc, Z.add_0_l. now apply round_div.
    + now apply round_div_nearest.
  - unfold s, generateSummary. cbn [issuesByType].
    rewrite (counters_by_key_type _ Hkt), !Ht. reflexivity.
  - exact Hcat.
  - exists (sort (issuesByCategory s)). split; [reflexivity|].
    split; [apply sort_perm|]. apply sort_sorted. rewrite Hcat.
    repeat constructor; unfold enumeratedBefore; cbn; lia.
Qed.

Lemma C7_sample_batch_witness :
  let s := generateSummary sampleBatch in
  totalPages s = 2 /\ totalIssues s = 6 /\ averageScore s = JS.of_Z 54 /\
  issuesByType s = [(Error, 5); (Warning, 1); (Info, 0)] /\
  issuesByCategory s =
    [(Title, 1); (MetaDescription, 2); (H1, 2); (Images, 1)] /\
  topIssues s = [(MetaDescription, 2); (H1, 2); (Title, 1)].
Proof.
  intros s.
  assert (Hne : sampleBatch <> []) by discriminate.
  destruct (C7_summary_of_batch sampleBatch Hne)
    as (Ha & Hb & (n & Hc & H4) & Hd & He & _).
  fold s in Ha, Hb, Hc, Hd, He.
  assert (Hsum : sumZ (map score sampleBatch) = 108) by reflexivity.
  assert (Hlen : len sampleBatch = 2) by reflexivity.
  rewrite Hsum, Hlen in H4.
  assert (Hn : n = 54) by lia.
  subst n. repeat split; try assumption; reflexivity.
Defined.

(** ** Rounding to a double *)

Lemma pow2_pos (e : Z) : (0 < JS.pow2 e)%Q.
Proof. apply Qpower_0_lt. reflexivity. Qed.

Lemma pow2_add (a b : Z) : (JS.pow2 (a + b) == JS.pow2 a * JS.pow2 b)%Q.
Proof. apply Qpower_plus. discriminate. Qed.

Lemma pow2_of_Z (a : Z) : 0 <= a -> (JS.pow2 a == inject_Z (2 ^ a))%Q.
Proof. intros Ha. symmetry. now apply (Zpower_Qpower 2 a). Qed.

Lemma pow2_lt_inv (a b : Z) : (JS.pow2 a < JS.pow2 b)%Q -> a < b.
Proof.
  intros H. destruct (Z.lt_ge_cases a b) as [|Hge]; [assumption|].
  exfalso. apply (Qlt_not_le _ _ H).
  apply Qpower_le_compat_l; [lia|discriminate].
Qed.

Lemma div_pow2 (q : Q) (e : Z) : (q / JS.pow2 e == q * JS.pow2 (- e))%Q.
Proof. unfold Qdiv, JS.pow2. now rewrite Qpower_opp. Qed.

(** Rounding to an integer does not step over an integer. *)
Lemma roundHalfEven_le (q : Q) (N : Z) :
  (q <= inject_Z N)%Q -> JS.roundHalfEven q <= N.
Proof.
  intros Hq. unfold JS.roundHalfEven.
  assert (HfN : Qfloor q <= N).
  { rewrite <- (Qfloor_Z N). now apply Qfloor_resp_le. }
  destruct (Z.eq_dec (Qfloor q) N) as [HN|HN].
  - assert (Hz : (q - inject_Z (Qfloor q) <= 0)%Q).
    { rewrite HN. apply (Qplus_le_l _ _ (inject_Z N)). ring_simplify. exact Hq. }
    destruct (Qcompare_spec (q - inject_Z (Qfloor q)) (1 # 2)) as [He|Hl|Hg].
    + rewrite He in Hz. unfold Qle in Hz. cbn in Hz. lia.
    + lia.
    + exfalso. apply (Qlt_not_le _ _ Hg).
      apply (Qle_trans _ 0); [exact Hz|]. unfold Qle. cbn. lia.
  - destruct (Qcompare _ _); [destruct (Z.even _)| |]; lia.
Qed.

Lemma roundHalfEven_ge (q : Q) (N : Z) :
  (inject_Z N <= q)%Q -> N <= JS.roundHalfEven q.
Proof.
  intros Hq. unfold JS.roundHalfEven.
  assert (Hf : N <= Qfloor q).
  { rewrite <- (Qfloor_Z N). now apply Qfloor_resp_le. }
  destruct (Qcompare _ _); [destruct (Z.even _)| |]; lia.
Qed.

Lemma ilog2_le (q : Q) : (0 < q)%Q -> (JS.pow2 (JS.ilog2 q) <= q)%Q.
Proof.
  intros Hq. unfold JS.ilog2.
  destruct (Qle_bool _ q) eqn:E; [now apply Qle_bool_iff|].
  destruct q as [n d]. cbn [Qnum Qden].
  assert (Hn : 0 < n) by (unfold Qlt in Hq; cbn in Hq; lia).
  pose proof (Z.log2_spec n Hn) as [Hlo _].
  pose proof (Z.log2_spec (Zpos d) (Pos2Z.is_pos d)) as [_ Hhi].
  pose proof (Z.log2_nonneg n) as Ha.
  pose proof (Z.log2_nonneg (Zpos d)) as Hb.
  set (a := Z.log2 n) in *. set (b := Z.log2 (Zpos d)) in *.
  replace (a - b - 1) with (a - (b + 1)) by lia.
  unfold JS.pow2. rewrite Qpower_minus by discriminate.
  fold (JS.pow2 a) (JS.pow2 (b + 1)).
  rewrite (pow2_of_Z a), (pow2_of_Z (b + 1)) by lia.
  replace (Z.succ b) with (b + 1) in Hhi by lia.
  assert (H2 : 0 < 2 ^ (b + 1)) by (apply Z.pow_pos_nonneg; lia).
  apply Qle_shift_div_r.
  - rewrite <- (Zlt_Qlt 0). exact H2.
  - unfold Qle, Qmult. cbn [Qnum Qden inject_Z]. nia.
Qed.

(** The double nearest to [q] lies on the same side as [q] of every
    double [N * 2^E] with [N] below 2^53: rounding is monotone and keeps
    a double as it is. *)
Lemma round64_between_dyadic (q : Q) (L M E : Z) :
  0 <= L -> M < 2 ^ 53 -> -1074 <= E <= 971 ->
  (inject_Z L * JS.pow2 E <= q <= inject_Z M * JS.pow2 E)%Q ->
  exists y, JS.round64 q = JS.Fin y /\
            (inject_Z L * JS.pow2 E <= y <= inject_Z M * JS.pow2 E)%Q.
Proof.
  intros HL Hlt HE [HLq HM].
  pose proof (pow2_pos E) as HpE.
  assert (H0 : (0 <= q)%Q).
  { apply (Qle_trans _ (inject_Z L * JS.pow2 E)); [|exact HLq].
    apply Qmult_le_0_compat; [|now apply Qlt_le_weak].
    now rewrite <- (Zle_Qle 0). }
  unfold JS.round64. destruct (JS.Qis_zero q) eqn:Ez.
  { exists 0%Q. split; [reflexivity|].
    assert (Hq : (q == 0)%Q).
    { unfold JS.Qis_zero in Ez. apply Z.eqb_eq in Ez.
      unfold Qeq. cbn. rewrite Ez. reflexivity. }
    rewrite <- Hq. now split. }
  assert (Hpos : (0 < q)%Q).
  { unfold JS.Qis_zero in Ez. apply Z.eqb_neq in Ez.
    unfold Qlt, Qle in *. cbn in *. lia. }
  assert (Habs : Qabs q = q).
  { destruct q as [[|p|p] d]; try reflexivity;
      unfold Qlt in Hpos; cbn in Hpos; lia. }
  assert (Hneg : JS.Qis_neg q = false).
  { unfold JS.Qis_neg. apply Z.ltb_ge. unfold Qle in H0. cbn in H0. lia. }
  rewrite Habs, Hneg. cbv zeta.
  set (e := Z.max (JS.ilog2 q - 52) (-1074)).
  assert (HMlt : (inject_Z M * JS.pow2 E < JS.pow2 (53 + E))%Q).
  { rewrite pow2_add, (pow2_of_Z 53) by lia.
    apply Qmult_lt_compat_r; [exact HpE|]. now rewrite <- Zlt_Qlt. }
  assert (He : e <= E).
  { assert (JS.ilog2 q < 53 + E); [|lia].
    apply pow2_lt_inv. apply (Qle_lt_trans _ q); [now apply ilog2_le|].
    now apply (Qle_lt_trans _ (inject_Z M * JS.pow2 E)). }
  pose proof (pow2_pos e) as Hpe. pose proof (pow2_pos (- e)) as Hpe'.
  assert (Hscale : forall N,
             (inject_Z (N * 2 ^ (E - e)) * JS.pow2 e == inject_Z N * JS.pow2 E)%Q).
  { intros N. rewrite inject_Z_mult, <- (pow2_of_Z (E - e)) by lia.
    rewrite <- Qmult_assoc, <- pow2_add.
    now replace (E - e + e) with E by lia. }
  assert (Hunscale : forall N,
             (inject_Z N * JS.pow2 E * JS.pow2 (- e) == inject_Z (N * 2 ^ (E - e)))%Q).
  { intros N. rewrite inject_Z_mult, <- (pow2_of_Z (E - e)) by lia.
    rewrite <- Qmult_assoc, <- pow2_add.
    now replace (E + - e) with (E - e) by lia. }
  set (m := JS.roundHalfEven (q / JS.pow2 e)).
  assert (Hm : L * 2 ^ (E - e) <= m <= M * 2 ^ (E - e)).
  { split.
    - apply roundHalfEven_ge. rewrite div_pow2, <- Hunscale.
      apply Qmult_le_compat_r; [exact HLq|now apply Qlt_le_weak].
    - apply roundHalfEven_le. rewrite div_pow2, <- Hunscale.
      apply Qmult_le_compat_r; [exact HM|now apply Qlt_le_weak]. }
  assert (Hy : (inject_Z L * JS.pow2 E <= inject_Z m * JS.pow2 e
                <= inject_Z M * JS.pow2 E)%Q).
  { split.
    - rewrite <- (Hscale L).
      apply Qmult_le_compat_r; [|now apply Qlt_le_weak].
      rewrite <- Zle_Qle. lia.
    - rewrite <- (Hscale M).
      apply Qmult_le_compat_r; [|now apply Qlt_le_weak].
      rewrite <- Zle_Qle. lia. }
  assert (Hfin : Qle_bool (JS.pow2 1024) (inject_Z m * JS.pow2 e) = false).
  { destruct (Qle_bool _ _) eqn:Eb; [|reflexivity].
    apply Qle_bool_iff in Eb. exfalso.
    apply (Qlt_not_le (inject_Z M * JS.pow2 E) (JS.pow2 1024)).
    - apply (Qlt_le_trans _ _ _ HMlt).
      apply Qpower_le_compat_l; [|discriminate].
      lia.
    - apply (Qle_trans _ _ _ Eb). apply Hy. }
  rewrite Hfin. eexists. split; [reflexivity|exact Hy].
Qed.

(** In particular of every integer below 2^53. *)
Lemma round64_between (q : Q) (L M : Z) :
  0 <= L -> M < 2 ^ 53 -> (inject_Z L <= q <= inject_Z M)%Q ->
  exists y, JS.round64 q = JS.Fin y /\ (inject_Z L <= y <= inject_Z M)%Q.
Proof.
  intros HL HM Hq.
  destruct (round64_between_dyadic q L M 0) as (y & Hy & Hb);
    [exact HL|exact HM|lia| |].
  - change (JS.pow2 0) with 1%Q. now rewrite !Qmult_1_r.
  - exists y. split; [exact Hy|].
    change (JS.pow2 0) with 1%Q in Hb. now rewrite !Qmult_1_r in Hb.
Qed.

(** The mean of a batch.  The quotient of a sum by a number of pages is
    rounded to a double before [Math.round]; for at most 2^32 pages (an
    array holds fewer) and a mean of at most 2^19 this gives the integer
    the exact quotient gives: a quotient below a half-integer stays
    below it by more than the spacing of the doubles there. *)
Lemma mean_rounds_alike (a b : Z) :
  0 < b <= 2 ^ 32 -> 0 <= a <= 2 ^ 19 * b ->
  JS.Math_round (JS.div64 (JS.of_Z a) (JS.of_Z b)) =
  JS.Math_round (JS.div (JS.of_Z a) (JS.of_Z b)).
Proof.
  intros Hb Ha. rewrite round_div by lia.
  pose proof (round_div_nearest a b ltac:(lia)) as Hn. cbv zeta in Hn.
  set (n := (2 * a + b) / (2 * b)) in *.
  assert (Hn0 : 0 <= n) by (apply Z.div_pos; lia).
  assert (Hn19 : n <= 2 ^ 19).
  { apply Z.lt_succ_r. apply Z.div_lt_upper_bound; lia. }
  assert (Hdiv : JS.div (JS.of_Z a) (JS.of_Z b) =
                 JS.Fin (inject_Z a / inject_Z b)).
  { unfold JS.div, JS.of_Z, JS.Qis_zero. cbn [inject_Z Qnum].
    destruct b; try lia. reflexivity. }
  unfold JS.div64. rewrite Hdiv. cbn [JS.double].
  assert (Hbq : (0 < inject_Z b)%Q) by (rewrite <- (Zlt_Qlt 0); lia).
  assert (Hp : (JS.pow2 (-33) == 1 # 8589934592)%Q) by reflexivity.
  destruct (round64_between_dyadic (inject_Z a / inject_Z b)
              (Z.max 0 ((2 * n - 1) * 2 ^ 32)) ((2 * n + 1) * 2 ^ 32 - 1) (-33))
    as (y & -> & Hy0 & Hy1); [lia | | lia | |].
  { change (2 ^ 53) with 9007199254740992.
    change (2 ^ 19) with 524288 in Hn19. change (2 ^ 32) with 4294967296. lia. }
  { rewrite Hp. change (2 ^ 32) with 4294967296 in *. split.
    - apply Qle_shift_div_l; [exact Hbq|].
      unfold Qle, Qmult. cbn [Qnum Qden inject_Z Pos.mul]. nia.
    - apply Qle_shift_div_r; [exact Hbq|].
      unfold Qle, Qmult. cbn [Qnum Qden inject_Z Pos.mul]. nia. }
  cbn [JS.Math_round]. unfold JS.of_Z. do 2 f_equal.
  rewrite Hp in Hy0, Hy1. change (2 ^ 32) with 4294967296 in *.
  apply Z.le_antisymm.
  - apply Z.lt_succ_r. rewrite Zlt_Qlt.
    apply (Qle_lt_trans _ (y + (1 # 2))); [apply Qfloor_le|].
    apply (Qle_lt_trans _ (inject_Z ((2 * n + 1) * 4294967296 - 1) *
                           (1 # 8589934592) + (1 # 2))).
    + apply Qplus_le_l. exact Hy1.
    + unfold Qlt, Qplus, Qmult. cbn [Qnum Qden inject_Z Pos.mul]. lia.
  - rewrite <- (Qfloor_Z n). apply Qfloor_resp_le.
    apply (Qle_trans _ (inject_Z (Z.max 0 ((2 * n - 1) * 4294967296)) *
                        (1 # 8589934592) + (1 # 2))).
    + unfold Qle, Qplus, Qmult. cbn [Qnum Qden inject_Z Pos.mul]. lia.
    + apply Qplus_le_l. exact Hy0.
Qed.

(** [round64] gives what the Standard Library's binary64 division and
    multiplication give, for every count out of at most 48 pages, the
    empty batch included. *)
Lemma shares_as_binary64 :
  forallb (fun k => forallb (fun c => sameShare c k) (upTo (Z.to_nat k)))
          (upTo 48) = true.
Proof. vm_compute. reflexivity. Qed.

(** [round64] against the Standard Library's rounding to binary64, on
    ties, on subnormal results, at the smallest and the largest doubles
    and past them, for both signs. *)
Lemma round64_as_binary64 :
  forallb (fun m => forallb (sameRounding m) exponents) mantissas = true.
Proof. vm_compute. reflexivity. Qed.

(** The two roundings show: 23 pages of 40 are 57 per cent, where the
    exact quotient and product would give 57.5 and so 58. *)
Lemma percent_23_of_40 :
  percent 23 40 = JS.of_Z 57 /\
  JS.Math_round (JS.mul (JS.div (JS.of_Z 23) (JS.of_Z 40)) (JS.of_Z 100)) =
    JS.of_Z 58.
Proof. split; vm_compute; reflexivity. Qed.

Lemma filter_len_bounds {A : Type} (f : A -> bool) (l : list A) :
  0 <= len (filter f l) <= len l.
Proof. unfold len. pose proof (filter_length_le f l). lia. Qed.

Lemma Qfloor_half (N : Z) : Qfloor (inject_Z N + (1 # 2)) = N.
Proof.
  unfold Qfloor, Qplus, inject_Z. cbn [Qnum Qden Pos.mul].
  symmetry. apply (Z.div_unique _ _ _ 1); lia.
Qed.

(** A percentage of a part of the pages is an integer from 0 to 100; it
    is 0 for no page and 100 for all pages. *)
Lemma percent_between (c k lo hi : Z) :
  k > 0 -> 0 <= lo -> hi <= 1 ->
  lo * k <= c <= hi * k ->
  exists n, percent c k = JS.of_Z n /\ 100 * lo <= n <= 100 * hi.
Proof.
  intros Hk Hlo Hhi Hc. unfold percent, JS.div64, JS.mul64.
  assert (Hkq : (0 < inject_Z k)%Q) by (rewrite <- (Zlt_Qlt 0); lia).
  assert (Hdiv : JS.div (JS.of_Z c) (JS.of_Z k) =
                 JS.Fin (inject_Z c / inject_Z k)).
  { unfold JS.div, JS.of_Z, JS.Qis_zero. cbn [inject_Z Qnum].
    destruct k; try lia. reflexivity. }
  rewrite Hdiv. cbn [JS.double].
  destruct (round64_between (inject_Z c / inject_Z k) lo hi)
    as (y & -> & Hy0 & Hy1); [lia | apply (Z.le_lt_trans _ 1); [lia|reflexivity] | |].
  { split.
    - apply Qle_shift_div_l; [exact Hkq|].
      rewrite <- inject_Z_mult, <- Zle_Qle. lia.
    - apply Qle_shift_div_r; [exact Hkq|].
      rewrite <- inject_Z_mult, <- Zle_Qle. lia. }
  cbn [JS.mul JS.of_Z JS.double].
  destruct (round64_between (y * inject_Z 100) (100 * lo) (100 * hi))
    as (w & -> & Hw0 & Hw1); [lia | apply (Z.le_lt_trans _ 100); [lia|reflexivity] | |].
  { rewrite !inject_Z_mult, !(Qmult_comm (inject_Z 100)).
    split; (apply Qmult_le_compat_r; [assumption|discriminate]). }
  cbn [JS.Math_round]. eexists. split; [reflexivity|]. split.
  - rewrite <- (Qfloor_Z (100 * lo)). apply Qfloor_resp_le.
    apply (Qle_trans _ w); [exact Hw0|].
    rewrite <- (Qplus_0_r w) at 1. apply Qplus_le_r. discriminate.
  - rewrite <- (Qfloor_half (100 * hi)). apply Qfloor_resp_le.
    apply Qplus_le_l. exact Hw1.
Qed.

Lemma percent_bounds (c k : Z) :
  k > 0 -> 0 <= c <= k ->
  exists n, percent c k = JS.of_Z n /\ 0 <= n <= 100.
Proof.
  intros Hk Hc.
  destruct (percent_between c k 0 1) as (n & Hn & Hb); try lia.
  exists n. split; [exact Hn|lia].
Qed.

Lemma percent_none (k : Z) : k > 0 -> percent 0 k = JS.of_Z 0.
Proof.
  intros Hk. destruct (percent_between 0 k 0 0) as (n & Hn & Hb); try lia.
  rewrite Hn. f_equal. lia.
Qed.

Lemma percent_all (k : Z) : k > 0 -> percent k k = JS.of_Z 100.
Proof.
  intros Hk. destruct (percent_between k k 1 1) as (n & Hn & Hb); try lia.
  rewrite Hn. f_equal. lia.
Qed.

(** ** The empty batch *)

Lemma NaN_not_integer : ~ isInteger JS.NaN.
Proof. intros [z Hz]. discriminate. Qed.

Lemma percent_integer (c k : Z) :
  k > 0 -> 0 <= c <= k -> isInteger (percent c k).
Proof.
  intros Hk Hc. destruct (percent_bounds c k Hk Hc) as (n & Hn & _).
  now exists n.
Qed.

Lemma len_positive {A : Type} (l : list A) : l <> [] -> len l > 0.
Proof. destruct l; [congruence|]. intros _. unfold len. cbn [List.length]. lia. Qed.

(** C8, as the code has it. [generateSummary] and
    [generateSummaryReport] do not fail on an empty batch, but the
    division by [totalPages = 0] is not guarded: every count is 0, the
    ranking holds the first three categories with count 0, and
    [averageScore], the four percentages and [averagePerPage] are NaN
    (0/0), which is no integer.  These numbers are integers exactly when
    the batch is not empty. *)
Theorem C8_empty_batch_gives_NaN :
  generateSummary [] =
    {| totalPages := 0;
       totalIssues := 0;
       averageScore := JS.NaN;
       issuesByType := [(Error, 0); (Warning, 0); (Info, 0)];
       issuesByCategory :=
         [(Title, 0); (MetaDescription, 0); (H1, 0); (Images, 0)];
       topIssues := [(Title, 0); (MetaDescription, 0); (H1, 0)] |} /\
  generateSummaryReport [] =
    {| report_totalPages := 0;
       report_issues :=
         {| missingTitles := mkCountShare 0 JS.NaN;
            missingMetaDescriptions := mkCountShare 0 JS.NaN;
            noH1Tags := mkCountShare 0 JS.NaN;
            multipleH1Tags := mkCountShare 0 JS.NaN;
            imagesWithoutAltTotals := mkImageTotals 0 JS.NaN |} |} /\
  (forall analyses,
      isInteger (averageScore (generateSummary analyses)) <-> analyses <> []) /\
  (forall rows,
      Forall isInteger (reportNumbers (generateSummaryReport rows)) <->
      rows <> []).
Proof.
  split; [reflexivity|]. split; [reflexivity|]. split.
  - intros analyses. split.
    + intros Hint ->. now apply NaN_not_integer.
    + intros Hne. unfold generateSummary. cbn [averageScore].
      rewrite round_div by now apply len_positive. eexists. reflexivity.
  - intros rows. split.
    + intros Hint ->. apply Forall_inv in Hint. now apply NaN_not_integer.
    + intros Hne. pose proof (len_positive rows Hne) as Hk.
      unfold reportNumbers, generateSummaryReport.
      cbn [report_issues missingTitles missingMetaDescriptions noH1Tags
           multipleH1Tags imagesWithoutAltTotals percentage averagePerPage].
      repeat constructor;
        try (apply percent_integer; [exact Hk|apply filter_len_bounds]).
      rewrite round_div by exact Hk. eexists. reflexivity.
Qed.

Lemma C8_sample_batch_witness :
  isInteger (averageScore (generateSummary sampleBatch)).
Proof.
  destruct C8_empty_batch_gives_NaN as (_ & _ & H & _).
  apply (proj2 (H sampleBatch)). discriminate.
Defined.

(** C8, as the specification states it, fails: on the empty batch
    [averageScore] is no integer, and neither is the first percentage of
    the row-level summary. *)
Lemma C8_empty_batch_counterexample :
  ~ (isInteger (averageScore (generateSummary [])) /\
     Forall isInteger (reportNumbers (generateSummaryReport []))).
Proof. intros [H _]. now apply NaN_not_integer. Qed.

(** ** The rows *)

(** C10. In every row made by [extractSeoData], whatever the analyses,
    [totalImages] is 0; so it is for the row of any analysed page,
    however many images the page has. *)
Theorem C10_totalImages_always_zero :
  (forall analyses : list PageAnalysis,
      Forall (fun row => SeoDataRow.totalImages row = 0)
             (extractSeoData analyses)) /\
  (forall (parseFromString : string -> Document)
          (URL_pathname : string -> option string) (url html : string),
      SeoDataRow.totalImages
        (extractRow (analyzePage parseFromString URL_pathname url html)) = 0).
Proof.
  split.
  - intros analyses. unfold extractSeoData. apply Forall_map.
    apply Forall_forall. intros analysis _. reflexivity.
  - reflexivity.
Qed.

(** ** The CSV export *)

Lemma allChars_app (f : ascii -> bool) (a b : string) :
  allChars f (a ++ b)%string = allChars f a && allChars f b.
Proof.
  induction a as [|c a IH]; cbn; [reflexivity|].
  now rewrite IH, andb_assoc.
Qed.

Lemma split_free (sep : ascii) (s : string) :
  allChars (fun c => negb (Ascii.eqb c sep)) s = true ->
  JS.split sep s = [s].
Proof.
  induction s as [|c s IH]; cbn; [reflexivity|].
  intros H. apply andb_prop in H as [Hc Hs].
  apply negb_true_iff in Hc. rewrite Hc, (IH Hs). reflexivity.
Qed.

(** Splitting at line breaks undoes joining texts that have none. *)
Lemma lines_join (x : string) (xs : list string) :
  Forall (fun s => oneLine s = true) (x :: xs) ->
  lines (JS.join JS.newline (x :: xs)) = x :: xs.
Proof.
  revert x. induction xs as [|y xs IH]; intros x Hall.
  - apply Forall_inv in Hall. cbn. now apply split_free.
  - pose proof (Forall_inv Hall) as Hx. apply Forall_inv_tail in Hall.
    change (JS.join JS.newline (x :: y :: xs))
      with (x ++ String (JS.chr 10) (JS.join JS.newline (y :: xs)))%string.
    unfold lines in *. rewrite split_app, (IH y Hall).
    now rewrite (split_free _ x Hx).
Qed.

Lemma digits_oneLine (d : Decimal.uint) :
  oneLine (NilEmpty.string_of_uint d) = true.
Proof. induction d; cbn; auto. Qed.

Lemma toString_oneLine (n : Z) : oneLine (JS.toString n) = true.
Proof.
  unfold JS.toString, NilZero.string_of_int, NilZero.string_of_uint.
  destruct (Z.to_int n) as [d|d]; destruct d; cbn;
    try reflexivity; apply digits_oneLine.
Qed.

Lemma quoted_oneLine (s : string) : oneLine s = true -> oneLine (quoted s) = true.
Proof.
  intros H. unfold quoted, oneLine. rewrite !allChars_app.
  unfold oneLine in H. rewrite H. reflexivity.
Qed.

Lemma rowLine_oneLine (row : SeoDataRow.t) :
  oneLineRow row -> oneLine (rowLine row) = true.
Proof.
  unfold oneLineRow, textFields. intros H.
  repeat match goal with
         | H : Forall _ (_ :: _) |- _ =>
             let Hx := fresh "Hx" in
             pose proof (Forall_inv H) as Hx; apply quoted_oneLine in Hx;
             apply Forall_inv_tail in H
         end.
  unfold rowLine, oneLine. rewrite !allChars_app.
  fold (oneLine (JS.toString (SeoDataRow.h1Count row))).
  fold (oneLine (JS.toString (SeoDataRow.imagesWithoutAlt row))).
  rewrite !toString_oneLine. unfold oneLine in *.
  repeat match goal with Hx : allChars _ _ = true |- _ => rewrite Hx; clear Hx end.
  reflexivity.
Qed.

Lemma convertToCSV_lines (rows : list SeoDataRow.t) :
  convertToCSV rows = JS.join JS.newline (headerLine :: map rowLine rows).
Proof. reflexivity. Qed.

(** C9, as the code has it. For every sequence of rows, [convertToCSV]
    is the header line, which is the thirteen column names separated by
    commas, and the lines of the rows in input order, joined by line
    breaks; a row's line holds its thirteen values separated by commas,
    each text value between double quotes as it is (nothing is escaped)
    and the two counts bare.  When no text value of any row holds a line
    break, the lines of the output are exactly the header line followed by
    the rows' lines, so there are [rows.length + 1] of them. *)
Theorem C9_csv_lines :
  forall rows : list SeoDataRow.t,
    convertToCSV rows = JS.join JS.newline (headerLine :: map rowLine rows) /\
    headerLine = JS.join "," headers /\
    List.length headers = 13%nat /\
    (Forall oneLineRow rows ->
     lines (convertToCSV rows) = headerLine :: map rowLine rows /\
     List.length (lines (convertToCSV rows)) = (List.length rows + 1)%nat).
Proof.
  intros rows. split; [reflexivity|]. split; [reflexivity|].
  split; [reflexivity|]. intros Hrows.
  assert (Hl : lines (convertToCSV rows) = headerLine :: map rowLine rows).
  { rewrite convertToCSV_lines. apply lines_join. constructor; [reflexivity|].
    apply Forall_map. revert Hrows. apply Forall_impl.
    exact rowLine_oneLine. }
  split; [exact Hl|]. rewrite Hl. cbn [List.length]. rewrite length_map. lia.
Qed.

Lemma C9_sample_rows_witness :
  let rows := extractSeoData sampleBatch in
  lines (convertToCSV rows) = headerLine :: map rowLine rows /\
  List.length (lines (convertToCSV rows)) = 3%nat.
Proof.
  intros rows.
  destruct (C9_csv_lines rows) as (_ & _ & _ & H).
  apply H. repeat constructor.
Defined.

(** C9, as the specification states it, fails: the row of a page whose
    heading runs over two lines gives an output of three lines for one
    row. *)
Lemma C9_line_count_counterexample :
  List.length twoLineHeadingRows = 1%nat /\
  List.length (lines (convertToCSV twoLineHeadingRows)) = 3%nat /\
  List.length (lines (convertToCSV twoLineHeadingRows)) <>
    (List.length twoLineHeadingRows + 1)%nat.
Proof.
  split; [reflexivity|]. split; [reflexivity|].
  vm_compute. discriminate.
Qed.


(** * Further properties of the code *)

(** ** Invariants of [analyzePage] *)

Lemma checkTitle_types (el : option Node) :
  Forall (fun i => type i = Error \/ type i = Warning)
         (recordedBy (checkTitle el)).
Proof.
  unfold recordedBy, checkTitle.
  destruct (lacksText el); [repeat constructor; now left|].
  destruct el as [e|]; [|constructor].
  cbv zeta. destruct (_ >? 60); [repeat constructor; now right|].
  destruct (_ <? 30); [repeat constructor; now right|constructor].
Qed.

Lemma checkMeta_types (el : option Node) :
  Forall (fun i => type i = Error \/ type i = Warning)
         (recordedBy (checkMeta el)).
Proof.
  unfold recordedBy, checkMeta.
  destruct (lacksContent el); [repeat constructor; now left|].
  destruct el as [e|]; [|constructor].
  cbv zeta. destruct (_ >? 160); [repeat constructor; now right|].
  destruct (_ <? 120); [repeat constructor; now right|constructor].
Qed.

Lemma checkH1_types (h1s : list Node) :
  Forall (fun i => type i = Error \/ type i = Warning)
         (recordedBy (checkH1 h1s)).
Proof.
  unfold recordedBy, checkH1.
  destruct (_ =? 0); [repeat constructor; now left|].
  destruct (_ >? 1); [repeat constructor; now right|constructor].
Qed.

Lemma checkImages_types (missing : list ImageRef) :
  Forall (fun i => type i = Error \/ type i = Warning)
         (recordedBy (checkImages missing)).
Proof.
  unfold recordedBy, checkImages.
  destruct (_ >? 0); [repeat constructor; now right|constructor].
Qed.

Lemma issues_types (parse : string -> Document)
    (path : string -> option string) (url html : string) :
  Forall (fun i => type i = Error \/ type i = Warning)
         (issues (analyzePage parse path url html)).
Proof.
  rewrite issues_by_check. cbv zeta.
  repeat (apply Forall_app; split);
    auto using checkTitle_types, checkMeta_types, checkH1_types,
               checkImages_types.
Qed.

(** X1. The issues of a result come in the order title, meta
    description, h1, images with at most one issue per category, so there
    are never more than four. *)
Theorem X1_issues_one_per_category_in_order :
  forall (parseFromString : string -> Document)
         (URL_pathname : string -> option string) (url html : string),
    let r := analyzePage parseFromString URL_pathname url html in
    StronglySorted (fun a b => catIndex a < catIndex b)
                   (map category (issues r)) /\
    len (issues r) <= 4.
Proof.
  intros parse path url html r. subst r. rewrite issues_by_check. cbv zeta.
  set (doc := parse html).
  destruct (checkTitle_cases (titleOf doc)) as [[-> _]|(i1 & -> & C1 & _)];
  destruct (checkMeta_cases (metaOf doc)) as [[-> _]|(i2 & -> & C2 & _)];
  destruct (checkH1_cases (h1sOf doc)) as [[-> _]|(i3 & -> & C3 & _)];
  destruct (checkImages_cases (collectImages (imgsOf doc)))
    as [[-> _]|(i4 & -> & C4 & _)];
  cbn [app map]; rewrite ?C1, ?C2, ?C3, ?C4;
  (split; [repeat constructor; cbn; lia | unfold len; cbn; lia]).
Qed.

(** X2. A page scores 100 exactly when no issue is recorded for it. *)
Theorem X2_full_score_iff_no_issue :
  forall (parseFromString : string -> Document)
         (URL_pathname : string -> option string) (url html : string),
    let r := analyzePage parseFromString URL_pathname url html in
    score r = 100 <-> issues r = [].
Proof.
  intros parse path url html r. subst r.
  rewrite issues_by_check, score_by_check. cbv zeta.
  set (doc := parse html).
  unfold titlePenalty, metaPenalty, h1Penalty, imagePenalty.
  destruct (checkTitle_cases (titleOf doc))
    as [[-> ->]|(i1 & -> & _ & _ & B1)];
  destruct (checkMeta_cases (metaOf doc))
    as [[-> ->]|(i2 & -> & _ & _ & B2)];
  destruct (checkH1_cases (h1sOf doc))
    as [[-> ->]|(i3 & -> & _ & _ & B3)];
  destruct (checkImages_cases (collectImages (imgsOf doc)))
    as [[-> ->]|(i4 & -> & _ & _ & B4)];
  cbn [app]; (split; [intros H; try reflexivity; exfalso; lia
                     | intros H; try discriminate; reflexivity]).
Qed.

(** X3. The four deductions add up to at most 70, so the score is never
    below 30 and the floor at 0 in the last line of [analyzePage] never
    changes the result. *)
Theorem X3_score_at_least_30 :
  forall (parseFromString : string -> Document)
         (URL_pathname : string -> option string) (url html : string),
    let r := analyzePage parseFromString URL_pathname url html in
    30 <= score r <= 100 /\
    score r = 100 - sumPenalties r /\
    0 <= sumPenalties r <= 70.
Proof.
  intros parse path url html r. subst r.
  rewrite sumPenalties_by_check, score_by_check. cbv zeta.
  pose proof (penalties_bounded (parse html)). lia.
Qed.

Lemma titleText_none_iff (el : option Node) :
  JS.or_null (option_map (fun e => JS.trim (textContent e)) el) = None <->
  lacksText el = true.
Proof.
  destruct el as [e|]; cbn [option_map JS.or_null lacksText]; [|tauto].
  destruct (JS.trim (textContent e)); cbn; split; congruence.
Qed.

Lemma metaDescription_none_iff (el : option Node) :
  JS.or_null (match el with
              | Some e => option_map JS.trim (getAttribute e "content")
              | None => None
              end) = None <->
  lacksContent el = true.
Proof.
  destruct el as [e|]; cbn [JS.or_null lacksContent]; [|tauto].
  destruct (getAttribute e "content") as [c|]; cbn [option_map]; [|tauto].
  destruct (JS.trim c); cbn; split; congruence.
Qed.

Lemma checkTitle_missing_iff (el : option Node) :
  recordedBy (checkTitle el) =
    [mkIssue Error Title "Missing title tag"
       (Some "Every page should have a unique title tag for SEO"%string)] <->
  lacksText el = true.
Proof.
  unfold recordedBy, checkTitle. destruct (lacksText el).
  - split; reflexivity.
  - split; [|discriminate]. destruct el as [e|]; [|discriminate].
    cbv zeta. destruct (_ >? 60); [discriminate|].
    destruct (_ <? 30); discriminate.
Qed.

Lemma checkMeta_missing_iff (el : option Node) :
  recordedBy (checkMeta el) =
    [mkIssue Error MetaDescription "Missing meta description"
       (Some "Meta descriptions help search engines understand your page content"%string)] <->
  lacksContent el = true.
Proof.
  unfold recordedBy, checkMeta. destruct (lacksContent el).
  - split; reflexivity.
  - split; [|discriminate]. destruct el as [e|]; [|discriminate].
    cbv zeta. destruct (_ >? 160); [discriminate|].
    destruct (_ <? 120); discriminate.
Qed.

Lemma checkImages_none_iff (missing : list ImageRef) :
  recordedBy (checkImages missing) = [] <-> missing = [].
Proof.
  unfold recordedBy, checkImages. destruct missing as [|m missing].
  - split; reflexivity.
  - replace (len (m :: missing) >? 0) with true
      by (symmetry; apply Z.gtb_lt; unfold len; cbn [List.length]; lia).
    split; discriminate.
Qed.

(** X4. The facts kept in [seoDetails] agree with the issues: the title
    text is null exactly when the error "Missing title tag" is recorded,
    the meta description is null exactly when the error "Missing meta
    description" is recorded, a stored text is never empty, [h1Tags] is
    one record that carries the number of h1 elements, and the list of
    images without alt is empty exactly when no image issue is
    recorded. *)
Theorem X4_seoDetails_agree_with_issues :
  forall (parseFromString : string -> Document)
         (URL_pathname : string -> option string) (url html : string),
    let doc := parseFromString html in
    let r := analyzePage parseFromString URL_pathname url html in
    let d := seoDetails r in
    (titleText d = None <->
     issuesIn Title r =
       [mkIssue Error Title "Missing title tag"
          (Some "Every page should have a unique title tag for SEO"%string)]) /\
    (metaDescription d = None <->
     issuesIn MetaDescription r =
       [mkIssue Error MetaDescription "Missing meta description"
          (Some "Meta descriptions help search engines understand your page content"%string)]) /\
    titleText d <> Some EmptyString /\
    metaDescription d <> Some EmptyString /\
    (exists joined, h1Tags d = [mkH1Tag joined (len (h1sOf doc))]) /\
    (imagesWithoutAlt d = [] <-> issuesIn Images r = []).
Proof.
  intros parse path url html doc r d.
  destruct (issuesIn_by_check parse path url html) as (Ht & Hm & _ & Hi).
  fold doc r in Ht, Hm, Hi. rewrite Ht, Hm, Hi.
  split; [|split; [|split; [|split; [|split]]]].
  - rewrite checkTitle_missing_iff. apply titleText_none_iff.
  - rewrite checkMeta_missing_iff. apply metaDescription_none_iff.
  - subst d r. unfold analyzePage. cbn [seoDetails titleText].
    destruct (querySelector _ _) as [e|]; cbn; [|discriminate].
    destruct (JS.trim (textContent e)); cbn; discriminate.
  - subst d r. unfold analyzePage. cbn [seoDetails metaDescription].
    destruct (querySelector _ _) as [e|]; cbn; [|discriminate].
    destruct (getAttribute e "content") as [c|]; cbn; [|discriminate].
    destruct (JS.trim c); cbn; discriminate.
  - eexists. reflexivity.
  - rewrite checkImages_none_iff. reflexivity.
Qed.

Lemma or_else_nonempty (a b : string) :
  b <> EmptyString -> JS.or_else a b <> EmptyString.
Proof. intros Hb. unfold JS.or_else. destruct a; cbn; [exact Hb|discriminate]. Qed.

Lemma titleFromUrl_nonempty (path : string -> option string) (url : string) :
  titleFromUrl path url <> EmptyString.
Proof.
  unfold titleFromUrl. destruct (path url) as [p|]; [|discriminate].
  destruct (len _ >? 0); [|discriminate].
  unfold titleFromPart. apply or_else_nonempty. discriminate.
Qed.

(** X5. The displayed title of a result is never the empty string,
    whatever the page and the url. *)
Theorem X5_title_never_empty :
  forall (parseFromString : string -> Document)
         (URL_pathname : string -> option string) (url html : string),
    title (analyzePage parseFromString URL_pathname url html) <> EmptyString.
Proof.
  intros parse path url html.
  change (title (analyzePage parse path url html))
    with (pageTitle path url (titleOf (parse html)) (h1sOf (parse html))).
  unfold pageTitle.
  assert (Hfallback :
    forall h1s,
      (let firstH1 :=
         if len h1s >? 0
         then JS.trim (textContent (hd (Text EmptyString) h1s))
         else EmptyString in
       if JS.truthy firstH1 && (JS.length firstH1 >? 3) then firstH1
       else titleFromUrl path url) <> EmptyString).
  { intros h1s. cbv zeta.
    destruct (if len h1s >? 0 then _ else _) as [|c t] eqn:E; cbn [JS.truthy andb].
    - apply titleFromUrl_nonempty.
    - destruct (_ >? 3); [discriminate|apply titleFromUrl_nonempty]. }
  destruct (titleOf (parse html)) as [e|]; cbn [option_map]; [|apply Hfallback].
  destruct (JS.trim (textContent e)) as [|c t]; cbn [JS.truthy andb];
    [apply Hfallback|].
  destruct (_ >? 0); [discriminate|apply Hfallback].
Qed.

(** ** The analysis loop and the summary shown *)

Lemma analyzeStep_fold (parse : string -> Document)
    (path : string -> option string) (pages : list CrawlPage.t)
    (acc : list PageAnalysis) :
  fold_left (analyzeStep parse path) pages acc =
  acc ++ map (fun page =>
                analyzePage parse path
                  (JS.opt_or_else (sourceOf page) EmptyString)
                  (JS.opt_or_else (CrawlPage.html page) EmptyString))
             (filter (fun page => bothTruthy (CrawlPage.html page)
                                             (sourceOf page)) pages).
Proof.
  revert acc. induction pages as [|page pages IH]; intro acc; cbn [fold_left].
  - cbn. now rewrite app_nil_r.
  - rewrite IH. unfold analyzeStep. cbn [filter].
    destruct (bothTruthy _ _); [|reflexivity].
    cbn [map]. now rewrite <- app_assoc.
Qed.

Lemma analyzePages_analyzed (parse : string -> Document)
    (path : string -> option string) (crawlData : option CrawlData.t) :
  Forall (Analyzed parse path) (analyzePages parse path crawlData).
Proof.
  unfold analyzePages. destruct crawlData as [[[pages|]]|]; try constructor.
  cbn [CrawlData.data]. rewrite analyzeStep_fold. cbn [app].
  apply Forall_map. apply Forall_forall. intros page _.
  eexists; eexists; reflexivity.
Qed.

Lemma sumZ_bounds {A : Type} (f : A -> Z) (lo hi : Z) (l : list A) :
  Forall (fun x => lo <= f x <= hi) l ->
  lo * len l <= sumZ (map f l) <= hi * len l.
Proof.
  induction 1 as [|x l Hx _ IH]; unfold len in *; cbn [map sumZ fold_right List.length].
  - lia.
  - fold (sumZ (map f l)). lia.
Qed.

Lemma analyzed_score_bounds (parse : string -> Document)
    (path : string -> option string) (a : PageAnalysis) :
  Analyzed parse path a -> 30 <= score a <= 100.
Proof.
  intros (url & html & ->). rewrite score_by_check. cbv zeta.
  pose proof (penalties_bounded (parse html)). lia.
Qed.

Lemma countOf_partition_types (l : list SeoIssue) :
  len l =
  countOf (fun i => IssueType_eqb (type i) Error) l +
  countOf (fun i => IssueType_eqb (type i) Warning) l +
  countOf (fun i => IssueType_eqb (type i) Info) l.
Proof.
  unfold countOf, len. induction l as [|i l IH]; cbn [filter List.length]; [lia|].
  destruct (type i); cbn [IssueType_eqb List.length]; lia.
Qed.

Lemma countOf_none {A : Type} (f : A -> bool) (l : list A) :
  Forall (fun x => f x = false) l -> countOf f l = 0.
Proof.
  unfold countOf, len. induction 1 as [|x l Hx _ IH]; cbn [filter]; [reflexivity|].
  now rewrite Hx.
Qed.

Lemma len_allIssues (analyses : list PageAnalysis) :
  len (allIssues analyses) =
  sumZ (map (fun page => len (issues page)) analyses).
Proof.
  unfold allIssues, len. induction analyses as [|a l IH]; cbn; [reflexivity|].
  rewrite length_app. fold (sumZ (map (fun page => Z.of_nat (List.length (issues page))) l)).
  lia.
Qed.

Lemma analyzed_issue_count (parse : string -> Document)
    (path : string -> option string) (a : PageAnalysis) :
  Analyzed parse path a -> 0 <= len (issues a) <= 4.
Proof.
  intros (url & html & ->). rewrite issues_by_check. cbv zeta.
  set (doc := parse html).
  destruct (checkTitle_cases (titleOf doc)) as [[-> _]|(i1 & -> & _)];
  destruct (checkMeta_cases (metaOf doc)) as [[-> _]|(i2 & -> & _)];
  destruct (checkH1_cases (h1sOf doc)) as [[-> _]|(i3 & -> & _)];
  destruct (checkImages_cases (collectImages (imgsOf doc)))
    as [[-> _]|(i4 & -> & _)];
  unfold len; cbn; lia.
Qed.

Lemma generateSummary_counts (analyses : list PageAnalysis) :
  let s := generateSummary analyses in
  (forall t, get IssueType_eqb t (issuesByType s) =
             countOf (fun i => IssueType_eqb (type i) t) (allIssues analyses)) /\
  (forall c, get Category_eqb c (issuesByCategory s) =
             countOf (fun i => Category_eqb (category i) c) (allIssues analyses)) /\
  totalIssues s = len (allIssues analyses).
Proof.
  intros s.
  destruct (countPages_spec analyses (issuesByType0, issuesByCategory0))
    as (_ & Ht & Hc); [split; reflexivity|].
  split; [|split].
  - intros t. unfold s, generateSummary. cbn [issuesByType]. rewrite Ht.
    destruct t; cbn; lia.
  - intros c. unfold s, generateSummary. cbn [issuesByCategory]. rewrite Hc.
    destruct c; cbn; lia.
  - unfold s, generateSummary. cbn [totalIssues].
    now rewrite fold_add_acc, len_allIssues.
Qed.

(** X6. The summary the index page computes from a crawl result: when
    the results view is rendered (some page had markup and an address),
    [averageScore] is an integer between 30 and 100; otherwise no page
    was analysed and [averageScore] is NaN.  In both cases no issue has
    type info, every issue is an error or a warning, and there are at most
    four issues per analysed page. *)
Theorem X6_summary_of_crawl :
  forall (parseFromString : string -> Document)
         (URL_pathname : string -> option string)
         (crawlData : option CrawlData.t),
    let s := summaryOf parseFromString URL_pathname crawlData in
    (resultsShown parseFromString URL_pathname crawlData = true ->
     exists n, averageScore s = JS.of_Z n /\ 30 <= n <= 100) /\
    (resultsShown parseFromString URL_pathname crawlData = false ->
     totalPages s = 0 /\ averageScore s = JS.NaN) /\
    get IssueType_eqb Info (issuesByType s) = 0 /\
    totalIssues s =
      get IssueType_eqb Error (issuesByType s) +
      get IssueType_eqb Warning (issuesByType s) /\
    0 <= totalIssues s <= 4 * totalPages s.
Proof.
  intros parse path cd s. unfold resultsShown. subst s. unfold summaryOf.
  pose proof (analyzePages_analyzed parse path cd) as Hall.
  set (batch := analyzePages parse path cd) in *.
  destruct (generateSummary_counts batch) as (Ht & _ & Htot).
  assert (Hinfo : countOf (fun i => IssueType_eqb (type i) Info)
                          (allIssues batch) = 0).
  { apply countOf_none. unfold allIssues. apply Forall_flat_map.
    revert Hall. apply Forall_impl. intros a (url & html & ->).
    pose proof (issues_types parse path url html) as Hty.
    revert Hty. apply Forall_impl. intros i [H|H]; now rewrite H. }
  split; [|split; [|split; [|split]]].
  - intros Hshown. apply Z.gtb_lt in Hshown.
    exists ((2 * sumZ (map score batch) + len batch) / (2 * len batch)).
    split.
    + unfold generateSummary. cbn [averageScore].
      rewrite fold_add_acc, Z.add_0_l. apply round_div. lia.
    + pose proof (sumZ_bounds score 30 100 batch) as Hb.
      assert (Hs : 30 * len batch <= sumZ (map score batch) <= 100 * len batch).
      { apply Hb. revert Hall. apply Forall_impl.
        apply analyzed_score_bounds. }
      split.
      * apply Z.div_le_lower_bound; lia.
      * apply Z.lt_succ_r. apply Z.div_lt_upper_bound; lia.
  - intros Hnot. destruct batch as [|a batch]; [split; reflexivity|].
    unfold len in Hnot. cbn [List.length] in Hnot.
    rewrite Z.gtb_ltb in Hnot. apply Z.ltb_ge in Hnot. lia.
  - rewrite Ht. exact Hinfo.
  - rewrite Htot, !Ht, (countOf_partition_types (allIssues batch)). lia.
  - rewrite Htot, len_allIssues.
    pose proof (sumZ_bounds (fun page => len (issues page)) 0 4 batch) as Hb.
    assert (Hs : 0 * len batch <=
                 sumZ (map (fun page => len (issues page)) batch) <=
                 4 * len batch).
    { apply Hb. revert Hall. apply Forall_impl. apply analyzed_issue_count. }
    unfold generateSummary. cbn [totalPages]. lia.
Qed.

Lemma X6_sample_crawl_witness :
  exists n,
    averageScore (summaryOf Ref.parseFromString Ref.URL_pathname sampleCrawl)
    = JS.of_Z n /\ 30 <= n <= 100.
Proof.
  apply (proj1 (X6_summary_of_crawl Ref.parseFromString Ref.URL_pathname
                  sampleCrawl)).
  reflexivity.
Defined.

(** ** Addresses of a crawl result *)

Lemma truthy_nonempty (u : string) : JS.truthy u = true <-> u <> EmptyString.
Proof. destruct u; cbn; split; congruence. Qed.

Lemma length_pos_nonempty (u : string) :
  (JS.length u >? 0) = true <-> u <> EmptyString.
Proof.
  destruct u as [|c u]; unfold JS.length; cbn [String.length].
  - split; [discriminate|congruence].
  - split; [discriminate|]. intros _. apply Z.gtb_lt. lia.
Qed.

Lemma eligible_address (page : CrawlPage.t) :
  bothTruthy (CrawlPage.html page) (sourceOf page) = true ->
  sourceOf page = Some (addressOf page) /\ addressOf page <> EmptyString.
Proof.
  unfold bothTruthy, addressOf.
  destruct (CrawlPage.html page) as [h|]; [|discriminate].
  destruct (sourceOf page) as [u|]; [|discriminate].
  intros H. apply andb_prop in H as [_ Hu]. cbn [JS.opt_or_else].
  unfold JS.or_else. rewrite Hu. split; [reflexivity|].
  now apply truthy_nonempty.
Qed.

Lemma filter_length_le_implied {A : Type} (f g : A -> bool) (l : list A) :
  (forall x, f x = true -> g x = true) ->
  (List.length (filter f l) <= List.length (filter g l))%nat.
Proof.
  intros Himp. induction l as [|x l IH]; cbn [filter]; [lia|].
  destruct (f x) eqn:Ef.
  - rewrite (Himp x Ef). cbn [List.length]. lia.
  - destruct (g x); cbn [List.length]; lia.
Qed.

Lemma filter_of_map {A B : Type} (f : B -> bool) (g : A -> B) (l : list A) :
  filter f (map g l) = map g (filter (fun a => f (g a)) l).
Proof.
  induction l as [|a l IH]; cbn [map filter]; [reflexivity|].
  destruct (f (g a)); cbn [map]; now rewrite IH.
Qed.

(** X7. [extractPageUrls] never returns an empty address: its result is,
    in page order and once per page, the address of every page that has
    one, the address of a page being its [metadata.sourceURL] when that
    is a non-empty string and its [url] otherwise.  So the addresses of
    two lists of pages put end to end are the addresses of the first
    followed by those of the second, and one page gives one address or
    none.  A missing crawl result or a missing [data] gives the empty
    list, and there are never more addresses than pages. *)
Theorem X7_extractPageUrls_addresses :
  extractPageUrls None = [] /\
  extractPageUrls (Some (CrawlData.mk None)) = [] /\
  (forall pages : list CrawlPage.t,
      let urls := extractPageUrls (Some (CrawlData.mk (Some pages))) in
      Forall (fun u => u <> EmptyString) urls /\
      (forall u, In u urls <->
                 u <> EmptyString /\ exists page, In page pages /\ addressOf page = u) /\
      (List.length urls <= List.length pages)%nat /\
      urls = map addressOf
               (filter (fun page => JS.truthy (addressOf page)) pages)) /\
  (forall page u,
      sourceOf page = Some u -> u <> EmptyString -> addressOf page = u) /\
  (forall page,
      sourceOf page = None \/ sourceOf page = Some EmptyString ->
      addressOf page =
        match CrawlPage.url page with Some u => u | None => EmptyString end) /\
  (forall first second : list CrawlPage.t,
      extractPageUrls (Some (CrawlData.mk (Some (first ++ second)))) =
      extractPageUrls (Some (CrawlData.mk (Some first))) ++
      extractPageUrls (Some (CrawlData.mk (Some second)))) /\
  (forall page,
      extractPageUrls (Some (CrawlData.mk (Some [page]))) =
      match addressOf page with
      | EmptyString => []
      | String _ _ as u => [u]
      end).
Proof.
  split; [reflexivity|]. split; [reflexivity|].
  split; [|split; [|split; [|split]]].
  - intros pages urls. subst urls. unfold extractPageUrls. cbn [CrawlData.data].
    split; [|split; [|split]].
    + apply Forall_forall. intros u Hu. apply filter_In in Hu as [_ Hu].
      now apply length_pos_nonempty.
    + intros u. rewrite filter_In, in_map_iff, length_pos_nonempty. split.
      * intros [(page & Ha & Hin) Hne]. split; [exact Hne|]. now exists page.
      * intros [Hne (page & Hin & Ha)]. split; [now exists page|exact Hne].
    + rewrite <- (length_map addressOf pages). apply filter_length_le.
    + rewrite filter_of_map. f_equal. apply filter_ext. intros page.
      destruct (addressOf page) as [|c u]; [reflexivity|].
      apply Z.gtb_lt. unfold JS.length. cbn [String.length]. lia.
  - intros page u Hs Hu. unfold addressOf. rewrite Hs. cbn [JS.opt_or_else].
    unfold JS.or_else. now rewrite (proj2 (truthy_nonempty u) Hu).
  - intros page [Hs|Hs]; unfold addressOf; rewrite Hs; cbn [JS.opt_or_else];
      apply src_or_empty.
  - intros first second. unfold extractPageUrls. cbn [CrawlData.data].
    now rewrite map_app, filter_app.
  - intros page. unfold extractPageUrls. cbn [CrawlData.data map filter].
    destruct (addressOf page) as [|c u]; [reflexivity|].
    replace (JS.length (String c u) >? 0) with true; [reflexivity|].
    symmetry. apply Z.gtb_lt. unfold JS.length. cbn [String.length]. lia.
Qed.

Lemma analyzePage_url (parse : string -> Document)
    (path : string -> option string) (u h : string) :
  url (analyzePage parse path u h) = u.
Proof. reflexivity. Qed.

(** X8. The index page analyses, in page order, exactly the pages that
    have both non-empty markup and a non-empty [metadata.sourceURL], each
    under that address.  So every analysed address is non-empty and is one
    of the addresses [extractPageUrls] lists for the same crawl result,
    and there are never more analyses than listed addresses. *)
Theorem X8_analysis_loop_covers_eligible_pages :
  forall (parseFromString : string -> Document)
         (URL_pathname : string -> option string)
         (crawlData : option CrawlData.t),
    let analyses := analyzePages parseFromString URL_pathname crawlData in
    let urls := extractPageUrls crawlData in
    (forall pages,
        crawlData = Some (CrawlData.mk (Some pages)) ->
        map url analyses =
        map addressOf
            (filter (fun page => bothTruthy (CrawlPage.html page)
                                            (sourceOf page)) pages)) /\
    Forall (fun a => url a <> EmptyString /\ In (url a) urls) analyses /\
    (List.length analyses <= List.length urls)%nat.
Proof.
  intros parse path cd analyses urls. subst analyses urls.
  destruct cd as [[[pages|]]|];
    try (split; [intros ? [=] | split; [constructor | cbn; lia]]).
  unfold analyzePages, extractPageUrls. cbn [CrawlData.data].
  rewrite analyzeStep_fold. cbn [app].
  assert (Hurl : forall l,
             map url (map (fun page =>
                             analyzePage parse path
                               (JS.opt_or_else (sourceOf page) EmptyString)
                               (JS.opt_or_else (CrawlPage.html page) EmptyString))
                          (filter (fun page => bothTruthy (CrawlPage.html page)
                                                         (sourceOf page)) l)) =
             map addressOf
                 (filter (fun page => bothTruthy (CrawlPage.html page)
                                                 (sourceOf page)) l)).
  { intros l. rewrite map_map. apply map_ext_in. intros page Hin.
    apply filter_In in Hin as [_ He].
    destruct (eligible_address page He) as [Hs Hne].
    rewrite analyzePage_url, Hs. cbn [JS.opt_or_else]. unfold JS.or_else.
    now rewrite (proj2 (truthy_nonempty _) Hne). }
  split; [|split].
  - intros pages' [= <-]. apply Hurl.
  - apply Forall_map. apply Forall_forall. intros page Hin.
    apply filter_In in Hin as [Hin He].
    destruct (eligible_address page He) as [Hs Hne].
    rewrite analyzePage_url, Hs. cbn [JS.opt_or_else]. unfold JS.or_else.
    rewrite (proj2 (truthy_nonempty _) Hne). split; [exact Hne|].
    apply filter_In. split; [now apply in_map|].
    now apply length_pos_nonempty.
  - rewrite length_map, filter_of_map, length_map.
    apply filter_length_le_implied.
    intros page He. apply length_pos_nonempty.
    now destruct (eligible_address page He).
Qed.

(** ** The rows *)

Lemma titleIssue_label (a : PageAnalysis) :
  SeoDataRow.titleIssue (extractRow a) = labelOf 30 60 (titleText (seoDetails a)).
Proof.
  unfold extractRow. cbn [SeoDataRow.titleIssue]. unfold labelOf, isMissing.
  destruct (titleText (seoDetails a)) as [s|]; [|reflexivity].
  destruct (JS.truthy s) eqn:Hs; [|reflexivity]. cbn [negb JS.opt_or_else].
  unfold JS.or_else. rewrite Hs.
  destruct (String.eqb_spec s "MISSING") as [->|Hne]; [reflexivity|].
  destruct (_ >? 60); [reflexivity|]. now destruct (_ <? 30).
Qed.

Lemma metaIssue_label (a : PageAnalysis) :
  SeoDataRow.metaIssue (extractRow a) =
  labelOf 120 160 (metaDescription (seoDetails a)).
Proof.
  unfold extractRow. cbn [SeoDataRow.metaIssue]. unfold labelOf, isMissing.
  destruct (metaDescription (seoDetails a)) as [s|]; [|reflexivity].
  destruct (JS.truthy s) eqn:Hs; [|reflexivity]. cbn [negb JS.opt_or_else].
  unfold JS.or_else. rewrite Hs.
  destruct (String.eqb_spec s "MISSING") as [->|Hne]; [reflexivity|].
  destruct (_ >? 160); [reflexivity|]. now destruct (_ <? 120).
Qed.

(** X9. The labels of a row depend only on the stored texts and counts:
    a title is Missing when its text is null or empty, Too Long above 60
    characters, Too Short below 30 and Good otherwise, and likewise a
    meta description with 160 and 120.  The text MISSING that stands for
    an absent value cannot change a label, though a title or description
    that itself reads MISSING is reported with 0 characters in its
    suggestion.  With no [h1Tags] record the row has [h1Count] 0, the h1
    label Missing and the content MISSING. *)
Theorem X9_row_labels :
  forall a : PageAnalysis,
    let d := seoDetails a in
    let row := extractRow a in
    SeoDataRow.titleIssue row = labelOf 30 60 (titleText d) /\
    SeoDataRow.metaIssue row = labelOf 120 160 (metaDescription d) /\
    SeoDataRow.h1Issue row = h1LabelOf (SeoDataRow.h1Count row) /\
    SeoDataRow.h1Count row =
      match h1Tags d with [] => 0 | t :: _ => count t end /\
    (h1Tags d = [] ->
     SeoDataRow.h1Issue row = "Missing"%string /\
     SeoDataRow.h1Content row = "MISSING"%string) /\
    (titleText d = Some "MISSING"%string ->
     SeoDataRow.titleIssue row = "Too Short"%string /\
     SeoDataRow.titleSuggestion row =
       "Expand your title to 30-60 characters (currently 0). Add more descriptive keywords."%string).
Proof.
  intros a d row. split; [apply titleIssue_label|].
  split; [apply metaIssue_label|]. split; [|split; [|split]].
  - subst row. unfold extractRow, h1LabelOf.
    cbn [SeoDataRow.h1Issue SeoDataRow.h1Count].
    destruct (_ =? 0); [reflexivity|]. now destruct (_ >? 1).
  - subst row. unfold extractRow. cbn [SeoDataRow.h1Count]. fold d.
    destruct (h1Tags d) as [|t ?]; [reflexivity|]. unfold num_or_zero.
    destruct (count t =? 0) eqn:E; [|reflexivity].
    apply Z.eqb_eq in E. now rewrite E.
  - intros Hnil. subst row. unfold extractRow.
    cbn [SeoDataRow.h1Issue SeoDataRow.h1Content]. fold d. rewrite Hnil.
    split; reflexivity.
  - intros Ht. subst row. unfold extractRow.
    cbn [SeoDataRow.titleIssue SeoDataRow.titleSuggestion]. fold d.
    rewrite Ht. split; reflexivity.
Qed.

Lemma X9_missing_title_text_witness :
  SeoDataRow.titleSuggestion
    (extractRow
       (analyzePage Ref.parseFromString Ref.URL_pathname
          "https://example.com/" (titlePage "MISSING"))) =
  "Expand your title to 30-60 characters (currently 0). Add more descriptive keywords."%string.
Proof.
  pose proof (X9_row_labels
                (analyzePage Ref.parseFromString Ref.URL_pathname
                   "https://example.com/" (titlePage "MISSING"))) as H.
  destruct H as (_ & _ & _ & _ & _ & H).
  apply H. reflexivity.
Defined.

Lemma labelOf_missing_iff (lo hi : Z) (t : option string) :
  t <> Some EmptyString ->
  (labelOf lo hi t = "Missing"%string <-> t = None).
Proof.
  intros Hne. unfold labelOf. destruct t as [s|]; [|tauto].
  destruct s as [|c s]; [now elim Hne|]. cbn [JS.truthy negb].
  destruct (_ >? hi); [split; discriminate|].
  destruct (_ <? lo); split; discriminate.
Qed.

Lemma checkH1_none_iff (h1s : list Node) :
  recordedBy (checkH1 h1s) = [] <-> h1LabelOf (len h1s) = "Good"%string.
Proof.
  unfold recordedBy, checkH1, h1LabelOf.
  destruct (_ =? 0); [split; discriminate|].
  destruct (_ >? 1); [split; discriminate|]. split; reflexivity.
Qed.

Lemma num_or_zero_id (n : Z) : num_or_zero n = n.
Proof.
  unfold num_or_zero. destruct (n =? 0) eqn:E; [|reflexivity].
  apply Z.eqb_eq in E. now rewrite E.
Qed.

(** X10. The row made from an analysed page agrees with the issues of
    that page: its title (meta description) label is Missing exactly when
    the missing-title (missing-description) error is recorded; its
    [h1Count] is the number of h1 elements, its h1 label is Good exactly
    when no h1 issue is recorded and Missing exactly when there is no h1;
    its [imagesWithoutAlt] is the number of images kept in [seoDetails],
    which is 0 exactly when no image issue is recorded; and it carries the
    page's url. *)
Theorem X10_row_agrees_with_issues :
  forall (parseFromString : string -> Document)
         (URL_pathname : string -> option string) (url html : string),
    let doc := parseFromString html in
    let r := analyzePage parseFromString URL_pathname url html in
    let row := extractRow r in
    (SeoDataRow.titleIssue row = "Missing"%string <->
     issuesIn Title r =
       [mkIssue Error Title "Missing title tag"
          (Some "Every page should have a unique title tag for SEO"%string)]) /\
    (SeoDataRow.metaIssue row = "Missing"%string <->
     issuesIn MetaDescription r =
       [mkIssue Error MetaDescription "Missing meta description"
          (Some "Meta descriptions help search engines understand your page content"%string)]) /\
    SeoDataRow.h1Count row = len (h1sOf doc) /\
    (SeoDataRow.h1Issue row = "Good"%string <-> issuesIn H1 r = []) /\
    (SeoDataRow.h1Issue row = "Missing"%string <-> len (h1sOf doc) = 0) /\
    SeoDataRow.imagesWithoutAlt row = len (imagesWithoutAlt (seoDetails r)) /\
    (SeoDataRow.imagesWithoutAlt row = 0 <-> issuesIn Images r = []) /\
    SeoDataRow.url row = url.
Proof.
  intros parse path url html doc r row.
  destruct (issuesIn_by_check parse path url html) as (Ht & Hm & Hh & Hi).
  fold doc r in Ht, Hm, Hh, Hi. rewrite Ht, Hm, Hh, Hi.
  assert (Hcount : SeoDataRow.h1Count row = len (h1sOf doc)).
  { subst row r. unfold extractRow, analyzePage.
    cbn [SeoDataRow.h1Count seoDetails h1Tags count]. apply num_or_zero_id. }
  assert (Hlabel : SeoDataRow.h1Issue row = h1LabelOf (len (h1sOf doc))).
  { rewrite <- Hcount. subst row. unfold extractRow, h1LabelOf.
    cbn [SeoDataRow.h1Issue SeoDataRow.h1Count].
    destruct (_ =? 0); [reflexivity|]. now destruct (_ >? 1). }
  split; [|split; [|split; [|split; [|split; [|split; [|split]]]]]].
  - subst row. rewrite titleIssue_label, checkTitle_missing_iff.
    rewrite labelOf_missing_iff.
    + subst r. unfold analyzePage. cbn [seoDetails titleText].
      apply titleText_none_iff.
    + subst r. unfold analyzePage. cbn [seoDetails titleText].
      destruct (querySelector _ _) as [e|]; cbn; [|discriminate].
      destruct (JS.trim (textContent e)); cbn; discriminate.
  - subst row. rewrite metaIssue_label, checkMeta_missing_iff.
    rewrite labelOf_missing_iff.
    + subst r. unfold analyzePage. cbn [seoDetails metaDescription].
      apply metaDescription_none_iff.
    + subst r. unfold analyzePage. cbn [seoDetails metaDescription].
      destruct (querySelector _ _) as [e|]; cbn; [|discriminate].
      destruct (getAttribute e "content") as [c|]; cbn; [|discriminate].
      destruct (JS.trim c); cbn; discriminate.
  - exact Hcount.
  - rewrite Hlabel. symmetry. apply checkH1_none_iff.
  - rewrite Hlabel. unfold h1LabelOf.
    destruct (len (h1sOf doc) =? 0) eqn:E.
    + apply Z.eqb_eq in E. tauto.
    + apply Z.eqb_neq in E.
      destruct (_ >? 1); split; (discriminate || contradiction).
  - reflexivity.
  - rewrite checkImages_none_iff.
    change (SeoDataRow.imagesWithoutAlt row)
      with (len (imagesWithoutAlt (seoDetails r))).
    change (imagesWithoutAlt (seoDetails r)) with (collectImages (imgsOf doc)).
    destruct (collectImages (imgsOf doc)); unfold len; cbn [List.length];
      split; (reflexivity || discriminate || lia).
  - reflexivity.
Qed.

(** X11. When the text of the title element has no white space around it
    (it is its own trimmed form), the row and the issues of an analysed
    page agree on the title: the label is Good exactly when no title issue
    is recorded, Too Long exactly when the too-long warning is, and Too
    Short exactly when the too-short warning is. *)
Theorem X11_title_label_agrees_when_not_padded :
  forall (parseFromString : string -> Document)
         (URL_pathname : string -> option string) (url html : string)
         (e : Node),
    titleOf (parseFromString html) = Some e ->
    JS.trim (textContent e) = textContent e ->
    let r := analyzePage parseFromString URL_pathname url html in
    let row := extractRow r in
    let n := JS.length (textContent e) in
    (SeoDataRow.titleIssue row = "Good"%string <-> issuesIn Title r = []) /\
    (SeoDataRow.titleIssue row = "Too Long"%string <->
     issuesIn Title r =
       [mkIssue Warning Title "Title tag too long"
          (Some ("Title is " ++ JS.toString n ++
                 " characters. Recommended: 50-60 characters")%string)]) /\
    (SeoDataRow.titleIssue row = "Too Short"%string <->
     issuesIn Title r =
       [mkIssue Warning Title "Title tag too short"
          (Some ("Title is " ++ JS.toString n ++
                 " characters. Recommended: 30-60 characters")%string)]).
Proof.
  intros parse path url html e He Htrim r row n.
  destruct (issuesIn_by_check parse path url html) as (Ht & _).
  fold r in Ht. rewrite Ht, He. subst row. rewrite titleIssue_label.
  assert (Hd : titleText (seoDetails r) = JS.or_null (Some (textContent e))).
  { subst r. unfold analyzePage. cbn [seoDetails titleText].
    fold (titleOf (parse html)). rewrite He. cbn [option_map].
    now rewrite Htrim. }
  rewrite Hd. unfold recordedBy, checkTitle, lacksText, labelOf.
  rewrite Htrim. cbv zeta. cbn [JS.or_null]. subst n.
  destruct (JS.truthy (textContent e)) eqn:Hs; cbn [negb].
  - rewrite Hs. cbn [negb]. set (n := JS.length (textContent e)).
    destruct (n >? 60); [repeat split; (reflexivity || discriminate)|].
    destruct (n <? 30); repeat split; (reflexivity || discriminate).
  - repeat split; discriminate.
Qed.

Lemma X11_plain_title_witness :
  let r := analyzePage Ref.parseFromString Ref.URL_pathname
             "https://example.com/" (titlePage title60) in
  SeoDataRow.titleIssue (extractRow r) = "Good"%string <->
  issuesIn Title r = [].
Proof.
  intros r.
  apply (X11_title_label_agrees_when_not_padded Ref.parseFromString
           Ref.URL_pathname "https://example.com/" (titlePage title60)
           (Element "title" [] [Text title60]));
    reflexivity.
Defined.

(** X12. When the content of the description element has no white space
    around it, the row and the issues of an analysed page agree on the
    meta description: the label is Good exactly when no issue is recorded,
    Too Long exactly when the too-long warning is, and Too Short exactly
    when the too-short warning is. *)
Theorem X12_meta_label_agrees_when_not_padded :
  forall (parseFromString : string -> Document)
         (URL_pathname : string -> option string) (url html : string)
         (e : Node) (c : string),
    metaOf (parseFromString html) = Some e ->
    getAttribute e "content" = Some c ->
    JS.trim c = c ->
    let r := analyzePage parseFromString URL_pathname url html in
    let row := extractRow r in
    let n := JS.length c in
    (SeoDataRow.metaIssue row = "Good"%string <->
     issuesIn MetaDescription r = []) /\
    (SeoDataRow.metaIssue row = "Too Long"%string <->
     issuesIn MetaDescription r =
       [mkIssue Warning MetaDescription "Meta description too long"
          (Some ("Description is " ++ JS.toString n ++
                 " characters. Recommended: 120-160 characters")%string)]) /\
    (SeoDataRow.metaIssue row = "Too Short"%string <->
     issuesIn MetaDescription r =
       [mkIssue Warning MetaDescription "Meta description too short"
          (Some ("Description is " ++ JS.toString n ++
                 " characters. Recommended: 120-160 characters")%string)]).
Proof.
  intros parse path url html e c He Hc Htrim r row n. subst n.
  destruct (issuesIn_by_check parse path url html) as (_ & Hm & _).
  fold r in Hm. rewrite Hm, He. subst row. rewrite metaIssue_label.
  assert (Hd : metaDescription (seoDetails r) = JS.or_null (Some c)).
  { subst r. unfold analyzePage. cbn [seoDetails metaDescription].
    fold (metaOf (parse html)). rewrite He, Hc. cbn [option_map].
    now rewrite Htrim. }
  rewrite Hd. unfold recordedBy, checkMeta, lacksContent, labelOf.
  rewrite Hc, Htrim. cbv zeta. cbn [JS.or_null JS.opt_or_else].
  unfold JS.or_else.
  destruct (JS.truthy c) eqn:Hs; cbn [negb].
  - rewrite Hs. cbn [negb]. set (n := JS.length c).
    destruct (n >? 160); [repeat split; (reflexivity || discriminate)|].
    destruct (n <? 120); repeat split; (reflexivity || discriminate).
  - repeat split; discriminate.
Qed.

Lemma X12_plain_description_witness :
  let r := analyzePage Ref.parseFromString Ref.URL_pathname
             "https://example.com/" (descriptionPage description160) in
  SeoDataRow.metaIssue (extractRow r) = "Good"%string <->
  issuesIn MetaDescription r = [].
Proof.
  intros r.
  apply (X12_meta_label_agrees_when_not_padded Ref.parseFromString
           Ref.URL_pathname "https://example.com/"
           (descriptionPage description160)
           (Element "meta"
              [("name", "description"); ("content", description160)]%string [])
           description160);
    reflexivity.
Defined.

(** ** The summary report *)

Lemma disjoint_filters_len {A : Type} (f g : A -> bool) (l : list A) :
  (forall x, f x = true -> g x = false) ->
  len (filter f l) + len (filter g l) <= len l.
Proof.
  intros Hfg. unfold len. induction l as [|x l IH]; cbn [filter List.length]; [lia|].
  destruct (f x) eqn:Ef.
  - rewrite (Hfg x Ef). cbn [List.length]. lia.
  - destruct (g x); cbn [List.length]; lia.
Qed.

(** X13. In a summary report over any rows, every page count lies between
    0 and [totalPages], and a page is never counted both as without h1
    and as with several h1.  When there is at least one row, each of the
    four percentages, computed in doubles (the quotient rounded, then its
    product by 100 rounded), is an integer between 0 and 100; it is 0
    when its count is 0 and 100 when its count is [totalPages]. *)
Theorem X13_report_counts_and_percentages :
  forall rows : list SeoDataRow.t,
    let rep := generateSummaryReport rows in
    let i := report_issues rep in
    let K := report_totalPages rep in
    K = len rows /\
    0 <= share_count (missingTitles i) <= K /\
    0 <= share_count (missingMetaDescriptions i) <= K /\
    0 <= share_count (noH1Tags i) <= K /\
    0 <= share_count (multipleH1Tags i) <= K /\
    share_count (noH1Tags i) + share_count (multipleH1Tags i) <= K /\
    (rows <> [] ->
     Forall (fun x => exists n, x = JS.of_Z n /\ 0 <= n <= 100)
            [percentage (missingTitles i);
             percentage (missingMetaDescriptions i);
             percentage (noH1Tags i);
             percentage (multipleH1Tags i)]) /\
    (rows <> [] ->
     Forall (fun s =>
               percentage s = percent (share_count s) K /\
               (share_count s = 0 -> percentage s = JS.of_Z 0) /\
               (share_count s = K -> percentage s = JS.of_Z 100))
            [missingTitles i; missingMetaDescriptions i;
             noH1Tags i; multipleH1Tags i]).
Proof.
  intros rows rep i K. subst K i rep. unfold generateSummaryReport.
  cbn [report_totalPages report_issues missingTitles missingMetaDescriptions
       noH1Tags multipleH1Tags share_count percentage].
  split; [reflexivity|].
  repeat (split; [apply filter_len_bounds|]).
  split; [|split].
  - apply disjoint_filters_len. intros row H0. apply Z.eqb_eq in H0.
    rewrite H0. reflexivity.
  - intros Hne. pose proof (len_positive rows Hne) as HK.
    repeat constructor; apply percent_bounds;
      auto using filter_len_bounds.
  - intros Hne. pose proof (len_positive rows Hne) as HK.
    repeat constructor; cbn [share_count percentage];
      try (intros ->; now apply percent_none);
      intros Hall; rewrite Hall; now apply percent_all.
Qed.

Lemma X13_sample_rows_witness :
  Forall (fun x => exists n, x = JS.of_Z n /\ 0 <= n <= 100)
         (let i := report_issues
                     (generateSummaryReport (extractSeoData sampleBatch)) in
          [percentage (missingTitles i);
           percentage (missingMetaDescriptions i);
           percentage (noH1Tags i);
           percentage (multipleH1Tags i)]).
Proof.
  destruct (X13_report_counts_and_percentages (extractSeoData sampleBatch))
    as (_ & _ & _ & _ & _ & _ & H & _).
  apply H. discriminate.
Defined.

(** The report of an analysed batch against its summary. *)

Lemma len_filter_cons {A : Type} (f : A -> bool) (x : A) (l : list A) :
  len (filter f (x :: l)) = Z.b2z (f x) + len (filter f l).
Proof.
  unfold len. cbn [filter]. destruct (f x); cbn [Z.b2z List.length]; lia.
Qed.

Lemma row_missing_title (parse : string -> Document)
    (path : string -> option string) (url html : string) :
  String.eqb (SeoDataRow.titleIssue
                (extractRow (analyzePage parse path url html))) "Missing" =
  lacksText (titleOf (parse html)).
Proof.
  rewrite titleIssue_label. unfold analyzePage. cbn [seoDetails titleText].
  fold (titleOf (parse html)).
  destruct (titleOf (parse html)) as [e|]; cbn [option_map JS.or_null lacksText];
    [|reflexivity].
  destruct (JS.trim (textContent e)) as [|c t]; [reflexivity|].
  cbn [JS.truthy negb labelOf].
  destruct (_ >? 60); [reflexivity|]. now destruct (_ <? 30).
Qed.

Lemma row_missing_meta (parse : string -> Document)
    (path : string -> option string) (url html : string) :
  String.eqb (SeoDataRow.metaIssue
                (extractRow (analyzePage parse path url html))) "Missing" =
  lacksContent (metaOf (parse html)).
Proof.
  rewrite metaIssue_label. unfold analyzePage. cbn [seoDetails metaDescription].
  fold (metaOf (parse html)).
  destruct (metaOf (parse html)) as [e|]; cbn [JS.or_null lacksContent];
    [|reflexivity].
  destruct (getAttribute e "content") as [c|]; cbn [option_map JS.or_null];
    [|reflexivity].
  destruct (JS.trim c) as [|x t]; [reflexivity|].
  cbn [JS.truthy negb labelOf].
  destruct (_ >? 160); [reflexivity|]. now destruct (_ <? 120).
Qed.

Lemma row_h1Count (parse : string -> Document)
    (path : string -> option string) (url html : string) :
  SeoDataRow.h1Count (extractRow (analyzePage parse path url html)) =
  len (h1sOf (parse html)).
Proof.
  unfold extractRow, analyzePage.
  cbn [SeoDataRow.h1Count seoDetails h1Tags count]. apply num_or_zero_id.
Qed.

Lemma row_imagesWithoutAlt (a : PageAnalysis) :
  SeoDataRow.imagesWithoutAlt (extractRow a) =
  len (imagesWithoutAlt (seoDetails a)).
Proof. reflexivity. Qed.

Lemma page_error_count (parse : string -> Document)
    (path : string -> option string) (url html : string) :
  let doc := parse html in
  let r := analyzePage parse path url html in
  countOf (fun i => IssueType_eqb (type i) Error) (issues r) =
    Z.b2z (lacksText (titleOf doc)) + Z.b2z (lacksContent (metaOf doc)) +
    Z.b2z (len (h1sOf doc) =? 0) /\
  countOf (fun i => Category_eqb (category i) H1) (issues r) =
    Z.b2z (len (h1sOf doc) =? 0) + Z.b2z (len (h1sOf doc) >? 1).
Proof.
  intros doc r. subst r. rewrite issues_by_check. fold doc.
  rewrite !countOf_app. unfold recordedBy, checkTitle, checkMeta, checkH1,
    checkImages.
  assert (Hz : forall k, (k =? 0) = true -> (k >? 1) = false).
  { intros k Hk. apply Z.eqb_eq in Hk. now subst k. }
  destruct (lacksText (titleOf doc));
    [|destruct (titleOf doc) as [e|];
      [cbv zeta; destruct (_ >? 60); [|destruct (_ <? 30)]|]];
  (destruct (lacksContent (metaOf doc));
    [|destruct (metaOf doc) as [e'|];
      [cbv zeta; destruct (_ >? 160); [|destruct (_ <? 120)]|]]);
  (destruct (len (h1sOf doc) =? 0) eqn:E0;
    [rewrite (Hz _ E0)|destruct (len (h1sOf doc) >? 1)]);
  destruct (len (collectImages (imgsOf doc)) >? 0);
  split; reflexivity.
Qed.

(** X14. For a batch of analysed pages, the report made from its rows and
    the summary made from its analyses agree: the errors of the summary
    are the missing titles, the missing meta descriptions and the pages
    without h1 of the report together; the h1 issues of the summary are
    the pages without h1 and the pages with several h1 together; and the
    report's total of images without alt is the sum of the lengths of the
    pages' lists of such images. *)
Theorem X14_report_agrees_with_summary :
  forall (parseFromString : string -> Document)
         (URL_pathname : string -> option string)
         (pages : list (string * string)),
    let batch :=
      map (fun p => analyzePage parseFromString URL_pathname (fst p) (snd p))
          pages in
    let s := generateSummary batch in
    let i := report_issues (generateSummaryReport (extractSeoData batch)) in
    get IssueType_eqb Error (issuesByType s) =
      share_count (missingTitles i) +
      share_count (missingMetaDescriptions i) +
      share_count (noH1Tags i) /\
    get Category_eqb H1 (issuesByCategory s) =
      share_count (noH1Tags i) + share_count (multipleH1Tags i) /\
    total (imagesWithoutAltTotals i) =
      sumZ (map (fun a => len (imagesWithoutAlt (seoDetails a))) batch).
Proof.
  intros parse path pages batch s i.
  destruct (generateSummary_counts batch) as (Ht & Hc & _).
  fold s in Ht, Hc. rewrite Ht, Hc. clear Ht Hc. subst i s.
  unfold generateSummaryReport, extractSeoData.
  cbn [report_issues missingTitles missingMetaDescriptions noH1Tags
       multipleH1Tags imagesWithoutAltTotals share_count total].
  rewrite fold_add_acc, Z.add_0_l, map_map.
  split; [|split]; [| |reflexivity].
  - subst batch. induction pages as [|[u h] pages IH]; [reflexivity|].
    cbn [map fst snd]. rewrite !len_filter_cons.
    unfold allIssues in *. cbn [flat_map]. rewrite countOf_app, IH.
    destruct (page_error_count parse path u h) as [He _]. rewrite He.
    rewrite row_missing_title, row_missing_meta, row_h1Count. lia.
  - subst batch. induction pages as [|[u h] pages IH]; [reflexivity|].
    cbn [map fst snd]. rewrite !len_filter_cons.
    unfold allIssues in *. cbn [flat_map]. rewrite countOf_app, IH.
    destruct (page_error_count parse path u h) as [_ Hh]. rewrite Hh.
    rewrite row_h1Count. lia.
Qed.

(** ** More on the summary *)

Lemma ranksBefore_ge (x y : Category * Z) : ranksBefore x y -> snd x >= snd y.
Proof. unfold ranksBefore. lia. Qed.

(** X15. Whatever the batch, also an empty one, [topIssues] has exactly
    three entries with counts in non-increasing order; together with one
    left-out entry they are the four category counters, and the left-out
    count is not larger than any of the three.  So the guard
    [topIssues.length > 0] of the results view always holds. *)
Theorem X15_topIssues_three_largest :
  forall analyses : list PageAnalysis,
    let s := generateSummary analyses in
    List.length (topIssues s) = 3%nat /\
    StronglySorted (fun x y => snd x >= snd y) (topIssues s) /\
    exists dropped,
      Permutation (topIssues s ++ [dropped]) (issuesByCategory s) /\
      Forall (fun x => snd x >= snd dropped) (topIssues s).
Proof.
  intros analyses s.
  destruct (countPages_spec analyses (issuesByType0, issuesByCategory0))
    as ((_ & Hkc) & _ & _); [split; reflexivity|].
  assert (Hcat : map fst (issuesByCategory s) =
                 [Title; MetaDescription; H1; Images]) by exact Hkc.
  assert (Htop : topIssues s = firstn 3 (sort (issuesByCategory s)))
    by reflexivity.
  pose proof (sort_perm (issuesByCategory s)) as Hperm.
  assert (Hsorted : StronglySorted ranksBefore (sort (issuesByCategory s))).
  { apply sort_sorted. rewrite (counters_by_key_category _ Hcat).
    repeat constructor; unfold enumeratedBefore; cbn; lia. }
  assert (Hlen : List.length (sort (issuesByCategory s)) = 4%nat).
  { rewrite (Permutation_length Hperm), <- (length_map fst), Hcat. reflexivity. }
  rewrite Htop.
  destruct (sort (issuesByCategory s)) as [|a [|b [|c [|d [|? ?]]]]];
    try discriminate.
  cbn [firstn].
  apply StronglySorted_inv in Hsorted as [Hs Ha].
  apply StronglySorted_inv in Hs as [Hs Hb].
  apply StronglySorted_inv in Hs as [_ Hc].
  apply Forall_cons_iff in Ha as (Hab & Ha). apply Forall_cons_iff in Ha as (Hac & Ha).
  apply Forall_inv in Ha. apply Forall_cons_iff in Hb as (Hbc & Hb).
  apply Forall_inv in Hb. apply Forall_inv in Hc.
  split; [reflexivity|]. split.
  - repeat constructor; auto using ranksBefore_ge.
  - exists d. split; [exact Hperm|].
    repeat constructor; auto using ranksBefore_ge.
Qed.

Lemma allIssues_app (a b : list PageAnalysis) :
  allIssues (a ++ b) = allIssues a ++ allIssues b.
Proof. unfold allIssues. apply flat_map_app. Qed.

(** X16. Summaries add up: for two batches put one after the other,
    [totalPages], [totalIssues] and every per-type and per-category count
    of the summary are the sums of those of the two summaries. *)
Theorem X16_summary_counts_are_additive :
  forall a b : list PageAnalysis,
    let sa := generateSummary a in
    let sb := generateSummary b in
    let s := generateSummary (a ++ b) in
    totalPages s = totalPages sa + totalPages sb /\
    totalIssues s = totalIssues sa + totalIssues sb /\
    (forall t, get IssueType_eqb t (issuesByType s) =
               get IssueType_eqb t (issuesByType sa) +
               get IssueType_eqb t (issuesByType sb)) /\
    (forall c, get Category_eqb c (issuesByCategory s) =
               get Category_eqb c (issuesByCategory sa) +
               get Category_eqb c (issuesByCategory sb)).
Proof.
  intros a b sa sb s.
  destruct (generateSummary_counts a) as (Hta & Hca & Hna).
  destruct (generateSummary_counts b) as (Htb & Hcb & Hnb).
  destruct (generateSummary_counts (a ++ b)) as (Ht & Hc & Hn).
  fold sa in Hta, Hca, Hna. fold sb in Htb, Hcb, Hnb. fold s in Ht, Hc, Hn.
  split; [|split; [|split]].
  - subst s sa sb. unfold generateSummary, len. cbn [totalPages].
    rewrite length_app. lia.
  - rewrite Hn, Hna, Hnb, allIssues_app. unfold len. rewrite length_app. lia.
  - intros t. now rewrite Ht, Hta, Htb, allIssues_app, countOf_app.
  - intros c. now rewrite Hc, Hca, Hcb, allIssues_app, countOf_app.
Qed.

(** ** Reading a CSV record back *)

Lemma occurrences_app (c : ascii) (a b : string) :
  occurrences c (a ++ b)%string = (occurrences c a + occurrences c b)%nat.
Proof. induction a as [|x a IH]; cbn; [reflexivity|]. rewrite IH. lia. Qed.

Ltac not_this_char Hc :=
  match goal with
  | |- context [Ascii.eqb ?x ?c] =>
      destruct (Ascii.eqb_spec x c) as [<-|_]; [cbn in Hc; lia|]
  end.

Lemma digits_plain (c : ascii) (d : Decimal.uint) :
  (nat_of_ascii c < 45)%nat -> occurrences c (NilEmpty.string_of_uint d) = O.
Proof.
  intros Hc. induction d; cbn [NilEmpty.string_of_uint occurrences];
    try reflexivity; not_this_char Hc; exact IHd.
Qed.

Lemma toString_plain (c : ascii) (n : Z) :
  (nat_of_ascii c < 45)%nat -> occurrences c (JS.toString n) = O.
Proof.
  intros Hc. unfold JS.toString, NilZero.string_of_int, NilZero.string_of_uint.
  destruct (Z.to_int n) as [d|d].
  - destruct d; try (now apply digits_plain).
    cbn [occurrences]. not_this_char Hc. reflexivity.
  - cbn [occurrences]. not_this_char Hc.
    destruct d; try (now apply digits_plain).
    cbn [occurrences]. not_this_char Hc. reflexivity.
Qed.

(** Characters that are neither a quote nor, outside quotes, a comma are
    added to the cell being read. *)
Lemma read_plain (q : bool) (s cell rest : string) :
  occurrences (JS.chr 34) s = O ->
  (q = true \/ occurrences "," s = O) ->
  readCsvRecord q cell (s ++ rest) = readCsvRecord q (cell ++ s) rest.
Proof.
  revert cell. induction s as [|c s IH]; intros cell Hq Hc.
  - cbn. now rewrite append_nil_r.
  - cbn [occurrences] in Hq, Hc. cbn [append readCsvRecord].
    destruct (Ascii.eqb c (JS.chr 34)) eqn:Eq; [discriminate|].
    assert (Hstay : Ascii.eqb c "," && negb q = false).
    { destruct Hc as [->|Hc]; [apply andb_false_r|].
      destruct (Ascii.eqb c ","); [discriminate|reflexivity]. }
    rewrite Hstay, IH.
    + now rewrite append_assoc.
    + exact Hq.
    + destruct Hc as [Hc|Hc]; [now left|right].
      destruct (Ascii.eqb c ","); [discriminate|exact Hc].
Qed.

Lemma read_quoted (s cell rest : string) :
  quoteFree s -> JS.startsWith JS.dquote rest = false ->
  readCsvRecord false cell (quoted s ++ rest) =
  readCsvRecord false (cell ++ s) rest.
Proof.
  intros Hs Hrest. unfold quoted. rewrite !append_assoc.
  change (JS.dquote ++ (s ++ (JS.dquote ++ rest)))%string
    with (String (JS.chr 34) (s ++ String (JS.chr 34) rest)).
  cbn [readCsvRecord]. rewrite Ascii.eqb_refl.
  rewrite read_plain by (auto; exact Hs).
  cbn [readCsvRecord]. rewrite Ascii.eqb_refl.
  destruct rest as [|c' r']; [reflexivity|].
  unfold JS.dquote, JS.str1 in Hrest. cbn [JS.startsWith] in Hrest.
  rewrite andb_true_r in Hrest. rewrite Ascii.eqb_sym in Hrest.
  now rewrite Hrest.
Qed.

Lemma read_comma (cell rest : string) :
  readCsvRecord false cell ("," ++ rest) =
  cell :: readCsvRecord false EmptyString rest.
Proof. reflexivity. Qed.

Lemma read_number (n : Z) (cell rest : string) :
  readCsvRecord false cell (JS.toString n ++ rest) =
  readCsvRecord false (cell ++ JS.toString n) rest.
Proof.
  apply read_plain.
  - apply toString_plain. cbn. lia.
  - right. apply toString_plain. cbn. lia.
Qed.

(** X17. A row line is a well-formed CSV record whenever no text value of
    the row holds a double quote: a reader that follows the usual quoting
    convention then gets the thirteen values back, also when a value holds
    commas or line breaks.  Since quotes are not doubled on output, the
    row of a page whose heading holds a double quote is not read back
    as its values. *)
Theorem X17_csv_record_reads_back :
  (forall row : SeoDataRow.t,
      Forall quoteFree (textFields row) ->
      readCsvRecord false EmptyString (JS.join "," (csvCells row)) =
      rowValues row) /\
  readCsvRecord false EmptyString (JS.join "," (csvCells quotedHeadingRow)) <>
  rowValues quotedHeadingRow.
Proof.
  split.
  - intros row Hall.
    change (JS.join "," (csvCells row)) with (rowLine row).
    unfold textFields in Hall.
    repeat match goal with
           | H : Forall _ (_ :: _) |- _ =>
               let Hx := fresh "Hx" in
               pose proof (Forall_inv H) as Hx; apply Forall_inv_tail in H
           end.
    unfold rowLine, rowValues.
    rewrite <- (append_nil_r (quoted (SeoDataRow.imageSuggestion row))).
    repeat first
      [ rewrite read_quoted by (assumption || reflexivity)
      | rewrite read_number
      | rewrite read_comma; apply f_equal2; [reflexivity|] ].
    reflexivity.
  - vm_compute. discriminate.
Qed.

Lemma X17_sample_row_witness :
  let row := extractRow
               (analyzePage Ref.parseFromString Ref.URL_pathname
                  exampleUrl exampleHtml) in
  readCsvRecord false EmptyString (JS.join "," (csvCells row)) = rowValues row.
Proof.
  intros row.
  apply (proj1 X17_csv_record_reads_back row).
  repeat constructor.
Defined.

(** ** The results view *)

Lemma geb_of_Z (a b : Z) : JS.geb (JS.of_Z a) (JS.of_Z b) = (b <=? a).
Proof.
  unfold JS.geb, JS.of_Z, Qle_bool. cbn [inject_Z Qnum Qden].
  now rewrite !Z.mul_1_r.
Qed.

Lemma lacksText_penalty (el : option Node) :
  lacksText el = true -> penaltyOfCheck (checkTitle el) = 20.
Proof. intros H. unfold penaltyOfCheck, checkTitle. now rewrite H. Qed.

Lemma lacksContent_penalty (el : option Node) :
  lacksContent el = true -> penaltyOfCheck (checkMeta el) = 20.
Proof. intros H. unfold penaltyOfCheck, checkMeta. now rewrite H. Qed.

Lemma noH1_penalty (h1s : list Node) :
  (len h1s =? 0) = true -> penaltyOfCheck (checkH1 h1s) = 15.
Proof. intros H. unfold penaltyOfCheck, checkH1. now rewrite H. Qed.

Lemma countOf_positive {A : Type} (f : A -> bool) (l : list A) (x : A) :
  In x l -> f x = true -> 1 <= countOf f l.
Proof.
  intros Hin Hf. unfold countOf, len.
  assert (Hx : In x (filter f l)) by (apply filter_In; now split).
  destruct (filter f l); [contradiction|cbn [List.length]; lia].
Qed.

(** X18. The colour and the badge of a score follow the same bands: for
    an integer score, pass and "default" from 90 on, warning and
    "secondary" from 70 to 89, error and "destructive" below 70; a NaN
    score falls in the lowest band.  An analysed page is shown in the
    top band exactly when its deductions add up to at most 10, in the
    middle band when they are above 10 and at most 30, in the lowest
    band when they are above 30; a page with an error issue never is in
    the top band.  The header of an analysed page shows at most three
    issue badges and its more-badge, when shown, reads 1. *)
Theorem X18_score_bands_of_analysed_page :
  (forall x : JS.number,
      (Display.getScoreColor x = "text-audit-pass"%string <->
       Display.getScoreBadgeVariant x = "default"%string) /\
      (Display.getScoreColor x = "text-audit-warning"%string <->
       Display.getScoreBadgeVariant x = "secondary"%string) /\
      (Display.getScoreColor x = "text-audit-error"%string <->
       Display.getScoreBadgeVariant x = "destructive"%string)) /\
  Display.getScoreColor JS.NaN = "text-audit-error"%string /\
  (forall (parseFromString : string -> Document)
          (URL_pathname : string -> option string) (url html : string),
      let r := analyzePage parseFromString URL_pathname url html in
      (Display.getScoreColor (JS.of_Z (score r)) = "text-audit-pass"%string <->
       sumPenalties r <= 10) /\
      ((exists i, In i (issues r) /\ type i = Error) ->
       Display.getScoreColor (JS.of_Z (score r)) <> "text-audit-pass"%string) /\
      (List.length (Display.issueBadges (issues r)) <= 3)%nat /\
      (Display.moreIssues (issues r) = None \/
       Display.moreIssues (issues r) = Some 1) /\
      (Display.getScoreColor (JS.of_Z (score r)) = "text-audit-warning"%string
       <-> 10 < sumPenalties r <= 30) /\
      (Display.getScoreColor (JS.of_Z (score r)) = "text-audit-error"%string
       <-> 30 < sumPenalties r)) /\
  (forall s : Z,
      (Display.getScoreColor (JS.of_Z s) = "text-audit-pass"%string <->
       90 <= s) /\
      (Display.getScoreColor (JS.of_Z s) = "text-audit-warning"%string <->
       70 <= s < 90) /\
      (Display.getScoreColor (JS.of_Z s) = "text-audit-error"%string <->
       s < 70) /\
      (Display.getScoreBadgeVariant (JS.of_Z s) = "default"%string <->
       90 <= s) /\
      (Display.getScoreBadgeVariant (JS.of_Z s) = "secondary"%string <->
       70 <= s < 90) /\
      (Display.getScoreBadgeVariant (JS.of_Z s) = "destructive"%string <->
       s < 70)).
Proof.
  assert (Hbands : forall s : Z,
      (Display.getScoreColor (JS.of_Z s) = "text-audit-pass"%string <->
       90 <= s) /\
      (Display.getScoreColor (JS.of_Z s) = "text-audit-warning"%string <->
       70 <= s < 90) /\
      (Display.getScoreColor (JS.of_Z s) = "text-audit-error"%string <->
       s < 70) /\
      (Display.getScoreBadgeVariant (JS.of_Z s) = "default"%string <->
       90 <= s) /\
      (Display.getScoreBadgeVariant (JS.of_Z s) = "secondary"%string <->
       70 <= s < 90) /\
      (Display.getScoreBadgeVariant (JS.of_Z s) = "destructive"%string <->
       s < 70)).
  { intros s. unfold Display.getScoreColor, Display.getScoreBadgeVariant.
    rewrite !geb_of_Z.
    destruct (90 <=? s) eqn:E90; [apply Z.leb_le in E90|apply Z.leb_gt in E90];
      (destruct (70 <=? s) eqn:E70;
         [apply Z.leb_le in E70|apply Z.leb_gt in E70]);
      repeat split; intros; try discriminate; try reflexivity; lia. }
  split; [|split; [reflexivity|split; [|exact Hbands]]].
  - intros x. unfold Display.getScoreColor, Display.getScoreBadgeVariant.
    destruct (JS.geb x (JS.of_Z 90));
      [repeat split; (reflexivity || discriminate)|].
    destruct (JS.geb x (JS.of_Z 70)); repeat split; (reflexivity || discriminate).
  - intros parse path url html r.
    assert (Hscore : score r = 100 - sumPenalties r /\ 0 <= sumPenalties r <= 70).
    { subst r. rewrite sumPenalties_by_check, score_by_check. cbv zeta.
      pose proof (penalties_bounded (parse html)). lia. }
    destruct Hscore as [Hscore Hsum].
    destruct (Hbands (score r)) as (Hcolor' & Hwarn & Herror & _).
    assert (Hcolor : Display.getScoreColor (JS.of_Z (score r)) =
                     "text-audit-pass"%string <-> sumPenalties r <= 10).
    { rewrite Hcolor'. lia. }
    split; [exact Hcolor|]. split; [|split; [|split; [|split]]].
    + intros (i & Hin & Hty) Hpass. apply Hcolor in Hpass.
      assert (Hcount : 1 <= countOf (fun i => IssueType_eqb (type i) Error)
                                    (issues r)).
      { apply (countOf_positive _ _ i Hin). now rewrite Hty. }
      destruct (page_error_count parse path url html) as [He _].
      fold r in He. rewrite He in Hcount.
      assert (Hsp : sumPenalties r =
                    titlePenalty (parse html) + metaPenalty (parse html) +
                    h1Penalty (parse html) + imagePenalty (parse html))
        by (subst r; apply sumPenalties_by_check).
      pose proof (penalties_bounded (parse html)) as Hb.
      unfold titlePenalty, metaPenalty, h1Penalty in *.
      destruct (lacksText (titleOf (parse html))) eqn:E1;
        [rewrite (lacksText_penalty _ E1) in *; lia|].
      destruct (lacksContent (metaOf (parse html))) eqn:E2;
        [rewrite (lacksContent_penalty _ E2) in *; lia|].
      destruct (len (h1sOf (parse html)) =? 0) eqn:E3;
        [rewrite (noH1_penalty _ E3) in *; lia|].
      cbn in Hcount. lia.
    + unfold Display.issueBadges. rewrite length_firstn. lia.
    + pose proof (analyzed_issue_count parse path r) as Hn.
      assert (Hr : Analyzed parse path r) by (eexists; eexists; reflexivity).
      specialize (Hn Hr). unfold Display.moreIssues.
      destruct (len (issues r) >? 3) eqn:E; [|now left].
      apply Z.gtb_lt in E. right. f_equal. lia.
    + rewrite Hwarn. lia.
    + rewrite Herror. lia.
Qed.

Lemma X18_missing_title_witness :
  Display.getScoreColor
    (JS.of_Z (score (analyzePage Ref.parseFromString Ref.URL_pathname
                       exampleUrl exampleHtml))) <> "text-audit-pass"%string.
Proof.
  destruct X18_score_bands_of_analysed_page as (_ & _ & H & _).
  destruct (H Ref.parseFromString Ref.URL_pathname exampleUrl exampleHtml)
    as (_ & Herr & _).
  apply Herr. eexists. split; [left; reflexivity|reflexivity].
Defined.

(** The open/closed state of the page cards. *)

Lemma existsb_eqb_In (index : Z) (l : list Z) :
  existsb (Z.eqb index) l = true <-> In index l.
Proof.
  rewrite existsb_exists. split.
  - intros (x & Hin & Heq). apply Z.eqb_eq in Heq. now subst x.
  - intros Hin. exists index. split; [exact Hin|apply Z.eqb_refl].
Qed.

Lemma toggle_membership (index j : Z) (prev : list Z) :
  In j (Display.toggleDetails index prev) <->
  (j = index /\ ~ In index prev) \/ (j <> index /\ In j prev).
Proof.
  unfold Display.toggleDetails.
  destruct (existsb (Z.eqb index) prev) eqn:E.
  - apply existsb_eqb_In in E. rewrite filter_In, negb_true_iff, Z.eqb_neq.
    split.
    + intros [Hin Hne]. now right.
    + intros [[-> Hnot]|[Hne Hin]]; [contradiction|now split].
  - assert (Hnot : ~ In index prev).
    { intros Hin. apply existsb_eqb_In in Hin. congruence. }
    rewrite in_app_iff. cbn [In]. split.
    + intros [Hin|[<-|[]]].
      * right. split; [|exact Hin]. intros ->. contradiction.
      * now left.
    + intros [[-> _]|[_ Hin]]; [right; now left|now left].
Qed.

(** X19. [toggleDetails] flips the card it is given and no other: the
    index is in the new list exactly when it was not in the old one, any
    other index is in the new list exactly when it was in the old one, a
    list without repetition stays so, and toggling the same card twice
    gives back the same set of open cards. *)
Theorem X19_toggleDetails_flips_one_card :
  forall (index : Z) (prev : list Z),
    let next := Display.toggleDetails index prev in
    (In index next <-> ~ In index prev) /\
    (forall j, j <> index -> (In j next <-> In j prev)) /\
    (NoDup prev -> NoDup next) /\
    (forall j, In j (Display.toggleDetails index next) <-> In j prev).
Proof.
  intros index prev next. subst next.
  split; [|split; [|split]].
  - rewrite toggle_membership. tauto.
  - intros j Hne. rewrite toggle_membership. tauto.
  - intros Hnd. unfold Display.toggleDetails.
    destruct (existsb (Z.eqb index) prev) eqn:E.
    + now apply NoDup_filter.
    + apply NoDup_app; [exact Hnd|repeat constructor; intros []|].
      intros x Hin [<-|[]]. apply existsb_eqb_In in Hin. congruence.
  - intros j. rewrite !toggle_membership.
    destruct (Z.eq_dec j index) as [->|Hne]; [|tauto].
    destruct (in_dec Z.eq_dec index prev); tauto.
Qed.

Lemma X19_toggle_witness :
  NoDup (Display.toggleDetails 2 [0; 2; 5]).
Proof.
  apply (proj1 (proj2 (proj2 (X19_toggleDetails_flips_one_card 2 [0; 2; 5])))).
  repeat constructor; cbn; intuition lia.
Defined.

Lemma length_append (a b : string) :
  String.length (a ++ b) = (String.length a + String.length b)%nat.
Proof. induction a as [|c a IH]; cbn; [reflexivity|now rewrite IH]. Qed.

Lemma drop_split (k : nat) (s : string) :
  (k <= String.length s)%nat ->
  exists before,
    s = (before ++ JS.drop k s)%string /\ String.length before = k.
Proof.
  revert s. induction k as [|k IH]; intros s Hk.
  - exists EmptyString. split; reflexivity.
  - destruct s as [|c s]; cbn [String.length] in Hk; [lia|].
    destruct (IH s ltac:(lia)) as (before & Hs & Hlen).
    exists (String c before). cbn [JS.drop append String.length].
    split; [now rewrite <- Hs|now rewrite Hlen].
Qed.

(** X20. The address shown for an image without alt never has more than
    53 characters: an address of at most 50 characters is shown as it is,
    and a longer one as three dots followed by its last 50 characters. *)
Theorem X20_shown_address_is_bounded :
  forall src : string,
    let shown := Display.shownSrc src in
    JS.length shown <= 53 /\
    (JS.length src <= 50 -> shown = src) /\
    (JS.length src > 50 ->
     exists before tail,
       src = (before ++ tail)%string /\ String.length tail = 50%nat /\
       shown = ("..." ++ tail)%string).
Proof.
  intros src shown. subst shown. unfold Display.shownSrc, JS.sliceLast.
  destruct (JS.length src >? 50) eqn:E.
  - apply Z.gtb_lt in E. unfold JS.length in E.
    destruct (drop_split (String.length src - 50) src ltac:(lia))
      as (before & Hs & Hlen).
    assert (Htail : String.length (JS.drop (String.length src - 50) src) = 50%nat).
    { apply (f_equal String.length) in Hs. rewrite length_append in Hs. lia. }
    split; [|split].
    + unfold JS.length. rewrite length_append, Htail. cbn. lia.
    + unfold JS.length. lia.
    + intros _. exists before, (JS.drop (String.length src - 50) src).
      repeat split; assumption || reflexivity.
  - rewrite Z.gtb_ltb in E. apply Z.ltb_ge in E.
    split; [lia|]. split; [reflexivity|]. lia.
Qed.

Lemma X20_long_address_witness :
  let src :=
    "https://cdn.example.com/assets/images/products/oak-table-large.png"%string in
  exists before tail,
    src = (before ++ tail)%string /\ String.length tail = 50%nat /\
    Display.shownSrc src = ("..." ++ tail)%string.
Proof.
  intros src.
  apply (proj2 (proj2 (X20_shown_address_is_bounded src))).
  reflexivity.
Defined.

(** ** The rate limit of the edge function *)

Lemma Map_get_set_same (key : string) (value : Edge.ClientData)
    (store : Edge.Store) :
  Edge.Map_get key (Edge.Map_set key value store) = Some value.
Proof.
  induction store as [|[k v] store IH]; cbn.
  - now rewrite String.eqb_refl.
  - destruct (String.eqb k key) eqn:E; cbn; now rewrite E.
Qed.

Lemma Map_get_set_other (key other : string) (value : Edge.ClientData)
    (store : Edge.Store) :
  other <> key ->
  Edge.Map_get other (Edge.Map_set key value store) = Edge.Map_get other store.
Proof.
  intros Hne. induction store as [|[k v] store IH]; cbn.
  - destruct (String.eqb_spec key other); [congruence|reflexivity].
  - destruct (String.eqb_spec k key) as [->|Hk]; cbn.
    + destruct (String.eqb_spec key other); [congruence|reflexivity].
    + destruct (String.eqb k other); [reflexivity|exact IH].
Qed.

(** X21. One call of [checkRateLimit] touches only the caller's entry.
    A refused call leaves the store as it was, and is refused only
    because the caller's count has reached 10 inside the current window.
    An allowed call leaves the caller with a count of at least 1: either
    a fresh entry with count 1 and [lastReset] now (no entry before, or
    the window of 60000 ms is over, whatever the count was), or the old
    entry with the count raised by one.  A store in which every count is
    between 1 and 10 stays so. *)
Theorem X21_rate_limit_single_call :
  forall (now : Z) (clientIp : string) (store : Edge.Store),
    let v := fst (Edge.checkRateLimit now clientIp store) in
    let store' := snd (Edge.checkRateLimit now clientIp store) in
    (forall other, other <> clientIp ->
                   Edge.Map_get other store' = Edge.Map_get other store) /\
    (Edge.allowed v = false ->
     store' = store /\
     exists data,
       Edge.Map_get clientIp store = Some data /\
       Edge.count data >= 10 /\ now - Edge.lastReset data <= 60000) /\
    (Edge.allowed v = true ->
     Edge.rateError v = None /\
     (Edge.Map_get clientIp store' = Some (Edge.mkClientData 1 now) \/
      exists data,
        Edge.Map_get clientIp store = Some data /\
        Edge.count data < 10 /\ now - Edge.lastReset data <= 60000 /\
        Edge.Map_get clientIp store' =
          Some (Edge.mkClientData (Edge.count data + 1)
                                  (Edge.lastReset data)))) /\
    (forall data,
        Edge.Map_get clientIp store = Some data ->
        now - Edge.lastReset data > 60000 ->
        Edge.allowed v = true /\
        Edge.Map_get clientIp store' = Some (Edge.mkClientData 1 now)) /\
    (withinLimit store -> withinLimit store').
Proof.
  intros now ip store v store'. subst v store'.
  unfold Edge.checkRateLimit, Edge.RATE_LIMIT_WINDOW,
    Edge.RATE_LIMIT_MAX_REQUESTS.
  destruct (Edge.Map_get ip store) as [data|] eqn:Hget.
  - destruct (now - Edge.lastReset data >? 60000) eqn:Ew.
    + apply Z.gtb_lt in Ew. cbn [fst snd Edge.allowed Edge.rateError].
      split; [intros other Hne; now apply Map_get_set_other|].
      split; [discriminate|]. split.
      * intros _. split; [reflexivity|left; apply Map_get_set_same].
      * split.
        -- intros d [= <-] _. split; [reflexivity|apply Map_get_set_same].
        -- intros Hlim key d Hd.
           destruct (String.eqb_spec key ip) as [->|Hne].
           ++ rewrite Map_get_set_same in Hd. injection Hd as <-.
              unfold Edge.RATE_LIMIT_MAX_REQUESTS. cbn. lia.
           ++ rewrite Map_get_set_other in Hd by exact Hne. now apply (Hlim key).
    + rewrite Z.gtb_ltb in Ew. apply Z.ltb_ge in Ew.
      destruct (Edge.count data >=? 10) eqn:Ec.
      * apply Z.geb_le in Ec. cbn [fst snd Edge.allowed Edge.rateError].
        split; [reflexivity|]. split.
        -- intros _. split; [reflexivity|]. exists data. repeat split; lia.
        -- split; [discriminate|]. split; [|tauto].
           intros d [= <-] Hover. lia.
      * rewrite Z.geb_leb in Ec. apply Z.leb_gt in Ec.
        cbn [fst snd Edge.allowed Edge.rateError].
        split; [intros other Hne; now apply Map_get_set_other|].
        split; [discriminate|]. split.
        -- intros _. split; [reflexivity|]. right. exists data.
           repeat split; try lia. apply Map_get_set_same.
        -- split; [intros d [= <-] Hover; lia|].
           intros Hlim key d Hd.
           destruct (String.eqb_spec key ip) as [->|Hne].
           ++ rewrite Map_get_set_same in Hd. injection Hd as <-.
              specialize (Hlim ip data Hget).
              unfold Edge.RATE_LIMIT_MAX_REQUESTS in *. cbn. lia.
           ++ rewrite Map_get_set_other in Hd by exact Hne. now apply (Hlim key).
  - cbn [fst snd Edge.allowed Edge.rateError].
    split; [intros other Hne; now apply Map_get_set_other|].
    split; [discriminate|]. split.
    + intros _. split; [reflexivity|left; apply Map_get_set_same].
    + split; [discriminate|].
      intros Hlim key d Hd.
      destruct (String.eqb_spec key ip) as [->|Hne].
      * rewrite Map_get_set_same in Hd. injection Hd as <-.
        unfold Edge.RATE_LIMIT_MAX_REQUESTS. cbn. lia.
      * rewrite Map_get_set_other in Hd by exact Hne. now apply (Hlim key).
Qed.

Lemma verdicts_in_window (clientIp : string) (t0 : Z) (times : list Z) :
  Forall (fun now => now - t0 <= 60000) times ->
  forall (c : Z) (store : Edge.Store),
    0 <= c <= 10 ->
    Edge.Map_get clientIp store = Some (Edge.mkClientData c t0) ->
    let granted := Nat.min (List.length times) (Z.to_nat (10 - c)) in
    fst (verdicts clientIp times store) =
      repeat true granted ++ repeat false (List.length times - granted) /\
    Edge.Map_get clientIp (snd (verdicts clientIp times store)) =
      Some (Edge.mkClientData (c + Z.of_nat granted) t0).
Proof.
  induction 1 as [|now times Hnow _ IH]; intros c store Hc Hget granted.
  - subst granted. cbn. split; [reflexivity|]. rewrite Hget. do 2 f_equal. lia.
  - subst granted. cbn [verdicts fst snd List.length].
    unfold Edge.checkRateLimit at 1 3, Edge.RATE_LIMIT_WINDOW,
      Edge.RATE_LIMIT_MAX_REQUESTS.
    unfold Edge.checkRateLimit at 1, Edge.RATE_LIMIT_WINDOW,
      Edge.RATE_LIMIT_MAX_REQUESTS.
    rewrite Hget. cbn [Edge.lastReset Edge.count].
    replace (now - t0 >? 60000) with false
      by (symmetry; rewrite Z.gtb_ltb; apply Z.ltb_ge; lia).
    destruct (c >=? 10) eqn:Ec.
    + apply Z.geb_le in Ec. assert (c = 10) by lia. subst c.
      cbn [fst snd Edge.allowed].
      destruct (IH 10 store ltac:(lia) Hget) as [Hv Hs].
      cbn [Z.sub Z.to_nat Z.pos_sub] in *. rewrite Nat.min_0_r in *.
      cbn [repeat app] in *. rewrite Nat.sub_0_r in *.
      rewrite Hv. cbn [repeat]. split; [reflexivity|exact Hs].
    + rewrite Z.geb_leb in Ec. apply Z.leb_gt in Ec.
      cbn [fst snd Edge.allowed].
      destruct (IH (c + 1)
                   (Edge.Map_set clientIp (Edge.mkClientData (c + 1) t0) store)
                   ltac:(lia) (Map_get_set_same _ _ _)) as [Hv Hs].
      replace (Z.to_nat (10 - c)) with (S (Z.to_nat (10 - (c + 1)))) by lia.
      cbn [Nat.min repeat app Nat.sub]. rewrite Hv, Hs.
      split; [reflexivity|]. do 2 f_equal. lia.
Qed.

(** X22. A client without an entry who makes [n] requests, the first at
    time [t0] and the others no later than 60000 ms after it, is allowed
    the first [min(n, 10)] of them and refused the rest; afterwards the
    store holds for it the count [min(n, 10)] and [lastReset = t0].  The
    window starts at the first request and refused requests do not extend
    it. *)
Theorem X22_ten_requests_per_window :
  forall (clientIp : string) (store : Edge.Store) (t0 : Z) (times : list Z),
    Edge.Map_get clientIp store = None ->
    Forall (fun now => now - t0 <= 60000) times ->
    let n := S (List.length times) in
    let granted := Nat.min n 10 in
    fst (verdicts clientIp (t0 :: times) store) =
      repeat true granted ++ repeat false (n - granted) /\
    Edge.Map_get clientIp (snd (verdicts clientIp (t0 :: times) store)) =
      Some (Edge.mkClientData (Z.of_nat granted) t0).
Proof.
  intros ip store t0 times Hnone Hwin n granted. subst n granted.
  cbn [verdicts fst snd].
  unfold Edge.checkRateLimit at 1 3. unfold Edge.checkRateLimit at 1.
  rewrite Hnone. cbn [fst snd Edge.allowed].
  destruct (verdicts_in_window ip t0 times Hwin 1
              (Edge.Map_set ip (Edge.mkClientData 1 t0) store)
              ltac:(lia) (Map_get_set_same _ _ _)) as [Hv Hs].
  change (Z.to_nat (10 - 1)) with 9%nat in *.
  rewrite Hv, Hs.
  change (Nat.min (S (List.length times)) 10)
    with (S (Nat.min (List.length times) 9)).
  cbn [repeat app Nat.sub]. split; [reflexivity|]. do 2 f_equal. lia.
Qed.

Lemma X22_twelve_requests_witness :
  fst (verdicts "203.0.113.7"
         [1000; 1500; 2000; 2500; 3000; 3500; 4000; 4500; 5000; 5500; 6000; 61000]
         []) =
  repeat true 10 ++ repeat false 2.
Proof.
  apply (X22_ten_requests_per_window "203.0.113.7" [] 1000
           [1500; 2000; 2500; 3000; 3500; 4000; 4500; 5000; 5500; 6000; 61000]).
  - reflexivity.
  - repeat constructor; cbn; lia.
Defined.

(** ** URL validation of the edge function *)

Lemma Z_below (P : Z -> Prop) (n : nat) :
  (forall k, (k < n)%nat -> P (Z.of_nat k)) ->
  forall a, 0 <= a < Z.of_nat n -> P a.
Proof.
  intros H a Ha. rewrite <- (Z2Nat.id a) by lia. apply H. lia.
Qed.

Ltac each_below_256 k Hk tac :=
  do 256 (destruct k as [|k]; [tac|]); exfalso; lia.

Lemma privateRange_172 (b : Z) (rest : string) :
  0 <= b < 256 ->
  Edge.privateRange ("172." ++ JS.toString b ++ "." ++ rest) =
  (16 <=? b) && (b <=? 31).
Proof.
  revert b. apply (Z_below _ 256). intros k Hk.
  each_below_256 k Hk
    ltac:(first [ vm_compute; reflexivity
                | destruct rest; vm_compute; reflexivity ]).
Qed.

Lemma privateRange_192 (b : Z) (rest : string) :
  0 <= b < 256 ->
  Edge.privateRange ("192." ++ JS.toString b ++ "." ++ rest) = (b =? 168).
Proof.
  revert b. apply (Z_below _ 256). intros k Hk.
  each_below_256 k Hk
    ltac:(first [ vm_compute; reflexivity
                | destruct rest; vm_compute; reflexivity ]).
Qed.

Lemma privateRange_first_octet (a : Z) (rest : string) :
  0 <= a < 256 -> a <> 172 -> a <> 192 ->
  Edge.privateRange (JS.toString a ++ "." ++ rest) = (a =? 10) || (a =? 127).
Proof.
  revert a. apply (Z_below (fun a => a <> 172 -> a <> 192 -> _ = _) 256).
  intros k Hk H172 H192.
  each_below_256 k Hk
    ltac:(first [ vm_compute; reflexivity
                | destruct rest; vm_compute; reflexivity
                | exfalso; apply H172; reflexivity
                | exfalso; apply H192; reflexivity ]).
Qed.

(** X23. For a host name that starts with two decimal octets [a.b.], the
    private-range test of [validateUrl] holds exactly for 10.x, 127.x,
    172.16 to 172.31 and 192.168: the second octet is compared as a
    two-digit number followed by a dot, so 172.1, 172.160 or 172.32 do not
    match.  A URL with such a host name in one of these ranges is never
    reported valid. *)
Theorem X23_private_ranges_by_octet :
  forall (a b : Z) (rest : string),
    0 <= a <= 255 -> 0 <= b <= 255 ->
    let host := (JS.toString a ++ "." ++ JS.toString b ++ "." ++ rest)%string in
    let private :=
      (a =? 10) || (a =? 127) ||
      ((a =? 172) && (16 <=? b) && (b <=? 31)) ||
      ((a =? 192) && (b =? 168)) in
    Edge.privateRange host = private /\
    (forall (parseUrl : string -> option Edge.ParsedUrl) (url : string)
            (parsed : Edge.ParsedUrl),
        parseUrl url = Some parsed -> Edge.hostname parsed = host ->
        private = true ->
        Edge.valid (Edge.validateUrl parseUrl url) = false).
Proof.
  intros a b rest Ha Hb host private.
  assert (Hrange : Edge.privateRange host = private).
  { subst host private.
    destruct (Z.eq_dec a 172) as [->|H172].
    - change (JS.toString 172 ++ "." ++ JS.toString b ++ "." ++ rest)%string
        with ("172." ++ JS.toString b ++ "." ++ rest)%string.
      rewrite privateRange_172 by lia. cbn [Z.eqb Pos.eqb orb andb].
      now rewrite orb_false_r.
    - destruct (Z.eq_dec a 192) as [->|H192].
      + change (JS.toString 192 ++ "." ++ JS.toString b ++ "." ++ rest)%string
          with ("192." ++ JS.toString b ++ "." ++ rest)%string.
        rewrite privateRange_192 by lia. reflexivity.
      + rewrite privateRange_first_octet by lia.
        apply Z.eqb_neq in H172, H192. rewrite H172, H192.
        cbn [andb]. now rewrite !orb_false_r. }
  split; [exact Hrange|].
  intros parseUrl url parsed Hp Hh Hpriv. unfold Edge.validateUrl.
  rewrite Hp, Hh, Hrange, Hpriv.
  destruct (negb _); [reflexivity|].
  destruct (existsb _ Edge.BLOCKED_PROTOCOLS); [reflexivity|].
  now destruct (existsb _ Edge.BLOCKED_DOMAINS).
Qed.

Lemma X23_private_host_witness :
  Edge.privateRange "172.20.10.5" = true /\
  Edge.privateRange "172.160.10.5" = false.
Proof.
  split.
  - apply (proj1 (X23_private_ranges_by_octet 172 20 "10.5"
                    ltac:(lia) ltac:(lia))).
  - apply (proj1 (X23_private_ranges_by_octet 172 160 "10.5"
                    ltac:(lia) ltac:(lia))).
Defined.

Lemma startsWith_first (p s : string) (c : ascii) :
  JS.startsWith (String c p) s = true ->
  exists r, s = String c r.
Proof.
  destruct s as [|x s]; cbn; [discriminate|].
  intros H. apply andb_prop in H as [Hc _]. apply Ascii.eqb_eq in Hc.
  subst x. now exists s.
Qed.

(** X24. [validateUrl] reports an error exactly when it reports the URL
    invalid, and an address that does not parse is invalid.  Whenever the
    protocol of the parsed URL is the beginning of the lower-cased address,
    the second test can never fire: the result is never "Blocked protocol
    detected", since an address that passed the first test begins with
    http: or https:. *)
Theorem X24_validateUrl_verdicts :
  forall (parseUrl : string -> option Edge.ParsedUrl) (url : string),
    let v := Edge.validateUrl parseUrl url in
    (Edge.valid v = true <-> Edge.validationError v = None) /\
    (parseUrl url = None ->
     v = Edge.mkValidation false (Some "Invalid URL format"%string)) /\
    (forall parsed,
        parseUrl url = Some parsed ->
        JS.startsWith (Edge.protocol parsed) (JS.toLowerCase url) = true ->
        Edge.validationError v <> Some "Blocked protocol detected"%string).
Proof.
  intros parseUrl url v. subst v. unfold Edge.validateUrl.
  split; [|split].
  - destruct (parseUrl url) as [parsed|]; [|split; discriminate].
    destruct (negb _); [split; discriminate|].
    destruct (existsb _ Edge.BLOCKED_PROTOCOLS); [split; discriminate|].
    destruct (existsb _ Edge.BLOCKED_DOMAINS); [split; discriminate|].
    destruct (Edge.privateRange _); split; (reflexivity || discriminate).
  - now intros ->.
  - intros parsed -> Hprefix.
    destruct (existsb (String.eqb (Edge.protocol parsed)) ["http:"; "https:"]%string)
      eqn:Eproto; cbn [negb]; [|discriminate].
    assert (Hh : exists r, JS.toLowerCase url = String "h" r).
    { cbn [existsb] in Eproto. rewrite orb_false_r in Eproto.
      apply orb_prop in Eproto as [E|E]; apply String.eqb_eq in E;
        rewrite E in Hprefix; now apply startsWith_first in Hprefix. }
    destruct Hh as [r Hr]. rewrite Hr. cbn [existsb Edge.BLOCKED_PROTOCOLS
      JS.startsWith Ascii.eqb Bool.eqb andb orb].
    destruct (existsb _ Edge.BLOCKED_DOMAINS); [discriminate|].
    destruct (Edge.privateRange _); discriminate.
Qed.

Lemma X24_public_address_witness :
  Edge.validationError
    (Edge.validateUrl sampleParseUrl "HTTPS://Example.com/about-us") <>
  Some "Blocked protocol detected"%string.
Proof.
  destruct (X24_validateUrl_verdicts sampleParseUrl
              "HTTPS://Example.com/about-us") as (_ & _ & H).
  apply (H (Edge.mkParsedUrl "https:" "example.com")); reflexivity.
Defined.

(** ** Polling the crawl job *)

Section PollingFacts.

Variable replyAt : nat -> Edge.PollReply.

Lemma poll_step (attempts remaining : nat) :
  Edge.poll replyAt attempts (S remaining) =
  if terminal (replyAt (S attempts)) then responseTo (replyAt (S attempts))
  else Edge.poll replyAt (S attempts) remaining.
Proof.
  cbn [Edge.poll]. unfold terminal, responseTo.
  destruct (replyAt (S attempts)) as [|status data|error]; [reflexivity| |reflexivity].
  destruct (String.eqb status "completed"); [reflexivity|].
  now destruct (String.eqb status "failed").
Qed.

(** The loop answers the first terminal reply among those it may ask for,
    and times out when there is none. *)
Lemma poll_first_terminal (remaining attempts : nat) :
  (exists k,
      (attempts < k <= attempts + remaining)%nat /\
      terminal (replyAt k) = true /\
      (forall j, (attempts < j < k)%nat -> terminal (replyAt j) = false) /\
      Edge.poll replyAt attempts remaining = responseTo (replyAt k)) \/
  ((forall j, (attempts < j <= attempts + remaining)%nat ->
              terminal (replyAt j) = false) /\
   Edge.poll replyAt attempts remaining = Edge.timedOut).
Proof.
  revert attempts. induction remaining as [|remaining IH]; intro attempts.
  - right. split; [intros j Hj; lia|reflexivity].
  - rewrite poll_step. destruct (terminal (replyAt (S attempts))) eqn:Et.
    + left. exists (S attempts).
      split; [lia|]. split; [exact Et|]. split; [intros j Hj; lia|reflexivity].
    + destruct (IH (S attempts)) as [(k & Hk & Hterm & Hfirst & Hres)|[Hnone Hres]].
      * left. exists k.
        split; [lia|]. split; [exact Hterm|]. split; [|exact Hres].
        intros j Hj. destruct (Nat.eq_dec j (S attempts)) as [->|Hne];
          [exact Et|apply Hfirst; lia].
      * right. split; [|exact Hres]. intros j Hj.
        destruct (Nat.eq_dec j (S attempts)) as [->|Hne];
          [exact Et|apply Hnone; lia].
Qed.

End PollingFacts.

Lemma sanitizeError_texts (error : Edge.Thrown) :
  In (Edge.sanitizeError error) sanitizedTexts.
Proof.
  unfold Edge.sanitizeError, sanitizedTexts. destruct error as [message|].
  - destruct (_ || _); [now left|].
    destruct (_ || _); [right; now left|right; right; now left].
  - right; right; right; now left.
Qed.

Lemma responseTo_shape (reply : Edge.PollReply) :
  let r := responseTo reply in
  In (Edge.code r) [200; 400; 408; 500] /\
  (Edge.success r = true <-> Edge.code r = 200) /\
  (Edge.success r = true <-> Edge.error r = None) /\
  (forall ps, Edge.pages r = Some ps ->
              Forall (fun page => Edge.isHtmlPage page = true) ps) /\
  (Edge.code r = 500 <-> exists error, reply = Edge.Throws error) /\
  (Edge.code r = 500 ->
   exists text, Edge.error r = Some text /\ In text sanitizedTexts).
Proof.
  assert (Hfail : forall r,
             r = Edge.failed \/ r = Edge.timedOut ->
             In (Edge.code r) [200; 400; 408; 500] /\
             (Edge.success r = true <-> Edge.code r = 200) /\
             (Edge.success r = true <-> Edge.error r = None) /\
             (forall ps, Edge.pages r = Some ps ->
                         Forall (fun page => Edge.isHtmlPage page = true) ps) /\
             Edge.code r <> 500).
  { intros r [-> | ->]; cbn;
      (split; [tauto|]); (split; [split; discriminate|]);
      (split; [split; discriminate|]); (split; [intros ps [=]|discriminate]). }
  assert (Hnot : forall r : Edge.Response,
             (forall error, reply <> Edge.Throws error) -> Edge.code r <> 500 ->
             (Edge.code r = 500 <-> exists error, reply = Edge.Throws error) /\
             (Edge.code r = 500 ->
              exists text, Edge.error r = Some text /\ In text sanitizedTexts)).
  { intros r Hreply Hcode. split; [split|]; try contradiction.
    intros [error He]. now elim (Hreply error). }
  destruct reply as [|status data|error]; cbn [responseTo].
  - destruct (Hfail Edge.timedOut) as (H1 & H2 & H3 & H4 & H5); [now right|].
    repeat (split; [assumption|]). now apply Hnot.
  - destruct (String.eqb status "completed").
    + cbn. split; [tauto|]. split; [tauto|]. split; [tauto|]. split.
      * intros ps [= <-]. destruct data as [pages|]; [|constructor].
        apply Forall_forall. intros page Hin. now apply filter_In in Hin.
      * split; [split; [discriminate|intros [error He]; discriminate]|discriminate].
    + destruct (Hfail Edge.failed) as (H1 & H2 & H3 & H4 & H5); [now left|].
      repeat (split; [assumption|]). now apply Hnot.
  - cbn. split; [tauto|]. split; [split; discriminate|].
    split; [split; discriminate|]. split; [intros ps [=]|].
    split; [split; [now exists error|reflexivity]|].
    intros _. eexists. split; [reflexivity|]. apply sanitizeError_texts.
Qed.

(** X25. The polling loop makes at most 30 status requests.  Its response
    is that of the first request, among the first 30, whose reply is
    completed or failed or that throws, replies that are not ok or carry
    another status being passed over; without such a request it is the
    408 time-out.  Replies after the 30th have no influence.  The status
    code is 200, 400, 408 or 500; it is 500 exactly when that first
    request throws, and the error text is then one of the four texts of
    [sanitizeError], whatever the message thrown.  Success goes with 200
    and with the absence of an error text, and the pages of a successful
    response all pass the HTML filter. *)
Theorem X25_polling_outcome :
  forall replyAt : nat -> Edge.PollReply,
    let r := Edge.pollCrawl replyAt in
    (forall k,
        (1 <= k <= 30)%nat -> terminal (replyAt k) = true ->
        (forall j, (1 <= j < k)%nat -> terminal (replyAt j) = false) ->
        r = responseTo (replyAt k)) /\
    ((forall j, (1 <= j <= 30)%nat -> terminal (replyAt j) = false) ->
     r = Edge.timedOut) /\
    (forall replyAt',
        (forall j, (1 <= j <= 30)%nat -> replyAt' j = replyAt j) ->
        Edge.pollCrawl replyAt' = r) /\
    In (Edge.code r) [200; 400; 408; 500] /\
    (Edge.success r = true <-> Edge.code r = 200) /\
    (Edge.success r = true <-> Edge.error r = None) /\
    (forall ps, Edge.pages r = Some ps ->
                Forall (fun page => Edge.isHtmlPage page = true) ps) /\
    (Edge.code r = 500 <->
     exists k error,
       (1 <= k <= 30)%nat /\ replyAt k = Edge.Throws error /\
       forall j, (1 <= j < k)%nat -> terminal (replyAt j) = false) /\
    (Edge.code r = 500 ->
     exists text, Edge.error r = Some text /\ In text sanitizedTexts).
Proof.
  intros replyAt r. subst r. unfold Edge.pollCrawl, Edge.maxAttempts.
  assert (Hfirst : forall reply k,
             (1 <= k <= 30)%nat -> terminal (reply k) = true ->
             (forall j, (1 <= j < k)%nat -> terminal (reply j) = false) ->
             Edge.poll reply 0 30 = responseTo (reply k)).
  { intros reply k Hk Hterm Hbefore.
    destruct (poll_first_terminal reply 30 0)
      as [(k' & Hk' & Hterm' & Hbefore' & Hres)|[Hnone _]].
    - assert (k' = k); [|now subst k'].
      destruct (Nat.lt_trichotomy k' k) as [Hlt|[Heq|Hgt]]; [|exact Heq|].
      + rewrite (Hbefore k') in Hterm' by lia. discriminate.
      + rewrite (Hbefore' k) in Hterm by lia. discriminate.
    - rewrite (Hnone k) in Hterm by lia. discriminate. }
  assert (Hnone : forall reply,
             (forall j, (1 <= j <= 30)%nat -> terminal (reply j) = false) ->
             Edge.poll reply 0 30 = Edge.timedOut).
  { intros reply Hall.
    destruct (poll_first_terminal reply 30 0)
      as [(k' & Hk' & Hterm' & _)|[_ Hres]]; [|exact Hres].
    rewrite (Hall k') in Hterm' by lia. discriminate. }
  split; [apply Hfirst|]. split; [apply Hnone|]. split.
  - intros reply' Hsame.
    destruct (poll_first_terminal replyAt 30 0)
      as [(k & Hk & Hterm & Hbefore & ->)|[Hall ->]].
    + rewrite <- (Hsame k) by lia. apply Hfirst; [lia| |].
      * rewrite Hsame by lia. exact Hterm.
      * intros j Hj. rewrite Hsame by lia. apply Hbefore. lia.
    + apply Hnone. intros j Hj. rewrite Hsame by lia. apply Hall. lia.
  - destruct (poll_first_terminal replyAt 30 0)
      as [(k & Hk & Hterm & Hbefore & ->)|[Hall ->]].
    + destruct (responseTo_shape (replyAt k))
        as (H1 & H2 & H3 & H4 & H5 & H6).
      repeat (split; [assumption|]). split; [|exact H6]. split.
      * intros H500. apply H5 in H500 as [error He].
        exists k, error. split; [lia|]. split; [exact He|].
        intros j Hj. apply Hbefore. lia.
      * intros (k' & error & Hk' & He & Hbefore').
        assert (k' = k); [|subst k'; apply H5; now exists error].
        destruct (Nat.lt_trichotomy k' k) as [Hlt|[Heq|Hgt]]; [|exact Heq|].
        -- pose proof (Hbefore k' ltac:(lia)) as Hc. rewrite He in Hc.
           discriminate.
        -- rewrite (Hbefore' k) in Hterm by lia. discriminate.
    + destruct (responseTo_shape Edge.NotOk)
        as (H1 & H2 & H3 & H4 & H5 & H6).
      repeat (split; [assumption|]). split; [|exact H6]. split.
      * intros H500. discriminate H500.
      * intros (k' & error & Hk' & He & _).
        specialize (Hall k'). rewrite He in Hall. cbn in Hall.
        specialize (Hall ltac:(lia)). discriminate.
Qed.

Lemma X25_sample_replies_witness :
  Edge.pollCrawl sampleReplies = responseTo (sampleReplies 5) /\
  Edge.pollCrawl interruptedReplies =
    Edge.mkResponse 500 false (Some "Network error occurred"%string) None.
Proof.
  split.
  - apply (proj1 (X25_polling_outcome sampleReplies) 5%nat).
    + lia.
    + reflexivity.
    + intros j Hj.
      destruct j as [|[|[|[|[|j]]]]]; try reflexivity; lia.
  - rewrite (proj1 (X25_polling_outcome interruptedReplies) 2%nat).
    + reflexivity.
    + lia.
    + reflexivity.
    + intros j Hj. destruct j as [|[|j]]; try reflexivity; lia.
Defined.
